(** * The visitor-counter client (class [VisitorCounter])

    A shallow embedding of the browser-side visitor counter: the values the
    script handles, the platform functions it calls, its effects on the
    document and on the local storage, and the retrying request loop.  An
    asynchronous method is a function from the page state to a completion
    and a page state; an [await] is a sequencing step.  The embedding starts
    at [initialize]: the registration of the listeners by the constructor is
    not part of it. *)

From Stdlib Require Import ZArith Ascii String List Lia Bool.
From stdpp Require Import base gmap strings pretty list.

Local Open Scope Z_scope.

(** ** JavaScript numbers

    A Number is an IEEE-754 double.  An integer-valued finite double is
    represented by its exact value [Int v] ([Int 0] is [+0]); a finite double
    that is not an integer is represented by the digits [s] and the decimal
    exponent [n] that [Number::toString] selects for it (its value is
    [s * 10^(n - k)] with [k] the number of digits of [s], [s] not a multiple
    of ten and [n < k]). *)

Inductive JsNumber : Type :=
| NaN
| Infinity (negative : bool)
| NegZero
| Int (v : Z)
| Frac (negative : bool) (s : Z) (n : Z).

Module Number.

Definition MAX_SAFE_INTEGER : Z := 2 ^ 53 - 1.

(** The double nearest to a non-negative integer, round-half-to-even on a
    53-bit significand; [None] when the result overflows to infinity. *)
Definition nearestDouble (z : Z) : option Z :=
  if z <=? 2 ^ 53 then Some z
  else
    let e := Z.log2 z - 52 in
    let q := z / 2 ^ e in
    let r := z mod 2 ^ e in
    let half := 2 ^ (e - 1) in
    let q' := if (half <? r) || ((r =? half) && Z.odd q) then q + 1 else q in
    let v := q' * 2 ^ e in
    if v <? 2 ^ 1024 then Some v else None.

(** The Number value for a mathematical integer (the operation written
    with a blackboard F in ECMAScript). *)
Definition ofInteger (z : Z) : JsNumber :=
  match nearestDouble (Z.abs z) with
  | Some v => Int (Z.sgn z * v)
  | None => Infinity (z <? 0)
  end.

(** Decimal digits of a non-negative integer. *)
Definition decimalDigits (v : Z) : string := pretty (Z.to_N v).

Definition numDigits (v : Z) : Z := Z.of_nat (String.length (decimalDigits v)).

Fixpoint zeros (n : nat) : string :=
  match n with
  | O => ""
  | S n' => String "0" (zeros n')
  end.

(** [Number::toString] step 5 for an integer-valued double [v > 0]: the
    integer [s * 10^(n-k)] with the fewest significant digits [k] that still
    denotes [v]; of two candidates the closer one, and on a tie the one with
    even [s]. *)
Fixpoint shortestFrom (fuel : nat) (k : Z) (v : Z) : Z :=
  match fuel with
  | O => v
  | S fuel' =>
      let p := 10 ^ (numDigits v - k) in
      let lo := (v / p) * p in
      let hi := lo + p in
      let okLo := bool_decide (nearestDouble lo = Some v) in
      let okHi := bool_decide (nearestDouble hi = Some v) in
      if okLo && okHi then
        if v - lo <? hi - v then lo
        else if hi - v <? v - lo then hi
        else if Z.even (v / p) then lo else hi
      else if okLo then lo
      else if okHi then hi
      else shortestFrom fuel' (k + 1) v
  end.

Definition shortestInteger (v : Z) : Z :=
  if v <=? 2 ^ 53 then v else shortestFrom (Z.to_nat (numDigits v)) 1 v.

(** Removes the trailing zeros of a digit string. *)
Fixpoint stripZeros (s : string) : string :=
  match s with
  | "" => ""
  | String c r =>
      match stripZeros r with
      | "" => if Ascii.eqb c "0" then "" else String c ""
      | r' => String c r'
      end
  end.

(** [Number::toString] steps 6 to 10: the digits [ds] of [s] (there are [k])
    laid out for the decimal exponent [n]. *)
Definition layout (ds : string) (n : Z) : string :=
  let k := Z.of_nat (String.length ds) in
  if (k <=? n) && (n <=? 21) then
    ds +:+ zeros (Z.to_nat (n - k))
  else if (0 <? n) && (n <=? 21) then
    String.substring 0 (Z.to_nat n) ds +:+ "." +:+
    String.substring (Z.to_nat n) (Z.to_nat (k - n)) ds
  else if (-6 <? n) && (n <=? 0) then
    "0." +:+ zeros (Z.to_nat (- n)) +:+ ds
  else
    let e := n - 1 in
    let exponent := (if e <? 0 then "-" else "+") +:+ decimalDigits (Z.abs e) in
    match ds with
    | String d "" => String d "" +:+ "e" +:+ exponent
    | String d rest => String d "" +:+ "." +:+ rest +:+ "e" +:+ exponent
    | "" => ""
    end.

(** [Number::toString(x, 10)]. *)
Definition toString (x : JsNumber) : string :=
  match x with
  | NaN => "NaN"
  | Infinity neg => if neg then "-Infinity" else "Infinity"
  | NegZero => "0"
  | Int v =>
      let t := shortestInteger (Z.abs v) in
      (if v <? 0 then "-" else "") +:+
      (if t <? 10 ^ 21 then decimalDigits t
       else layout (stripZeros (decimalDigits t)) (numDigits t))
  | Frac neg s n =>
      (if neg then "-" else "") +:+ layout (decimalDigits s) n
  end.

(** The value of a finite Number as a fraction [(numerator, denominator)]. *)
Definition toFraction (x : JsNumber) : option (Z * Z) :=
  match x with
  | NegZero => Some (0, 1)
  | Int v => Some (v, 1)
  | Frac neg s n =>
      let d := numDigits s - n in
      let num := if neg then - s else s in
      Some (if 0 <=? d then (num, 10 ^ d) else (num * 10 ^ (- d), 1))
  | _ => None
  end.

(** [x <= y] on Numbers: false whenever an operand is [NaN]. *)
Definition le (x y : JsNumber) : bool :=
  match x, y with
  | NaN, _ | _, NaN => false
  | Infinity true, _ => true
  | _, Infinity false => true
  | Infinity false, _ => false
  | _, Infinity true => false
  | _, _ =>
      match toFraction x, toFraction y with
      | Some (a, b), Some (c, d) => a * d <=? c * b
      | _, _ => false
      end
  end.

(** [x >= y]. *)
Definition ge (x y : JsNumber) : bool := le y x.

Definition isNaN (x : JsNumber) : bool :=
  match x with NaN => true | _ => false end.

End Number.


(** ** Errors and completions

    A thrown value is an error object with a [name] and a [message]; the
    texts of the errors the platform raises are the engine's. *)

Record JsError : Type := mkError { name : string; message : string }.

Definition Error (msg : string) : JsError := mkError "Error" msg.
Definition TypeError (msg : string) : JsError := mkError "TypeError" msg.

Inductive Completion (A : Type) : Type :=
| Normal (a : A)
| Throw (e : JsError).
Arguments Normal {A} a.
Arguments Throw {A} e.

(** ** Values

    The values the script handles: [undefined] and what [JSON.parse] builds.
    The members of an object are kept in source order; of two members with
    one name the later one is the property's value. *)

#[warnings="-register-all"]
Inductive JsValue : Type :=
| VUndefined
| VNull
| VBoolean (b : bool)
| VNumber (x : JsNumber)
| VString (s : string)
| VArray (items : list JsValue)
| VObject (members : list (string * JsValue)).

Definition typeof (v : JsValue) : string :=
  match v with
  | VUndefined => "undefined"
  | VBoolean _ => "boolean"
  | VNumber _ => "number"
  | VString _ => "string"
  | VNull | VArray _ | VObject _ => "object"
  end.

Definition ToBoolean (v : JsValue) : bool :=
  match v with
  | VUndefined | VNull => false
  | VBoolean b => b
  | VNumber NaN | VNumber NegZero | VNumber (Int 0) => false
  | VString "" => false
  | _ => true
  end.

Fixpoint lookupMember (key : string) (members : list (string * JsValue)) : option JsValue :=
  match members with
  | [] => None
  | (k, v) :: rest =>
      match lookupMember key rest with
      | Some later => Some later
      | None => if String.eqb k key then Some v else None
      end
  end.

Definition hasOwn (key : string) (members : list (string * JsValue)) : bool :=
  bool_decide (is_Some (lookupMember key members)).

(** [ToString(v)].  An object made by [JSON.parse] inherits
    [Object.prototype.toString] unless a member named [toString] shadows it
    with a value that cannot be called. *)
Fixpoint ToString (v : JsValue) : Completion string :=
  match v with
  | VUndefined => Normal "undefined"
  | VNull => Normal "null"
  | VBoolean b => Normal (if b then "true" else "false")
  | VNumber x => Normal (Number.toString x)
  | VString s => Normal s
  | VArray items =>
      (fix join (l : list JsValue) : Completion string :=
         match l with
         | [] => Normal ""
         | x :: rest =>
             let first :=
               match x with
               | VUndefined | VNull => Normal ""
               | _ => ToString x
               end in
             match first with
             | Throw e => Throw e
             | Normal a =>
                 match rest with
                 | [] => Normal a
                 | _ =>
                     match join rest with
                     | Throw e => Throw e
                     | Normal b => Normal (a +:+ "," +:+ b)
                     end
                 end
             end
         end) items
  | VObject members =>
      if hasOwn "toString" members
      then Throw (TypeError "Cannot convert object to primitive value")
      else Normal "[object Object]"
  end.

(** The method call [v.toString()]. *)
Definition toStringMethod (v : JsValue) : Completion string :=
  match v with
  | VUndefined => Throw (TypeError "Cannot read properties of undefined (reading 'toString')")
  | VNull => Throw (TypeError "Cannot read properties of null (reading 'toString')")
  | VObject members =>
      if hasOwn "toString" members
      then Throw (TypeError "count.toString is not a function")
      else Normal "[object Object]"
  | _ => ToString v
  end.

(** The property read [v.key], for a [key] that no built-in prototype
    defines (the script reads [count] and [message]). *)
Definition getProperty (v : JsValue) (key : string) : Completion JsValue :=
  match v with
  | VUndefined =>
      Throw (TypeError ("Cannot read properties of undefined (reading '" +:+ key +:+ "')"))
  | VNull =>
      Throw (TypeError ("Cannot read properties of null (reading '" +:+ key +:+ "')"))
  | VObject members => Normal (default VUndefined (lookupMember key members))
  | _ => Normal VUndefined
  end.

(** ** Strings: the platform functions the script calls *)

Definition isDigit (c : ascii) : bool :=
  let n := Z.of_nat (nat_of_ascii c) in (48 <=? n) && (n <=? 57).

Definition digitValue (c : ascii) : Z := Z.of_nat (nat_of_ascii c) - 48.

(** White space and line terminators among the code units below 256. *)
Definition isWhiteSpace (c : ascii) : bool :=
  let n := Z.of_nat (nat_of_ascii c) in
  ((9 <=? n) && (n <=? 13)) || (n =? 32) || (n =? 160).

Fixpoint trimStart (s : string) : string :=
  match s with
  | String c rest => if isWhiteSpace c then trimStart rest else s
  | "" => ""
  end.

Fixpoint digitPrefix (s : string) : string :=
  match s with
  | String c rest => if isDigit c then String c (digitPrefix rest) else ""
  | "" => ""
  end.

Fixpoint digitsValue (acc : Z) (s : string) : Z :=
  match s with
  | String c rest => digitsValue (10 * acc + digitValue c) rest
  | "" => acc
  end.

(** [parseInt(input, 10)]: the input is converted to a string, leading white
    space and one sign are skipped, and the longest prefix of decimal digits
    is the result, [NaN] when there is none. *)
Definition parseInt10 (input : JsValue) : Completion JsNumber :=
  match ToString input with
  | Throw e => Throw e
  | Normal inputString =>
      let trimmed := trimStart inputString in
      let negative :=
        match trimmed with String "-" _ => true | _ => false end in
      let unsigned :=
        match trimmed with
        | String "+" rest | String "-" rest => rest
        | _ => trimmed
        end in
      let digits := digitPrefix unsigned in
      match digits with
      | "" => Normal NaN
      | _ =>
          let mathInt := digitsValue 0 digits in
          if mathInt =? 0 then Normal (if negative then NegZero else Int 0)
          else Normal (Number.ofInteger (if negative then - mathInt else mathInt))
      end
  end.

(** [haystack.includes(needle)]. *)
Fixpoint includes (needle haystack : string) : bool :=
  String.prefix needle haystack ||
  match haystack with
  | String _ rest => includes needle rest
  | "" => false
  end.

(** [s.replace(/[^\d]/g, '')]: every character that is not a decimal digit
    is removed. *)
Fixpoint removeNonDigits (s : string) : string :=
  match s with
  | String c rest =>
      if isDigit c then String c (removeNonDigits rest) else removeNonDigits rest
  | "" => ""
  end.


(** ** The document

    An element carries its id (the empty string when it has none), its class
    list, its other attributes and its child nodes. *)

Record ElementData : Type := mkElement {
  id : string;
  classList : list string;
  attributes : gmap string string
}.

#[warnings="-register-all"]
Inductive Node : Type :=
| Text (data : string)
| Element (e : ElementData) (childNodes : list Node).

(** An element as the script holds it: its data and its children. *)
Definition Elem : Type := ElementData * list Node.

Module DOM.

(** The first element in tree order whose id is [i], inside node [n]. *)
Fixpoint findNode (i : string) (n : Node) : option Elem :=
  match n with
  | Text _ => None
  | Element e kids =>
      if String.eqb (id e) i then Some (e, kids)
      else
        (fix findIn (l : list Node) : option Elem :=
           match l with
           | [] => None
           | c :: rest =>
               match findNode i c with
               | Some found => Some found
               | None => findIn rest
               end
           end) kids
  end.

Fixpoint findIn (i : string) (l : list Node) : option Elem :=
  match l with
  | [] => None
  | c :: rest =>
      match findNode i c with
      | Some found => Some found
      | None => findIn i rest
      end
  end.

Definition toNode (el : Elem) : Node := Element (fst el) (snd el).

(** Replaces the first element in tree order whose id is [i] by [f] of it;
    [None] when no element has that id. *)
Fixpoint updateNode (i : string) (f : Elem -> Elem) (n : Node) : option Node :=
  match n with
  | Text _ => None
  | Element e kids =>
      if String.eqb (id e) i then Some (toNode (f (e, kids)))
      else
        option_map (Element e)
          ((fix updateIn (l : list Node) : option (list Node) :=
              match l with
              | [] => None
              | c :: rest =>
                  match updateNode i f c with
                  | Some c' => Some (c' :: rest)
                  | None => option_map (cons c) (updateIn rest)
                  end
              end) kids)
  end.

Fixpoint updateIn (i : string) (f : Elem -> Elem) (l : list Node) : option (list Node) :=
  match l with
  | [] => None
  | c :: rest =>
      match updateNode i f c with
      | Some c' => Some (c' :: rest)
      | None => option_map (cons c) (updateIn i f rest)
      end
  end.

(** [document.getElementById(i)]: no element has the empty id. *)
Definition getElementById (i : string) (doc : list Node) : option Elem :=
  if String.eqb i "" then None else findIn i doc.

(** The document after the element that [getElementById i] returns has been
    mutated by [f]. *)
Definition updateElementById (i : string) (f : Elem -> Elem) (doc : list Node) : list Node :=
  if String.eqb i "" then doc else default doc (updateIn i f doc).

(** The [textContent] getter: the text of all descendants, in tree order. *)
Fixpoint textOfNode (n : Node) : string :=
  match n with
  | Text data => data
  | Element _ kids =>
      (fix textOf (l : list Node) : string :=
         match l with
         | [] => ""
         | c :: rest => textOfNode c +:+ textOf rest
         end) kids
  end.

Definition textContent (el : Elem) : string := textOfNode (toNode el).

(** The [textContent] setter: the children are replaced by one text node,
    by none when the string is empty. *)
Definition setTextContent (value : string) (el : Elem) : Elem :=
  (fst el, match value with "" => [] | _ => [Text value] end).

(** The [innerHTML] setter, given the nodes the markup parses to. *)
Definition setInnerHTML (parsed : list Node) (el : Elem) : Elem := (fst el, parsed).

(** [element.classList.add(token)]. *)
Definition classListAdd (token : string) (el : Elem) : Elem :=
  let e := fst el in
  (mkElement (id e)
     (if bool_decide (token ∈ classList e) then classList e else classList e ++ [token])
     (attributes e),
   snd el).

(** [element.setAttribute(name, value)] for an attribute other than [id]
    and [class]. *)
Definition setAttribute (attr value : string) (el : Elem) : Elem :=
  let e := fst el in
  (mkElement (id e) (classList e) (<[attr := value]> (attributes e)), snd el).

Definition getAttribute (attr : string) (el : Elem) : option string :=
  attributes (fst el) !! attr.

End DOM.

(** ** Configuration, requests and the page state *)

Record Config : Type := mkConfig {
  API_URL : string;
  ELEMENT_ID : string;
  MAX_RETRIES : Z;
  RETRY_DELAY : Z;
  TIMEOUT : Z;
  DEBUG : bool
}.

Definition CONFIG : Config := {|
  API_URL := "https://raj-azure-resume-counter-apim.azure-api.net/raj-azure-resume-counter/counter";
  ELEMENT_ID := "visitor-count";
  MAX_RETRIES := 3;
  RETRY_DELAY := 1000;
  TIMEOUT := 15000;
  DEBUG := true
|}.

Record RequestInit : Type := mkRequest {
  method : string;
  headers : list (string * string);
  credentials : string;
  mode : string
}.

(** A response: its status, its [content-type] header ([None] when the
    header is absent) and what [response.json()] settles to. *)
Record Response : Type := mkResponse {
  status : Z;
  contentType : option string;
  json : Completion JsValue
}.

(** [response.ok]. *)
Definition ok (r : Response) : bool := (200 <=? status r) && (status r <=? 299).

(** How one [fetch] call settles when nothing aborts it: it resolves, it
    rejects, or it is still pending when the [TIMEOUT] timer fires. *)
Inductive FetchOutcome : Type :=
| Resolves (r : Response)
| Rejects (e : JsError)
| Pending.

(** What the page gives the script: the [URL] constructor ([None] when it
    throws, else the [protocol] of the parsed URL), the outcome of the k-th
    [fetch] call, and the k-th random UUID. *)
Record Platform : Type := mkPlatform {
  urlProtocol : string -> option string;
  network : nat -> string -> RequestInit -> FetchOutcome;
  randomUUID : nat -> string
}.

(** Timers and requests, in the order they happen. *)
Inductive Event : Type :=
| SetTimeout (ms : Z)
| ClearTimeout
| Fetch (url : string) (init : RequestInit)
| Delay (ms : Z).

(** Console output; the line of [ConsoleLog] is kept without its
    [[VisitorCounter <timestamp>]] prefix. *)
Inductive ConsoleEntry : Type :=
| ConsoleLog (line : string)
| ConsoleError (line : string).

Record State : Type := mkState {
  document : list Node;
  csrfMeta : option string;
  localStorage : gmap string string;
  aborted : bool;
  uuids : nat;
  trace : list Event;
  console : list ConsoleEntry
}.

Definition isFetch (ev : Event) : bool :=
  match ev with Fetch _ _ => true | _ => false end.

(** The [fetch] calls of a trace. *)
Definition fetchCalls (tr : list Event) : list Event := List.filter isFetch tr.

(** The back-off delays of a trace. *)
Fixpoint delays (tr : list Event) : list Z :=
  match tr with
  | [] => []
  | Delay ms :: rest => ms :: delays rest
  | _ :: rest => delays rest
  end.

(** The methods of the [fetch] calls of a trace. *)
Fixpoint fetchMethods (tr : list Event) : list string :=
  match tr with
  | [] => []
  | Fetch _ init :: rest => method init :: fetchMethods rest
  | _ :: rest => fetchMethods rest
  end.

(** ** Sequencing: state and exceptions *)

Definition M (A : Type) : Type := State -> Completion A * State.

Definition ret {A} (a : A) : M A := fun st => (Normal a, st).

Definition bind {A B} (m : M A) (k : A -> M B) : M B :=
  fun st =>
    match m st with
    | (Normal a, st') => k a st'
    | (Throw e, st') => (Throw e, st')
    end.

Definition throw {A} (e : JsError) : M A := fun st => (Throw e, st).

Definition tryCatch {A} (body : M A) (handler : JsError -> M A) : M A :=
  fun st =>
    match body st with
    | (Normal a, st') => (Normal a, st')
    | (Throw e, st') => handler e st'
    end.

(** A computation without effect on the state. *)
Definition lift {A} (c : Completion A) : M A := fun st => (c, st).

Declare Scope js_scope.
Delimit Scope js_scope with js.
Notation "x <- m ;; k" := (bind m (fun x => k))
  (at level 100, m at next level, right associativity) : js_scope.
Notation "m ;; k" := (bind m (fun _ => k))
  (at level 100, right associativity) : js_scope.
Local Open Scope js_scope.

(** Appends an event to the trace. *)
Definition emit (ev : Event) : M unit :=
  fun st =>
    (Normal tt,
     mkState (document st) (csrfMeta st) (localStorage st) (aborted st)
       (uuids st) (trace st ++ [ev]) (console st)).

(** [console.log] and [console.error]. *)
Definition print (entry : ConsoleEntry) : M unit :=
  fun st =>
    (Normal tt,
     mkState (document st) (csrfMeta st) (localStorage st) (aborted st)
       (uuids st) (trace st) (console st ++ [entry])).

(** Replaces the document by its mutated version. *)
Definition setDocument (doc : list Node) : M unit :=
  fun st =>
    (Normal tt,
     mkState doc (csrfMeta st) (localStorage st) (aborted st)
       (uuids st) (trace st) (console st)).

(** [localStorage.setItem(key, value)]. *)
Definition setItem (key value : string) : M unit :=
  fun st =>
    (Normal tt,
     mkState (document st) (csrfMeta st) (<[key := value]> (localStorage st))
       (aborted st) (uuids st) (trace st) (console st)).

(** [localStorage.getItem(key)]: [None] is [null]. *)
Definition getItem (key : string) : M (option string) :=
  fun st => (Normal (localStorage st !! key), st).

(** The exception with which an aborted [fetch] rejects. *)
Definition AbortError : JsError :=
  mkError "AbortError" "signal is aborted without reason".

(** ** The class [VisitorCounter]

    [platform] is the page the instance runs in and [config] is
    [this.config]; [this.controller] is the [aborted] flag of the state. *)

(** The second argument of [debugLog]: an error object that a handler
    caught, or the parsed body of a response. *)
Inductive Loggable : Type :=
| LogError (e : JsError)
| LogValue (v : JsValue).

Section VisitorCounter.

Variable platform : Platform.
Variable config : Config.

(** An integer inside a template literal. *)
Definition showNumber (z : Z) : string := Number.toString (Int z).

Definition debugLog (message : string) (error : option Loggable) : M unit :=
  if DEBUG config then
    print (ConsoleLog message) ;;
    match error with
    | None => ret tt
    | Some (LogError (mkError _ text)) =>
        print (ConsoleError ("[VisitorCounter Error] " +:+ text))
    | Some (LogValue v) =>
        if ToBoolean v then
          m <- lift (getProperty v "message") ;;
          text <- lift (ToString m) ;;
          print (ConsoleError ("[VisitorCounter Error] " +:+ text))
        else ret tt
    end
  else ret tt.

Definition isValidUrl (string : string) : bool :=
  match urlProtocol platform string with
  | Some protocol => String.eqb protocol "http:" || String.eqb protocol "https:"
  | None => false
  end.

(** [fetch(url, { ...options, signal: this.controller.signal })] under the
    [TIMEOUT] timer: an aborted signal rejects the call at once; a call
    still pending when the timer fires is aborted by it. *)
Definition fetch (url : string) (options : RequestInit) : M Response :=
  fun st =>
    let k := length (fetchCalls (trace st)) in
    let st' :=
      mkState (document st) (csrfMeta st) (localStorage st) (aborted st)
        (uuids st) (trace st ++ [Fetch url options]) (console st) in
    if aborted st then (Throw AbortError, st')
    else
      match network platform k url options with
      | Resolves r => (Normal r, st')
      | Rejects e => (Throw e, st')
      | Pending =>
          (Throw AbortError,
           mkState (document st) (csrfMeta st) (localStorage st) true
             (uuids st) (trace st ++ [Fetch url options]) (console st))
      end.

(** The body of the loop of [fetchWithRetryAndTimeout] at index [i]:
    [Some response] when it returns, [None] when the loop goes on.  The
    delay [RETRY_DELAY * Math.pow(2, i)] is the exact product, as it is in
    doubles while it stays below [2^53]. *)
Definition attempt (i : Z) (url : string) (options : RequestInit) : M (option Response) :=
  debugLog ("Attempt " +:+ showNumber (i + 1) +:+ " of " +:+ showNumber (MAX_RETRIES config)) None ;;
  emit (SetTimeout (TIMEOUT config)) ;;
  tryCatch
    (response <- fetch url options ;;
     emit ClearTimeout ;;
     if negb (ok response) then
       throw (Error ("HTTP error! status: " +:+ showNumber (status response)))
     else
       match contentType response with
       | None => throw (Error "Invalid response content-type")
       | Some contentType =>
           if negb (includes "application/json" contentType)
           then throw (Error "Invalid response content-type")
           else ret (Some response)
       end)
    (fun error =>
       emit ClearTimeout ;;
       debugLog ("Fetch attempt " +:+ showNumber (i + 1) +:+ " failed") (Some (LogError error)) ;;
       if String.eqb (name error) "AbortError" then
         throw (Error "Request timed out")
       else if i =? MAX_RETRIES config - 1 then
         throw error
       else
         let delay := RETRY_DELAY config * 2 ^ i in
         debugLog ("Waiting " +:+ showNumber delay +:+ "ms before retry") None ;;
         emit (Delay delay) ;;
         ret None).

(** [for (let i = 0; i < MAX_RETRIES; i++)]: [remaining] counts the
    indices left below [MAX_RETRIES]; a loop that runs out returns
    [undefined], written [None]. *)
Fixpoint attemptsFrom (remaining : nat) (i : Z) (url : string) (options : RequestInit)
    : M (option Response) :=
  match remaining with
  | O => ret None
  | S remaining' =>
      returned <- attempt i url options ;;
      match returned with
      | Some response => ret (Some response)
      | None => attemptsFrom remaining' (i + 1) url options
      end
  end.

Definition fetchWithRetryAndTimeout (url : string) (options : RequestInit)
    : M (option Response) :=
  attemptsFrom (Z.to_nat (MAX_RETRIES config)) 0 url options.

Definition isValidVisitorCount (count : JsValue) : Completion bool :=
  if negb (String.eqb (typeof count) "number") then Normal false
  else
    match parseInt10 count with
    | Throw e => Throw e
    | Normal parsed =>
        Normal (negb (Number.isNaN parsed) && Number.ge parsed (Int 0)
                && Number.le parsed (Int Number.MAX_SAFE_INTEGER))
    end.

(** [crypto.randomUUID()]. *)
Definition freshUUID : M string :=
  fun st =>
    (Normal (randomUUID platform (uuids st)),
     mkState (document st) (csrfMeta st) (localStorage st) (aborted st)
       (S (uuids st)) (trace st) (console st)).

(** [document.querySelector('meta[name="csrf-token"]')?.content]. *)
Definition csrfToken : M (option string) := fun st => (Normal (csrfMeta st), st).

Definition makeRequest (method : string) : M JsValue :=
  debugLog ("Making " +:+ method +:+ " request to " +:+ API_URL config) None ;;
  tryCatch
    (uuid <- freshUUID ;;
     let headers :=
       [("Accept", "application/json"); ("Cache-Control", "no-cache");
        ("X-Correlation-ID", uuid)] in
     headers <-
       (if String.eqb method "POST" then
          token <- csrfToken ;;
          match token with
          | None | Some "" => ret (headers ++ [("Content-Type", "application/json")])
          | Some csrf =>
              ret (headers ++ [("Content-Type", "application/json"); ("X-CSRF-Token", csrf)])
          end
        else ret headers) ;;
     let options := mkRequest method headers "same-origin" "cors" in
     response <- fetchWithRetryAndTimeout (API_URL config) options ;;
     data <-
       match response with
       | Some response => lift (json response)
       | None => throw (TypeError "Cannot read properties of undefined (reading 'json')")
       end ;;
     debugLog "Response data received" (Some (LogValue data)) ;;
     count <- lift (getProperty data "count") ;;
     valid <- lift (isValidVisitorCount count) ;;
     if negb valid then
       text <- lift (ToString count) ;;
       throw (Error ("Invalid visitor count received: " +:+ text))
     else ret count)
    (fun error =>
       debugLog "Request failed" (Some (LogError error)) ;;
       throw error).

Definition updateDOM (count : JsValue) : M unit :=
  text <- lift (toStringMethod count) ;;
  setItem "visitorCount" (removeNonDigits text) ;;
  fun st =>
    match DOM.getElementById "count-value" (document st) with
    | Some _ =>
        (cachedCount <- getItem "visitorCount" ;;
         setDocument
           (DOM.updateElementById "count-value"
              (fun countValueElement =>
                 DOM.setAttribute "aria-label"
                   ("Visitor count: " +:+ default "null" cachedCount)
                   (DOM.setTextContent (default "" cachedCount) countValueElement))
              (document st)) ;;
         debugLog ("DOM updated with count: " +:+ default "null" cachedCount) None) st
    | None =>
        debugLog ("Element with id " +:+ ELEMENT_ID config +:+ " not found") None st
    end.

Definition handleError (message : string) (error : option Loggable) : M unit :=
  debugLog message error ;;
  fun st =>
    match DOM.getElementById (ELEMENT_ID config) (document st) with
    | Some _ =>
        setDocument
          (DOM.updateElementById (ELEMENT_ID config)
             (fun element =>
                DOM.setAttribute "aria-label" "Error loading visitor count"
                  (DOM.classListAdd "counter-error"
                     (DOM.setTextContent "Unable to load visitor count" element)))
             (document st)) st
    | None => (Normal tt, st)
    end.

Definition updateVisitorCount : M unit :=
  tryCatch
    (count <- makeRequest "GET" ;;
     updateDOM count ;;
     text <- lift (ToString count) ;;
     debugLog ("Visitor count updated: " +:+ text) None)
    (fun error =>
       handleError "Error fetching visitor count" (Some (LogError error)) ;;
       throw error).

Definition incrementVisitorCount : M JsValue :=
  tryCatch
    (count <- makeRequest "POST" ;;
     updateDOM count ;;
     text <- lift (ToString count) ;;
     debugLog ("Visitor count incremented: " +:+ text) None ;;
     ret count)
    (fun error =>
       handleError "Error incrementing visitor count" (Some (LogError error)) ;;
       throw error).

(** [visitorCountElement.innerHTML = '<span id="count-value">Loading...</span></span>']:
    the fragment parses to one [span]; the unmatched end tag is dropped. *)
Definition loadingMarkup : list Node :=
  [Element (mkElement "count-value" [] ∅) [Text "Loading..."]].

Definition initialize : M unit :=
  debugLog "Starting initialization" None ;;
  tryCatch
    ((if negb (isValidUrl (API_URL config)) then
        throw (Error "Invalid API URL configuration")
      else ret tt) ;;
     (fun st =>
        match DOM.getElementById (ELEMENT_ID config) (document st) with
        | Some _ =>
            setDocument
              (DOM.updateElementById (ELEMENT_ID config)
                 (DOM.setInnerHTML loadingMarkup) (document st)) st
        | None =>
            (Throw (TypeError "Cannot set properties of null (setting 'innerHTML')"), st)
        end) ;;
     incrementVisitorCount ;;
     updateVisitorCount ;;
     debugLog "Initialization completed successfully" None)
    (fun error =>
       handleError "Failed to initialize visitor counter" (Some (LogError error))).

End VisitorCounter.

(** ** A page and a platform for the examples *)

Definition isAlpha (c : ascii) : bool :=
  let n := Z.of_nat (nat_of_ascii c) in
  ((65 <=? n) && (n <=? 90)) || ((97 <=? n) && (n <=? 122)).

(** The scheme of a URL string up to its colon, as the URL parser's scheme
    state reads it; a string without a scheme has no base to resolve
    against, and the constructor throws. *)
Fixpoint schemeRest (s : string) : option string :=
  match s with
  | String c rest =>
      if Ascii.eqb c ":" then Some ":"
      else if isAlpha c || isDigit c || Ascii.eqb c "+" || Ascii.eqb c "-" || Ascii.eqb c "."
      then option_map (String c) (schemeRest rest)
      else None
  | "" => None
  end.

Definition schemeOf (s : string) : option string :=
  match s with
  | String c rest => if isAlpha c then option_map (String c) (schemeRest rest) else None
  | "" => None
  end.

(** A platform whose k-th [fetch] call settles as the k-th outcome of a
    script, and stays pending once the script is used up. *)
Definition scripted (outcomes : list FetchOutcome) : Platform := {|
  urlProtocol := schemeOf;
  network := fun k _ _ => nth k outcomes Pending;
  randomUUID := fun _ => "3b241101-e2bb-4255-8caf-4136c566a962"
|}.

Definition jsonResponse (count : JsValue) : Response :=
  mkResponse 200 (Some "application/json; charset=utf-8")
    (Normal (VObject [("count", count)])).

(** Request options for a bare [GET]. *)
Definition someRequest : RequestInit := mkRequest "GET" [] "same-origin" "cors".

(** The page before the script runs: the container is there and empty. *)
Definition freshPage : State := {|
  document := [Element (mkElement "visitor-count" [] ∅) []];
  csrfMeta := None;
  localStorage := ∅;
  aborted := false;
  uuids := 0;
  trace := [];
  console := []
|}.

(** The same page without the container. *)
Definition emptyPage : State := {|
  document := [];
  csrfMeta := None;
  localStorage := ∅;
  aborted := false;
  uuids := 0;
  trace := [];
  console := []
|}.

(** ** Vocabulary of the properties *)

Definition isScheduled (ev : Event) : bool :=
  match ev with Fetch _ _ | Delay _ => true | _ => false end.

(** The requests and back-off delays of a trace, in order. *)
Definition schedule (tr : list Event) : list Event := List.filter isScheduled tr.

(** [retries] failed attempts from index [i] on, each followed by its
    back-off delay, and one more attempt after them. *)
Fixpoint backoffSchedule (base : Z) (url : string) (options : RequestInit)
    (i : Z) (retries : nat) : list Event :=
  match retries with
  | O => [Fetch url options]
  | S retries' =>
      Fetch url options :: Delay (base * 2 ^ i)
        :: backoffSchedule base url options (i + 1) retries'
  end.

(** The error an attempt raises inside its [try] block for an outcome of
    its [fetch] call; [None] when the attempt returns the response. *)
Definition attemptError (o : FetchOutcome) : option JsError :=
  match o with
  | Rejects e => Some e
  | Pending => Some AbortError
  | Resolves r =>
      if negb (ok r) then Some (Error ("HTTP error! status: " +:+ showNumber (status r)))
      else
        match contentType r with
        | None => Some (Error "Invalid response content-type")
        | Some ct =>
            if includes "application/json" ct then None
            else Some (Error "Invalid response content-type")
        end
  end.

(** An outcome that fails the attempt with an error other than an abort. *)
Definition failsRetryably (o : FetchOutcome) : Prop :=
  exists e, attemptError o = Some e /\ name e <> "AbortError".

(** An outcome that fails the attempt because the request was aborted. *)
Definition timesOut (o : FetchOutcome) : Prop :=
  exists e, attemptError o = Some e /\ name e = "AbortError".

(** Nothing but the console differs between two states. *)
Definition sameButConsole (st st' : State) : Prop :=
  document st' = document st /\ csrfMeta st' = csrfMeta st /\
  localStorage st' = localStorage st /\ aborted st' = aborted st /\
  uuids st' = uuids st /\ trace st' = trace st.

(** The page (document and storage) is the same in two states. *)
Definition samePage (st st' : State) : Prop :=
  document st' = document st /\ localStorage st' = localStorage st.

(** An operation leaves the relation [R] between the state it starts in and
    the state it ends in. *)
Definition keeps (R : State -> State -> Prop) {A} (m : M A) : Prop :=
  forall st, R st (snd (m st)).

(** The state [st'] is [st] after the requests and delays [evs]: the page,
    the storage and the UUID counter are the same. *)
Definition extends (evs : list Event) (st st' : State) : Prop :=
  document st' = document st /\ csrfMeta st' = csrfMeta st /\
  localStorage st' = localStorage st /\ uuids st' = uuids st /\
  schedule (trace st') = schedule (trace st) ++ evs.

(** How the attempt of index [i] ends the loop when its [fetch] call settles
    as [o] under a signal that is not aborted: the completion of
    [fetchWithRetryAndTimeout], or [None] when the loop goes on to the next
    attempt. *)
Definition settles (config : Config) (i : Z) (o : FetchOutcome)
    : option (Completion (option Response)) :=
  match attemptError o with
  | Some e =>
      if String.eqb (name e) "AbortError" then Some (Throw (Error "Request timed out"))
      else if i =? MAX_RETRIES config - 1 then Some (Throw e)
      else None
  | None =>
      match o with
      | Resolves r => Some (Normal (Some r))
      | _ => None
      end
  end.

(** The state [st] with the console [con]. *)
Definition withConsole (con : list ConsoleEntry) (st : State) : State :=
  mkState (document st) (csrfMeta st) (localStorage st) (aborted st) (uuids st) (trace st) con.

(** The lines [debugLog] prints for a message and an optional error object. *)
Definition logLines (config : Config) (msg : string) (e : option JsError) : list ConsoleEntry :=
  if DEBUG config then
    ConsoleLog msg ::
    match e with
    | Some e => [ConsoleError ("[VisitorCounter Error] " +:+ message e)]
    | None => []
    end
  else [].

(** ** Induction on nodes *)

Section NodeInduction.

Variable P : Node -> Prop.
Hypothesis HText : forall data, P (Text data).
Hypothesis HElement : forall e kids, Forall P kids -> P (Element e kids).

Fixpoint Node_nested_ind (n : Node) : P n :=
  match n with
  | Text data => HText data
  | Element e kids =>
      HElement e kids
        ((fix all (l : list Node) : Forall P l :=
            match l with
            | [] => @List.Forall_nil Node P
            | c :: rest => @List.Forall_cons Node P c rest (Node_nested_ind c) (all rest)
            end) kids)
  end.

End NodeInduction.

(** ** [makeRequest], piece by piece *)

(** The options [makeRequest] builds in state [st]. *)
Definition requestOptions (platform : Platform) (method : string) (st : State) : RequestInit :=
  let headers :=
    [("Accept", "application/json"); ("Cache-Control", "no-cache");
     ("X-Correlation-ID", randomUUID platform (uuids st))] in
  mkRequest method
    (if String.eqb method "POST" then
       match csrfMeta st with
       | None | Some "" => headers ++ [("Content-Type", "application/json")]
       | Some csrf =>
           headers ++ [("Content-Type", "application/json"); ("X-CSRF-Token", csrf)]
       end
     else headers)
    "same-origin" "cors".

(** The state in which [makeRequest] calls [fetchWithRetryAndTimeout]. *)
Definition prepared (config : Config) (method : string) (st : State) : State :=
  mkState (document st) (csrfMeta st) (localStorage st) (aborted st) (S (uuids st))
    (trace st)
    (console st ++
     logLines config ("Making " +:+ method +:+ " request to " +:+ API_URL config) None).

(** The error [debugLog] raises when it is given the value [v] to log. *)
Definition logFailure (config : Config) (v : JsValue) : option JsError :=
  if DEBUG config && ToBoolean v then
    match getProperty v "message" with
    | Throw e => Some e
    | Normal m =>
        match ToString m with
        | Throw e => Some e
        | Normal _ => None
        end
    end
  else None.

(** What [makeRequest] makes of a response: the validated count, or the
    error it throws. *)
Definition readCount (config : Config) (r : Response) : Completion JsValue :=
  match json r with
  | Throw e => Throw e
  | Normal data =>
      match logFailure config data with
      | Some e => Throw e
      | None =>
          match getProperty data "count" with
          | Throw e => Throw e
          | Normal count =>
              match isValidVisitorCount count with
              | Throw e => Throw e
              | Normal true => Normal count
              | Normal false =>
                  match ToString count with
                  | Throw e => Throw e
                  | Normal text => Throw (Error ("Invalid visitor count received: " +:+ text))
                  end
              end
          end
      end
  end.

(** What [makeRequest] makes of the completion of [fetchWithRetryAndTimeout]. *)
Definition finish (config : Config) (c : Completion (option Response)) : Completion JsValue :=
  match c with
  | Throw e => Throw e
  | Normal None => Throw (TypeError "Cannot read properties of undefined (reading 'json')")
  | Normal (Some r) => readCount config r
  end.

(** ** Rendering, piece by piece *)

(** What [handleError] does to the container element. *)
Definition errorRender (element : Elem) : Elem :=
  DOM.setAttribute "aria-label" "Error loading visitor count"
    (DOM.classListAdd "counter-error"
       (DOM.setTextContent "Unable to load visitor count" element)).

(** What [updateDOM] does to the value element, given what [getItem]
    returned. *)
Definition countRender (cachedCount : option string) (countValueElement : Elem) : Elem :=
  DOM.setAttribute "aria-label" ("Visitor count: " +:+ default "null" cachedCount)
    (DOM.setTextContent (default "" cachedCount) countValueElement).

(** The element shows the error state. *)
Definition showsError (el : Elem) : Prop :=
  DOM.textContent el = "Unable to load visitor count" /\
  "counter-error" ∈ classList (fst el) /\
  DOM.getAttribute "aria-label" el = Some "Error loading visitor count".

(** The state with the document [doc]. *)
Definition withDocument (doc : list Node) (st : State) : State :=
  mkState doc (csrfMeta st) (localStorage st) (aborted st) (uuids st) (trace st) (console st).

(** The state in which [initialize] calls [incrementVisitorCount]: the
    start of the initialization is logged and the loading state is rendered. *)
Definition loadingState (config : Config) (st : State) : State :=
  withDocument
    (DOM.updateElementById (ELEMENT_ID config) (DOM.setInnerHTML loadingMarkup) (document st))
    (withConsole (console st ++ logLines config "Starting initialization" None) st).

(** Only requests of method [m] separate two states, and the page is the
    same in both. *)
Definition requestsOnly (m : string) (st st' : State) : Prop :=
  samePage st st' /\
  exists n, fetchMethods (trace st') = fetchMethods (trace st) ++ replicate n m.

(** ** More vocabulary: any network, timers, headers *)

(** How the [fetch] call issued in state [st] settles: an aborted signal
    rejects it, otherwise the network decides. *)
Definition outcomeAt (platform : Platform) (st : State) (url : string)
    (options : RequestInit) : FetchOutcome :=
  if aborted st then Rejects AbortError
  else network platform (length (fetchCalls (trace st))) url options.

(** A trace keeps its timers in order: no timer is set while one is pending,
    every [fetch] call runs under a pending timer, no back-off delay starts
    before the timer is cleared, and no timer is pending at the end.
    [pending] tells whether a timer is pending at the start. *)
Fixpoint timersSettled (pending : bool) (tr : list Event) : bool :=
  match tr with
  | [] => negb pending
  | SetTimeout _ :: rest => negb pending && timersSettled true rest
  | ClearTimeout :: rest => timersSettled false rest
  | Fetch _ _ :: rest => pending && timersSettled pending rest
  | Delay _ :: rest => negb pending && timersSettled false rest
  end.

(** Between two states lies a stretch of trace that keeps its timers in
    order. *)
Definition timersKept (st st' : State) : Prop :=
  exists evs, trace st' = trace st ++ evs /\ timersSettled false evs = true.

(** The value of a header in the options of a request. *)
Fixpoint lookupHeader (key : string) (hs : list (string * string)) : option string :=
  match hs with
  | [] => None
  | (k, v) :: rest =>
      match lookupHeader key rest with
      | Some later => Some later
      | None => if String.eqb k key then Some v else None
      end
  end.

(** The sum of a list of delays. *)
Definition totalDelay (ds : list Z) : Z := fold_right Z.add 0 ds.

(** The console is the same in two states. *)
Definition sameConsole (st st' : State) : Prop := console st' = console st.

(** Every character of the string is a decimal digit. *)
Fixpoint allDigits (s : string) : bool :=
  match s with
  | "" => true
  | String c rest => isDigit c && allDigits rest
  end.

(** ** The life cycle of the instance

    [new VisitorCounter(CONFIG)] runs the constructor once, when the script
    is evaluated.  The host is the page together with the ready state of the
    document and the listeners registered so far.  A listener is run to its
    end where its event is dispatched: [initialize] is taken as one step,
    with no event between its requests. *)

Inductive Listener : Type :=
| OnReady    (* [() => this.initialize()] *)
| OnUnload.  (* [() => { this.debugLog(...); this.controller.abort(); }] *)

Record Host : Type := mkHost {
  page : State;
  readyState : string;
  listeners : list (string * Listener)
}.

(** [new AbortController()]: the signal of the new controller is not
    aborted. *)
Definition newController (st : State) : State :=
  mkState (document st) (csrfMeta st) (localStorage st) false (uuids st) (trace st)
    (console st).

(** [this.controller.abort()]. *)
Definition abort : M unit :=
  fun st =>
    (Normal tt,
     mkState (document st) (csrfMeta st) (localStorage st) true (uuids st) (trace st)
       (console st)).

Section Lifecycle.

Variable platform : Platform.
Variable config : Config.

(** The listener of [unload]. *)
Definition cleanup : M unit :=
  debugLog config "Cleaning up resources" None ;;
  abort.

Definition runListener (l : Listener) : M unit :=
  match l with
  | OnReady => initialize platform config
  | OnUnload => cleanup
  end.

(** The host after [m] has run on its page; an exception that [m] leaves
    uncaught is reported by the host and ends [m] only. *)
Definition run (m : M unit) (h : Host) : Host :=
  mkHost (snd (m (page h))) (readyState h) (listeners h).

Definition addEventListener (type : string) (l : Listener) (h : Host) : Host :=
  mkHost (page h) (readyState h) (listeners h ++ [(type, l)]).

(** The event [type] is dispatched: the listeners registered for it run in
    the order of their registration. *)
Definition dispatchEvent (type : string) (h : Host) : Host :=
  fold_left
    (fun h' entry => if String.eqb (fst entry) type then run (runListener (snd entry)) h' else h')
    (listeners h) h.

Definition initializeEventListeners (h : Host) : Host :=
  addEventListener "unload" OnUnload
    (if String.eqb (readyState h) "loading" then
       addEventListener "DOMContentLoaded" OnReady h
     else
       run (initialize platform config) h).

(** [constructor(config)]. *)
Definition construct (h : Host) : Host :=
  initializeEventListeners
    (run (debugLog config "Initializing VisitorCounter" None)
       (mkHost (newController (page h)) (readyState h) (listeners h))).

End Lifecycle.

(** ** The earlier script, [frontend/scripts/vistorCounter.js] *)

Module Legacy.

(** [isValidVisitorCount(count)] of the earlier script; [count] is the text
    of the response body. *)
Definition isValidVisitorCount (count : JsValue) : Completion bool :=
  match parseInt10 count with
  | Throw e => Throw e
  | Normal parsed => Normal (negb (Number.isNaN parsed) && Number.ge parsed (Int 0))
  end.

End Legacy.

(** ** The document: lookup and update *)

Lemma findNode_Element i e kids :
  DOM.findNode i (Element e kids) =
  if String.eqb (id e) i then Some (e, kids) else DOM.findIn i kids.
Proof.
  simpl. destruct (String.eqb (id e) i); [reflexivity|].
  induction kids as [|c rest IH]; simpl; [reflexivity|].
  destruct (DOM.findNode i c); [reflexivity | exact IH].
Qed.

Lemma updateNode_Element i f e kids :
  DOM.updateNode i f (Element e kids) =
  if String.eqb (id e) i then Some (DOM.toNode (f (e, kids)))
  else option_map (Element e) (DOM.updateIn i f kids).
Proof.
  simpl. destruct (String.eqb (id e) i); [reflexivity|]. f_equal.
  induction kids as [|c rest IH]; simpl; [reflexivity|].
  destruct (DOM.updateNode i f c); [reflexivity | now rewrite IH].
Qed.

Lemma findNode_id i n el : DOM.findNode i n = Some el -> id (fst el) = i.
Proof.
  revert el. induction n as [data|e kids IH] using Node_nested_ind; intros el.
  - discriminate.
  - rewrite findNode_Element. destruct (String.eqb (id e) i) eqn:E.
    + intros [= <-]. now apply String.eqb_eq.
    + clear E. induction IH as [|c rest Hc _ IHr]; simpl; [discriminate|].
      destruct (DOM.findNode i c) eqn:F; [intros [= <-]; now apply Hc | exact IHr].
Qed.

Lemma findIn_id i l el : DOM.findIn i l = Some el -> id (fst el) = i.
Proof.
  induction l as [|c rest IH]; simpl; [discriminate|].
  destruct (DOM.findNode i c) eqn:F; [intros [= <-]; eapply findNode_id; eauto | exact IH].
Qed.

Lemma updateNode_missing i f n :
  DOM.findNode i n = None -> DOM.updateNode i f n = None.
Proof.
  induction n as [data|e kids IH] using Node_nested_ind; [reflexivity|].
  rewrite findNode_Element, updateNode_Element.
  destruct (String.eqb (id e) i); [discriminate|].
  intros F. enough (DOM.updateIn i f kids = None) as -> by reflexivity.
  induction IH as [|c rest Hc _ IHr]; simpl in *; [reflexivity|].
  destruct (DOM.findNode i c); [discriminate|].
  now rewrite Hc, IHr.
Qed.

Lemma updateIn_missing i f l :
  DOM.findIn i l = None -> DOM.updateIn i f l = None.
Proof.
  induction l as [|c rest IH]; simpl; [reflexivity|].
  destruct (DOM.findNode i c) eqn:F; [discriminate|].
  intros H. now rewrite (updateNode_missing _ _ _ F), IH.
Qed.

(** Updating the element that a lookup finds: the update succeeds, and when
    [f] keeps the id the lookup then finds the updated element. *)
Lemma updateNode_found i f n el :
  DOM.findNode i n = Some el ->
  exists n', DOM.updateNode i f n = Some n' /\
    (id (fst (f el)) = i -> DOM.findNode i n' = Some (f el)).
Proof.
  revert el. induction n as [data|e kids IH] using Node_nested_ind; intros el.
  - discriminate.
  - rewrite findNode_Element, updateNode_Element.
    destruct (String.eqb (id e) i) eqn:E.
    + intros [= <-]. eexists; split; [reflexivity|]. intros Hid.
      destruct (f (e, kids)) as [e' kids'] eqn:Ef. unfold DOM.toNode. cbn [fst snd] in *.
      rewrite findNode_Element. apply String.eqb_eq in Hid. now rewrite Hid.
    + intros Hfind.
      assert (exists kids', DOM.updateIn i f kids = Some kids' /\
                (id (fst (f el)) = i -> DOM.findIn i kids' = Some (f el))) as (kids' & Hu & Hf).
      { clear E. induction IH as [|c rest Hc _ IHr]; simpl in *; [discriminate|].
        destruct (DOM.findNode i c) eqn:F.
        - injection Hfind as ->. destruct (Hc _ eq_refl) as (c' & -> & Hc').
          eexists; split; [reflexivity|]. intros Hid. simpl. now rewrite (Hc' Hid).
        - destruct (IHr Hfind) as (rest' & Hr & Hr').
          rewrite (updateNode_missing _ _ _ F), Hr.
          eexists; split; [reflexivity|]. intros Hid. simpl.
          rewrite F. now apply Hr'. }
      rewrite Hu. eexists; split; [reflexivity|]. intros Hid.
      rewrite findNode_Element, E. now apply Hf.
Qed.

Lemma updateIn_found i f l el :
  DOM.findIn i l = Some el ->
  exists l', DOM.updateIn i f l = Some l' /\
    (id (fst (f el)) = i -> DOM.findIn i l' = Some (f el)).
Proof.
  induction l as [|c rest IH]; simpl; [discriminate|].
  destruct (DOM.findNode i c) eqn:F.
  - intros [= ->]. destruct (updateNode_found i f _ _ F) as (c' & -> & Hc').
    eexists; split; [reflexivity|]. intros Hid. simpl. now rewrite (Hc' Hid).
  - intros Hfind. destruct (IH Hfind) as (rest' & Hr & Hr').
    rewrite (updateNode_missing _ _ _ F), Hr.
    eexists; split; [reflexivity|]. intros Hid. simpl. rewrite F. now apply Hr'.
Qed.

(** Two updates of one element in a row are one update by the composition. *)
Lemma updateNode_twice i f g n n' :
  (forall el, id (fst (f el)) = id (fst el)) ->
  DOM.updateNode i f n = Some n' ->
  DOM.updateNode i g n' = DOM.updateNode i (fun el => g (f el)) n.
Proof.
  intros Hf. revert n'.
  induction n as [data|e kids IH] using Node_nested_ind; intros n'; [discriminate|].
  rewrite !updateNode_Element. destruct (String.eqb (id e) i) eqn:E.
  - intros [= <-]. destruct (f (e, kids)) as [e' kids'] eqn:Ef. unfold DOM.toNode at 1.
    cbn [fst snd]. rewrite updateNode_Element.
    assert (id e' = id e) as -> by (specialize (Hf (e, kids)); now rewrite Ef in Hf).
    now rewrite E.
  - destruct (DOM.updateIn i f kids) as [kids'|] eqn:U; [|discriminate].
    intros [= <-]. rewrite updateNode_Element, E. f_equal.
    clear E. revert kids' U.
    induction IH as [|c rest Hc _ IHr]; simpl; intros kids'; [discriminate|].
    destruct (DOM.updateNode i f c) as [c'|] eqn:Uc.
    + intros [= <-]. simpl. rewrite (Hc _ eq_refl).
      destruct (DOM.updateNode i (fun el => g (f el)) c) eqn:Ugf; [reflexivity|].
      exfalso. destruct (DOM.findNode i c) eqn:F.
      * destruct (updateNode_found i (fun el => g (f el)) _ _ F) as (? & ? & _). congruence.
      * rewrite (updateNode_missing _ _ _ F) in Uc. discriminate.
    + destruct (DOM.updateIn i f rest) as [rest'|] eqn:Ur; [|discriminate].
      intros [= <-]. simpl.
      assert (DOM.findNode i c = None) as F.
      { destruct (DOM.findNode i c) eqn:F; [|reflexivity].
        destruct (updateNode_found i f _ _ F) as (? & ? & _). congruence. }
      rewrite !(updateNode_missing _ _ _ F). now rewrite (IHr _ eq_refl).
Qed.

Lemma updateIn_twice i f g l l' :
  (forall el, id (fst (f el)) = id (fst el)) ->
  DOM.updateIn i f l = Some l' ->
  DOM.updateIn i g l' = DOM.updateIn i (fun el => g (f el)) l.
Proof.
  intros Hf. revert l'. induction l as [|c rest IH]; simpl; intros l'; [discriminate|].
  destruct (DOM.updateNode i f c) as [c'|] eqn:Uc.
  - intros [= <-]. simpl. rewrite (updateNode_twice _ _ _ _ _ Hf Uc).
    destruct (DOM.updateNode i (fun el => g (f el)) c) eqn:Ugf; [reflexivity|].
    exfalso. destruct (DOM.findNode i c) eqn:F.
    + destruct (updateNode_found i (fun el => g (f el)) _ _ F) as (? & ? & _). congruence.
    + rewrite (updateNode_missing _ _ _ F) in Uc. discriminate.
  - destruct (DOM.updateIn i f rest) as [rest'|] eqn:Ur; [|discriminate].
    intros [= <-]. simpl.
    assert (DOM.findNode i c = None) as F.
    { destruct (DOM.findNode i c) eqn:F; [|reflexivity].
      destruct (updateNode_found i f _ _ F) as (? & ? & _). congruence. }
    rewrite !(updateNode_missing _ _ _ F). now rewrite (IH _ eq_refl).
Qed.

(** An update depends on [f] only at the element it updates. *)
Lemma updateNode_ext i f g n el :
  DOM.findNode i n = Some el -> f el = g el ->
  DOM.updateNode i f n = DOM.updateNode i g n.
Proof.
  revert el. induction n as [data|e kids IH] using Node_nested_ind; intros el; [discriminate|].
  rewrite findNode_Element, !updateNode_Element.
  destruct (String.eqb (id e) i); [intros [= <-] ->; reflexivity|].
  intros F Hfg. f_equal.
  induction IH as [|c rest Hc _ IHr]; simpl in *; [discriminate|].
  destruct (DOM.findNode i c) eqn:Fc.
  - injection F as ->. rewrite (Hc _ eq_refl Hfg).
    destruct (updateNode_found i g _ _ Fc) as (c' & -> & _). reflexivity.
  - rewrite !(updateNode_missing _ _ _ Fc). now rewrite IHr.
Qed.

Lemma updateIn_ext i f g l el :
  DOM.findIn i l = Some el -> f el = g el ->
  DOM.updateIn i f l = DOM.updateIn i g l.
Proof.
  induction l as [|c rest IH]; simpl; [discriminate|].
  destruct (DOM.findNode i c) eqn:Fc.
  - intros [= ->] Hfg. rewrite (updateNode_ext _ _ _ _ _ Fc Hfg).
    destruct (updateNode_found i g _ _ Fc) as (c' & -> & _). reflexivity.
  - intros F Hfg. rewrite !(updateNode_missing _ _ _ Fc). now rewrite IH.
Qed.

Lemma getElementById_update i f doc el :
  DOM.getElementById i doc = Some el ->
  id (fst (f el)) = id (fst el) ->
  DOM.getElementById i (DOM.updateElementById i f doc) = Some (f el).
Proof.
  unfold DOM.getElementById, DOM.updateElementById.
  destruct (String.eqb i ""); [discriminate|]. intros F Hid.
  destruct (updateIn_found i f _ _ F) as (doc' & -> & Hf). simpl.
  apply Hf. rewrite Hid. eapply findIn_id; eauto.
Qed.

Lemma updateElementById_missing i f doc :
  DOM.getElementById i doc = None -> DOM.updateElementById i f doc = doc.
Proof.
  unfold DOM.getElementById, DOM.updateElementById.
  destruct (String.eqb i ""); [reflexivity|]. intros F.
  now rewrite (updateIn_missing _ _ _ F).
Qed.

(** Applying twice a mutation that is idempotent on the element it reaches
    changes the document as applying it once. *)
Lemma updateElementById_idempotent i f doc :
  (forall el, id (fst (f el)) = id (fst el)) ->
  (forall el, f (f el) = f el) ->
  DOM.updateElementById i f (DOM.updateElementById i f doc) = DOM.updateElementById i f doc.
Proof.
  intros Hid Hff. unfold DOM.updateElementById.
  destruct (String.eqb i ""); [reflexivity|].
  destruct (DOM.findIn i doc) as [el|] eqn:F.
  - destruct (updateIn_found i f _ _ F) as (doc' & Hu & _). rewrite Hu. simpl.
    rewrite (updateIn_twice _ _ _ _ _ Hid Hu).
    rewrite (updateIn_ext i (fun el => f (f el)) f doc el F (Hff el)), Hu. reflexivity.
  - rewrite (updateIn_missing _ _ _ F). simpl. now rewrite (updateIn_missing _ _ _ F).
Qed.

(** ** Frames: what an operation leaves alone *)

Section Frames.

Variable R : State -> State -> Prop.
Hypothesis R_refl : forall st, R st st.
Hypothesis R_trans : forall a b c, R a b -> R b c -> R a c.

Lemma keeps_ret {A} (a : A) : keeps R (ret a).
Proof. intros st. apply R_refl. Qed.

Lemma keeps_throw {A} e : keeps R (@throw A e).
Proof. intros st. apply R_refl. Qed.

Lemma keeps_lift {A} (c : Completion A) : keeps R (lift c).
Proof. intros st. apply R_refl. Qed.

Lemma keeps_bind {A B} (m : M A) (k : A -> M B) :
  keeps R m -> (forall a, keeps R (k a)) -> keeps R (bind m k).
Proof.
  intros Hm Hk st. unfold bind. specialize (Hm st).
  destruct (m st) as [[a|e] st1]; simpl in *; [|exact Hm].
  eapply R_trans; [exact Hm | apply Hk].
Qed.

Lemma keeps_tryCatch {A} (body : M A) (handler : JsError -> M A) :
  keeps R body -> (forall e, keeps R (handler e)) -> keeps R (tryCatch body handler).
Proof.
  intros Hb Hh st. unfold tryCatch. specialize (Hb st).
  destruct (body st) as [[a|e] st1]; simpl in *; [exact Hb|].
  eapply R_trans; [exact Hb | apply Hh].
Qed.

End Frames.

Lemma sameButConsole_refl st : sameButConsole st st.
Proof. repeat split. Qed.

Lemma sameButConsole_trans a b c :
  sameButConsole a b -> sameButConsole b c -> sameButConsole a c.
Proof. unfold sameButConsole. intuition congruence. Qed.

Lemma samePage_refl st : samePage st st.
Proof. split; reflexivity. Qed.

Lemma samePage_trans a b c : samePage a b -> samePage b c -> samePage a c.
Proof. unfold samePage. intuition congruence. Qed.

Lemma sameButConsole_samePage a b : sameButConsole a b -> samePage a b.
Proof. unfold sameButConsole, samePage. tauto. Qed.

Lemma print_console entry : keeps sameButConsole (print entry).
Proof. intros st. repeat split. Qed.

(** Splits a frame goal along the structure of the operation. *)
Ltac frame_step Hrefl Htrans :=
  first
    [ apply (keeps_ret _ Hrefl)
    | apply (keeps_throw _ Hrefl)
    | apply (keeps_lift _ Hrefl)
    | apply (keeps_bind _ Htrans); [|intros ?]
    | apply (keeps_tryCatch _ Htrans); [|intros ?] ].

Lemma debugLog_console config msg arg : keeps sameButConsole (debugLog config msg arg).
Proof.
  unfold debugLog. destruct (DEBUG config).
  - frame_step sameButConsole_refl sameButConsole_trans; [apply print_console|].
    destruct arg as [[[n m]|v]|].
    + apply print_console.
    + destruct (ToBoolean v).
      * repeat frame_step sameButConsole_refl sameButConsole_trans. apply print_console.
      * frame_step sameButConsole_refl sameButConsole_trans.
    + frame_step sameButConsole_refl sameButConsole_trans.
  - frame_step sameButConsole_refl sameButConsole_trans.
Qed.

(** Logging a message alone, or a message and an error object, completes. *)
Lemma debugLog_completes config msg arg st :
  match arg with Some (LogValue _) => False | _ => True end ->
  fst (debugLog config msg arg st) = Normal tt.
Proof.
  unfold debugLog. destruct (DEBUG config); [|reflexivity].
  destruct arg as [[[n m]|v]|]; [reflexivity | contradiction | reflexivity].
Qed.

Lemma debugLog_run config msg arg st :
  match arg with Some (LogValue _) => False | _ => True end ->
  exists st', debugLog config msg arg st = (Normal tt, st') /\ sameButConsole st st'.
Proof.
  intros H. exists (snd (debugLog config msg arg st)). split.
  - rewrite <- (debugLog_completes config msg arg st H). now destruct (debugLog config msg arg st).
  - apply debugLog_console.
Qed.

Arguments showNumber : simpl never.

Lemma schedule_app tr evs : schedule (tr ++ evs) = schedule tr ++ schedule evs.
Proof. apply List.filter_app. Qed.

Lemma fetchCalls_app tr evs : fetchCalls (tr ++ evs) = fetchCalls tr ++ fetchCalls evs.
Proof. apply List.filter_app. Qed.

Ltac trace_simpl :=
  repeat rewrite schedule_app; repeat rewrite fetchCalls_app;
  cbn [schedule fetchCalls List.filter isScheduled isFetch app];
  rewrite ?app_nil_r, <- ?app_assoc; cbn [app].


Lemma debugLog_eq config msg e st :
  debugLog config msg (option_map LogError e) st =
  (Normal tt, withConsole (console st ++ logLines config msg e) st).
Proof.
  unfold debugLog, logLines, withConsole. destruct st as [doc csrf ls ab uu tr con].
  destruct (DEBUG config); cbn.
  - destruct e as [[n m]|]; cbn; unfold print; cbn; rewrite <- ?app_assoc; reflexivity.
  - now rewrite app_nil_r.
Qed.

Lemma debugLog_None_eq config msg st :
  debugLog config msg None st =
  (Normal tt, withConsole (console st ++ logLines config msg None) st).
Proof. apply (debugLog_eq config msg None). Qed.

Lemma debugLog_Error_eq config msg e st :
  debugLog config msg (Some (LogError e)) st =
  (Normal tt, withConsole (console st ++ logLines config msg (Some e)) st).
Proof. apply (debugLog_eq config msg (Some e)). Qed.

Lemma attempt_run platform config i url options st :
  aborted st = false ->
  let o := network platform (length (fetchCalls (trace st))) url options in
  exists st',
    attempt platform config i url options st =
      (match settles config i o with Some c => c | None => Normal None end, st') /\
    extends (match settles config i o with
             | Some _ => [Fetch url options]
             | None => [Fetch url options; Delay (RETRY_DELAY config * 2 ^ i)]
             end) st st' /\
    (settles config i o = None -> aborted st' = false).
Proof.
  destruct st as [doc csrf ls ab uu tr con]. cbn [aborted trace]. intros ->.
  unfold attempt, bind, tryCatch. rewrite debugLog_None_eq.
  unfold emit, fetch, withConsole.
  cbn [aborted trace document csrfMeta localStorage uuids console].
  rewrite fetchCalls_app, length_app, Nat.add_0_r.
  unfold settles.
  destruct (network platform (length (fetchCalls tr)) url options) as [r|e|];
    cbn [attemptError].
  - destruct (negb (ok r)) eqn:Hok; [|destruct (contentType r) as [ct|] eqn:Hct;
      [destruct (includes "application/json" ct) eqn:Hin|]];
    cbn [throw ret negb Error name String.eqb Ascii.eqb Bool.eqb];
    rewrite ?debugLog_Error_eq, ?debugLog_None_eq; unfold withConsole;
    cbn [aborted trace document csrfMeta localStorage uuids console];
    try (destruct (i =? MAX_RETRIES config - 1));
    rewrite ?debugLog_None_eq; unfold withConsole;
    cbn [aborted trace document csrfMeta localStorage uuids console];
    (eexists; split; [reflexivity | split; [repeat split; cbn [trace]; trace_simpl; reflexivity | try reflexivity; try discriminate]]).
  - rewrite debugLog_Error_eq. unfold withConsole.
    cbn [aborted trace document csrfMeta localStorage uuids console].
    destruct (String.eqb (name e) "AbortError"); [|destruct (i =? MAX_RETRIES config - 1)];
    rewrite ?debugLog_None_eq; unfold withConsole, throw, ret;
    cbn [aborted trace document csrfMeta localStorage uuids console];
    (eexists; split; [reflexivity | split; [repeat split; cbn [trace]; trace_simpl; reflexivity | try reflexivity; try discriminate]]).
  - rewrite debugLog_Error_eq. unfold withConsole, throw.
    cbn [aborted trace document csrfMeta localStorage uuids console AbortError name String.eqb Ascii.eqb Bool.eqb].
    (eexists; split; [reflexivity | split; [repeat split; cbn [trace]; trace_simpl; reflexivity | try reflexivity; try discriminate]]).
Qed.

Lemma fetchCalls_schedule tr : fetchCalls tr = List.filter isFetch (schedule tr).
Proof.
  induction tr as [|ev tr IH]; [reflexivity|].
  unfold fetchCalls, schedule in *. destruct ev; cbn; now rewrite ?IH.
Qed.

Lemma extends_fetchCalls evs st st' :
  extends evs st st' ->
  length (fetchCalls (trace st')) =
  (length (fetchCalls (trace st)) + length (List.filter isFetch evs))%nat.
Proof.
  intros (_ & _ & _ & _ & H).
  rewrite (fetchCalls_schedule (trace st')), (fetchCalls_schedule (trace st)), H, List.filter_app.
  apply length_app.
Qed.

Lemma extends_trans evs1 evs2 a b c :
  extends evs1 a b -> extends evs2 b c -> extends (evs1 ++ evs2) a c.
Proof.
  unfold extends. intros (? & ? & ? & ? & Ha) (? & ? & ? & ? & Hb).
  repeat split; try congruence. rewrite Hb, Ha. now rewrite app_assoc.
Qed.

Lemma extends_samePage evs st st' : extends evs st st' -> samePage st st'.
Proof. unfold extends, samePage. tauto. Qed.

Lemma settles_Some config i o c :
  settles config i o = Some c ->
  (exists r, c = Normal (Some r)) \/ (exists e, c = Throw e).
Proof.
  unfold settles. destruct (attemptError o).
  - destruct (String.eqb _ _); [intros [= <-]; eauto|].
    destruct (i =? _); [intros [= <-]; eauto | discriminate].
  - destruct o; try discriminate. intros [= <-]; eauto.
Qed.

(** The loop, run against a network whose first [retries] outcomes make it
    go on and whose next outcome makes it stop. *)
Lemma attemptsFrom_run platform config url options retries :
  forall remaining i st c,
    (retries < remaining)%nat ->
    aborted st = false ->
    (forall k, (k < retries)%nat ->
       settles config (i + Z.of_nat k)
         (network platform (length (fetchCalls (trace st)) + k) url options) = None) ->
    settles config (i + Z.of_nat retries)
      (network platform (length (fetchCalls (trace st)) + retries) url options) = Some c ->
    exists st',
      attemptsFrom platform config remaining i url options st = (c, st') /\
      extends (backoffSchedule (RETRY_DELAY config) url options i retries) st st'.
Proof.
  induction retries as [|retries IH]; intros remaining i st c Hlt Hab Hgo Hstop.
  - destruct remaining as [|remaining]; [lia|].
    rewrite Z.add_0_r, Nat.add_0_r in Hstop.
    destruct (attempt_run platform config i url options st Hab) as (st' & E & X & _).
    cbn zeta in E, X. rewrite Hstop in E, X.
    exists st'. split; [|exact X]. cbn [attemptsFrom]. unfold bind. rewrite E.
    destruct (settles_Some _ _ _ _ Hstop) as [[r ->]|[e ->]]; reflexivity.
  - destruct remaining as [|remaining]; [lia|].
    pose proof (Hgo 0%nat ltac:(lia)) as H0. rewrite Z.add_0_r, Nat.add_0_r in H0.
    destruct (attempt_run platform config i url options st Hab) as (st1 & E & X & Hab1).
    cbn zeta in E, X, Hab1. rewrite H0 in E, X. specialize (Hab1 H0).
    pose proof (extends_fetchCalls _ _ _ X) as Hn. cbn [List.filter isFetch length] in Hn.
    destruct (IH remaining (i + 1) st1 c ltac:(lia) Hab1) as (st' & E' & X').
    + intros k Hk. rewrite Hn.
      replace (i + 1 + Z.of_nat k) with (i + Z.of_nat (S k)) by lia.
      replace (length (fetchCalls (trace st)) + 1 + k)%nat
        with (length (fetchCalls (trace st)) + S k)%nat by lia.
      apply Hgo. lia.
    + rewrite Hn.
      replace (i + 1 + Z.of_nat retries) with (i + Z.of_nat (S retries)) by lia.
      replace (length (fetchCalls (trace st)) + 1 + retries)%nat
        with (length (fetchCalls (trace st)) + S retries)%nat by lia.
      exact Hstop.
    + exists st'. split.
      * cbn [attemptsFrom]. unfold bind. rewrite E. exact E'.
      * exact (extends_trans _ _ _ _ _ X X').
Qed.

Lemma delays_app tr evs : delays (tr ++ evs) = delays tr ++ delays evs.
Proof.
  induction tr as [|ev tr IH]; [reflexivity|].
  destruct ev; cbn [app delays]; now rewrite IH.
Qed.

Lemma delays_schedule tr : delays tr = delays (schedule tr).
Proof.
  induction tr as [|ev tr IH]; [reflexivity|].
  unfold schedule in *. destruct ev; cbn [delays List.filter isScheduled]; now rewrite IH.
Qed.

Lemma delays_backoff base url options retries :
  forall i,
    delays (backoffSchedule base url options i retries) =
    (fun k => base * 2 ^ k) <$> seqZ i (Z.of_nat retries).
Proof.
  induction retries as [|retries IH]; intros i; [reflexivity|].
  cbn [backoffSchedule delays]. rewrite IH, (seqZ_cons i) by lia.
  rewrite fmap_cons. do 3 f_equal; lia.
Qed.

Lemma fetchCalls_backoff base url options retries :
  forall i,
    List.filter isFetch (backoffSchedule base url options i retries) =
    replicate (S retries) (Fetch url options).
Proof.
  induction retries as [|retries IH]; intros i; [reflexivity|].
  cbn [backoffSchedule List.filter isFetch]. now rewrite IH.
Qed.

Lemma last_backoff base url options retries :
  forall i, last (backoffSchedule base url options i retries) = Some (Fetch url options).
Proof.
  induction retries as [|retries IH]; intros i; [reflexivity|].
  cbn [backoffSchedule]. rewrite !last_cons, IH. reflexivity.
Qed.

Lemma extends_schedule evs st st' :
  extends evs st st' -> schedule (trace st') = schedule (trace st) ++ evs.
Proof. now intros (_ & _ & _ & _ & H). Qed.

Lemma failsRetryably_goes_on config i o :
  failsRetryably o -> i <> MAX_RETRIES config - 1 -> settles config i o = None.
Proof.
  intros (e & He & Hn) Hi. unfold settles. rewrite He.
  apply String.eqb_neq in Hn. rewrite Hn.
  apply Z.eqb_neq in Hi. now rewrite Hi.
Qed.

Lemma failsRetryably_stops config o e :
  failsRetryably o -> attemptError o = Some e ->
  settles config (MAX_RETRIES config - 1) o = Some (Throw e).
Proof.
  intros (e' & He & Hn) He'. unfold settles. rewrite He' in *. injection He as <-.
  apply String.eqb_neq in Hn. rewrite Hn. now rewrite Z.eqb_refl.
Qed.

Lemma timesOut_stops config i o :
  timesOut o -> settles config i o = Some (Throw (Error "Request timed out")).
Proof.
  intros (e & He & Hn). unfold settles. rewrite He.
  apply String.eqb_eq in Hn. now rewrite Hn.
Qed.

(** What the trace of a run looks like once its schedule is known. *)
Lemma extends_backoff config url options retries st st' :
  extends (backoffSchedule (RETRY_DELAY config) url options 0 retries) st st' ->
  schedule (trace st') =
    schedule (trace st) ++ backoffSchedule (RETRY_DELAY config) url options 0 retries /\
  fetchCalls (trace st') = fetchCalls (trace st) ++ replicate (S retries) (Fetch url options) /\
  delays (trace st') =
    delays (trace st) ++ ((fun i => RETRY_DELAY config * 2 ^ i) <$> seqZ 0 (Z.of_nat retries)) /\
  last (schedule (trace st')) = Some (Fetch url options).
Proof.
  intros X. pose proof (extends_schedule _ _ _ X) as H. split; [exact H|]. split; [|split].
  - rewrite (fetchCalls_schedule (trace st')), (fetchCalls_schedule (trace st)), H.
    now rewrite List.filter_app, fetchCalls_backoff.
  - rewrite (delays_schedule (trace st')), (delays_schedule (trace st)), H.
    now rewrite delays_app, delays_backoff.
  - rewrite H, last_app, last_backoff. reflexivity.
Qed.

(** C3: when every attempt fails with an error other than an abort, exactly
    [MAX_RETRIES] fetch attempts occur, the delay after the attempt of index
    [i] is [RETRY_DELAY * 2^i] for [i] from [0] to [MAX_RETRIES - 2], no delay
    follows the last attempt, and the error of the last attempt is thrown to
    the caller. *)
Theorem exhausted_retries_back_off platform config url options st :
  1 <= MAX_RETRIES config ->
  aborted st = false ->
  (forall k, (k < Z.to_nat (MAX_RETRIES config))%nat ->
     failsRetryably
       (network platform (length (fetchCalls (trace st)) + k) url options)) ->
  exists e st',
    fetchWithRetryAndTimeout platform config url options st = (Throw e, st') /\
    attemptError
      (network platform
         (length (fetchCalls (trace st)) + Z.to_nat (MAX_RETRIES config - 1))
         url options) = Some e /\
    fetchCalls (trace st') =
      fetchCalls (trace st) ++
      replicate (Z.to_nat (MAX_RETRIES config)) (Fetch url options) /\
    delays (trace st') =
      delays (trace st) ++
      ((fun i => RETRY_DELAY config * 2 ^ i) <$> seqZ 0 (MAX_RETRIES config - 1)) /\
    schedule (trace st') =
      schedule (trace st) ++
      backoffSchedule (RETRY_DELAY config) url options 0
        (Z.to_nat (MAX_RETRIES config - 1)) /\
    last (schedule (trace st')) = Some (Fetch url options).
Proof.
  intros Hmax Hab Hfail.
  set (n := Z.to_nat (MAX_RETRIES config - 1)).
  assert (Z.to_nat (MAX_RETRIES config) = S n) as Hn by (unfold n; lia).
  destruct (Hfail n ltac:(lia)) as (e & He & Hname).
  destruct (attemptsFrom_run platform config url options n (S n) 0 st (Throw e))
    as (st' & E & X); [lia | exact Hab | | |].
  - intros k Hk. apply failsRetryably_goes_on; [apply Hfail; lia | unfold n in Hk; lia].
  - replace (0 + Z.of_nat n) with (MAX_RETRIES config - 1) by (unfold n; lia).
    apply failsRetryably_stops; [apply Hfail; lia | exact He].
  - exists e, st'. unfold fetchWithRetryAndTimeout. rewrite Hn. split; [exact E|].
    split; [exact He|].
    destruct (extends_backoff _ _ _ _ _ _ X) as (Hs & Hf & Hd & Hl).
    replace (MAX_RETRIES config - 1) with (Z.of_nat n) by (unfold n; lia).
    repeat split; assumption.
Qed.

Lemma exhausted_retries_back_off_witness :
  exists e st',
    fetchWithRetryAndTimeout
      (scripted [Rejects (TypeError "Failed to fetch");
                 Resolves (mkResponse 500 None (Normal VNull));
                 Resolves (mkResponse 200 (Some "text/html") (Normal VNull))])
      CONFIG (API_URL CONFIG) someRequest freshPage = (Throw e, st') /\
    e = Error "Invalid response content-type" /\
    length (fetchCalls (trace st')) = 3%nat /\
    delays (trace st') = [1000; 2000].
Proof.
  destruct (exhausted_retries_back_off
    (scripted [Rejects (TypeError "Failed to fetch");
               Resolves (mkResponse 500 None (Normal VNull));
               Resolves (mkResponse 200 (Some "text/html") (Normal VNull))])
    CONFIG (API_URL CONFIG) someRequest freshPage) as (e & st' & E & He & Hf & Hd & _).
  - vm_compute. discriminate.
  - reflexivity.
  - intros k Hk. destruct k as [|[|[|k]]]; [| | |exfalso; vm_compute in Hk; lia].
    all: eexists; split; [reflexivity | discriminate].
  - exists e, st'. split; [exact E|]. split; [|split].
    + vm_compute in He. now injection He as <-.
    + rewrite Hf. reflexivity.
    + rewrite Hd. reflexivity.
Defined.

(** C1 (as the code has it): an attempt that fails because the request was
    aborted, as it is when the [TIMEOUT] timer fires, is not retried.  After
    [j] attempts that failed otherwise and were retried with their back-off
    delays, the aborted attempt ends the operation at once with a new error
    whose message is [Request timed out]: there are [j + 1] fetch calls and
    [j] delays in all, whatever is left of the [MAX_RETRIES] budget. *)
Theorem timeout_ends_operation platform config url options st (j : nat) :
  (j < Z.to_nat (MAX_RETRIES config))%nat ->
  aborted st = false ->
  (forall k, (k < j)%nat ->
     failsRetryably
       (network platform (length (fetchCalls (trace st)) + k) url options)) ->
  timesOut (network platform (length (fetchCalls (trace st)) + j) url options) ->
  exists st',
    fetchWithRetryAndTimeout platform config url options st =
      (Throw (Error "Request timed out"), st') /\
    fetchCalls (trace st') =
      fetchCalls (trace st) ++ replicate (S j) (Fetch url options) /\
    delays (trace st') =
      delays (trace st) ++
      ((fun i => RETRY_DELAY config * 2 ^ i) <$> seqZ 0 (Z.of_nat j)) /\
    schedule (trace st') =
      schedule (trace st) ++ backoffSchedule (RETRY_DELAY config) url options 0 j /\
    last (schedule (trace st')) = Some (Fetch url options).
Proof.
  intros Hj Hab Hfail Hout.
  destruct (attemptsFrom_run platform config url options j
              (Z.to_nat (MAX_RETRIES config)) 0 st (Throw (Error "Request timed out")))
    as (st' & E & X); [exact Hj | exact Hab | | |].
  - intros k Hk. apply failsRetryably_goes_on; [apply Hfail; lia | lia].
  - now apply timesOut_stops.
  - exists st'. split; [exact E|].
    destruct (extends_backoff _ _ _ _ _ _ X) as (Hs & Hf & Hd & Hl).
    repeat split; assumption.
Qed.

Lemma timeout_ends_operation_witness :
  exists st',
    fetchWithRetryAndTimeout
      (scripted [Rejects (TypeError "Failed to fetch"); Pending])
      CONFIG (API_URL CONFIG) someRequest freshPage =
      (Throw (Error "Request timed out"), st') /\
    length (fetchCalls (trace st')) = 2%nat /\
    delays (trace st') = [1000].
Proof.
  destruct (timeout_ends_operation
    (scripted [Rejects (TypeError "Failed to fetch"); Pending])
    CONFIG (API_URL CONFIG) someRequest freshPage 1) as (st' & E & Hf & Hd & _).
  - vm_compute. lia.
  - reflexivity.
  - intros k Hk. destruct k as [|k]; [|exfalso; lia].
    eexists; split; [reflexivity | discriminate].
  - eexists; split; reflexivity.
  - exists st'. split; [exact E|]. split.
    + rewrite Hf. reflexivity.
    + rewrite Hd. reflexivity.
Defined.

(** C1 fails as stated: with the budget of three attempts and a request
    that stays pending until the timer fires, one fetch call is made, no
    back-off delay is taken and the operation ends. *)
Lemma timeout_is_not_retried :
  let run :=
    fetchWithRetryAndTimeout (scripted [Pending; Pending; Pending])
      CONFIG (API_URL CONFIG) someRequest freshPage in
  fst run = Throw (Error "Request timed out") /\
  length (fetchCalls (trace (snd run))) = 1%nat /\
  delays (trace (snd run)) = [] /\
  Z.of_nat (length (fetchCalls (trace (snd run)))) <> MAX_RETRIES CONFIG.
Proof. vm_compute. repeat split; discriminate. Qed.

Lemma debugLog_value config msg v st :
  exists st',
    debugLog config msg (Some (LogValue v)) st =
      (match logFailure config v with Some e => Throw e | None => Normal tt end, st') /\
    sameButConsole st st'.
Proof.
  exists (snd (debugLog config msg (Some (LogValue v)) st)).
  split; [|apply debugLog_console].
  unfold debugLog, logFailure, bind, lift, print, ret.
  destruct (DEBUG config); cbn [andb]; [|reflexivity].
  destruct (ToBoolean v); [|reflexivity].
  cbn [fst snd]. destruct (getProperty v "message") as [m|e]; [|reflexivity].
  destruct (ToString m); reflexivity.
Qed.

(** [makeRequest] in terms of the completion of the retry loop. *)
Lemma makeRequest_run platform config method st c st3 :
  fetchWithRetryAndTimeout platform config (API_URL config)
    (requestOptions platform method st) (prepared config method st) = (c, st3) ->
  exists st',
    makeRequest platform config method st = (finish config c, st') /\
    sameButConsole st3 st'.
Proof.
  intros E. unfold makeRequest. unfold bind at 1. rewrite debugLog_None_eq.
  unfold tryCatch.
  assert (forall e stx, sameButConsole st3 stx ->
            exists st',
              bind (debugLog config "Request failed" (Some (LogError e)))
                (fun _ => @throw JsValue e) stx = (Throw e, st') /\
              sameButConsole st3 st') as Hend.
  { intros e stx Hx. unfold bind. rewrite debugLog_Error_eq. unfold throw.
    eexists; split; [reflexivity|]. eapply sameButConsole_trans; [exact Hx|].
    repeat split. }
  match goal with
  | |- context [bind (freshUUID ?p) ?k ?s] =>
      replace (bind (freshUUID p) k s) with
        (bind (fetchWithRetryAndTimeout platform config (API_URL config)
                 (requestOptions platform method st))
           (fun response =>
              data <- match response with
                      | Some response => lift (json response)
                      | None => throw (TypeError "Cannot read properties of undefined (reading 'json')")
                      end ;;
              debugLog config "Response data received" (Some (LogValue data)) ;;
              count <- lift (getProperty data "count") ;;
              valid <- lift (isValidVisitorCount count) ;;
              if negb valid then
                text <- lift (ToString count) ;;
                throw (Error ("Invalid visitor count received: " +:+ text))
              else ret count)
           (prepared config method st))
  end.
  2: { unfold bind at 3 4. unfold freshUUID, csrfToken, requestOptions, prepared, withConsole.
       destruct st as [doc csrf ls ab uu tr con]. cbn [document csrfMeta localStorage aborted uuids trace console].
       destruct (String.eqb method "POST"); [|reflexivity].
       unfold bind at 1. destruct csrf as [[|a s]|]; reflexivity. }
  unfold bind at 1. rewrite E. destruct c as [[r|]|e]; cbn [finish].
  - unfold readCount, bind at 1, lift at 1.
    destruct (json r) as [data|e]; [|apply Hend, sameButConsole_refl].
    destruct (debugLog_value config "Response data received" data st3) as (st4 & E4 & S4).
    unfold bind at 1. rewrite E4. destruct (logFailure config data); [apply Hend, S4|].
    unfold bind at 1, lift at 1.
    destruct (getProperty data "count") as [count|e]; [|apply Hend, S4].
    unfold bind at 1, lift at 1. destruct (isValidVisitorCount count) as [[|]|e]; cbn [negb].
    + unfold ret. eauto.
    + unfold bind, lift, throw. destruct (ToString count); apply Hend, S4.
    + apply Hend, S4.
  - unfold bind at 1, throw at 1. apply Hend, sameButConsole_refl.
  - apply Hend, sameButConsole_refl.
Qed.

Lemma fetchMethods_app tr evs : fetchMethods (tr ++ evs) = fetchMethods tr ++ fetchMethods evs.
Proof.
  induction tr as [|ev tr IH]; [reflexivity|].
  destruct ev; cbn [app fetchMethods]; now rewrite IH.
Qed.

Lemma requestsOnly_refl m st : requestsOnly m st st.
Proof. split; [apply samePage_refl|]. exists 0%nat. now rewrite app_nil_r. Qed.

Lemma requestsOnly_trans m a b c :
  requestsOnly m a b -> requestsOnly m b c -> requestsOnly m a c.
Proof.
  intros [P1 [n1 H1]] [P2 [n2 H2]]. split; [eapply samePage_trans; eauto|].
  exists (n1 + n2)%nat. rewrite H2, H1, <- app_assoc. now rewrite replicate_add.
Qed.

Lemma sameButConsole_requestsOnly m st st' : sameButConsole st st' -> requestsOnly m st st'.
Proof.
  intros H. split; [now apply sameButConsole_samePage|].
  exists 0%nat. destruct H as (_ & _ & _ & _ & _ & ->). now rewrite app_nil_r.
Qed.

Lemma keeps_weaken (R R' : State -> State -> Prop) {A} (m : M A) :
  (forall st st', R st st' -> R' st st') -> keeps R m -> keeps R' m.
Proof. intros H Hm st. apply H, Hm. Qed.

Lemma debugLog_requestsOnly m config msg arg : keeps (requestsOnly m) (debugLog config msg arg).
Proof.
  eapply keeps_weaken; [apply sameButConsole_requestsOnly | apply debugLog_console].
Qed.

Lemma emit_requestsOnly m ev :
  isFetch ev = false -> keeps (requestsOnly m) (emit ev).
Proof.
  intros H st. split; [split; reflexivity|]. exists 0%nat. cbn [emit snd trace].
  rewrite fetchMethods_app, app_nil_r. destruct ev; try discriminate; now rewrite app_nil_r.
Qed.

Lemma fetch_requestsOnly platform url options :
  keeps (requestsOnly (method options)) (fetch platform url options).
Proof.
  intros st. unfold fetch. split.
  - destruct (aborted st); [split; reflexivity|].
    destruct (network _ _ _ _); split; reflexivity.
  - exists 1%nat.
    assert (forall (c : Completion Response) (s : State),
              trace s = trace st ++ [Fetch url options] ->
              fetchMethods (trace (snd (c, s))) =
              fetchMethods (trace st) ++ replicate 1 (method options)) as H.
    { intros c s. cbn [snd]. intros ->. now rewrite fetchMethods_app. }
    destruct (aborted st); [now apply H|].
    destruct (network _ _ _ _); now apply H.
Qed.

Lemma attempt_requestsOnly platform config i url options :
  keeps (requestsOnly (method options)) (attempt platform config i url options).
Proof.
  unfold attempt.
  repeat first
    [ apply debugLog_requestsOnly
    | apply emit_requestsOnly; reflexivity
    | apply fetch_requestsOnly
    | frame_step (requestsOnly_refl (method options)) (requestsOnly_trans (method options))
    | match goal with
      | |- keeps _ (if ?b then _ else _) => destruct b
      | |- keeps _ (match ?x with _ => _ end) => destruct x
      end ].
Qed.

Lemma attemptsFrom_requestsOnly platform config url options remaining :
  forall i, keeps (requestsOnly (method options))
              (attemptsFrom platform config remaining i url options).
Proof.
  induction remaining as [|remaining IH]; intros i; cbn [attemptsFrom].
  - frame_step (requestsOnly_refl (method options)) (requestsOnly_trans (method options)).
  - frame_step (requestsOnly_refl (method options)) (requestsOnly_trans (method options)).
    + apply attempt_requestsOnly.
    + destruct a; [|apply IH].
      frame_step (requestsOnly_refl (method options)) (requestsOnly_trans (method options)).
Qed.

Lemma makeRequest_requestsOnly platform config m :
  keeps (requestsOnly m) (makeRequest platform config m).
Proof.
  intros st.
  destruct (fetchWithRetryAndTimeout platform config (API_URL config)
              (requestOptions platform m st) (prepared config m st)) as [c st3] eqn:E.
  destruct (makeRequest_run _ _ _ _ _ _ E) as (st' & -> & S). cbn [snd].
  eapply requestsOnly_trans; [|apply sameButConsole_requestsOnly, S].
  eapply requestsOnly_trans with (b := prepared config m st).
  - split; [split; reflexivity|]. exists 0%nat. cbn. now rewrite app_nil_r.
  - pose proof (attemptsFrom_requestsOnly platform config (API_URL config)
                  (requestOptions platform m st) (Z.to_nat (MAX_RETRIES config)) 0
                  (prepared config m st)) as H.
    unfold fetchWithRetryAndTimeout in E. rewrite E in H. exact H.
Qed.

(** *** [handleError] *)

Lemma handleError_run config msg e st :
  handleError config msg (Some (LogError e)) st =
  (Normal tt,
   withDocument
     (DOM.updateElementById (ELEMENT_ID config) errorRender (document st))
     (withConsole (console st ++ logLines config msg (Some e)) st)).
Proof.
  unfold handleError, bind. rewrite debugLog_Error_eq.
  cbn [withConsole document]. unfold setDocument, withDocument, withConsole.
  destruct (DOM.getElementById (ELEMENT_ID config) (document st)) eqn:F; cbn.
  - reflexivity.
  - rewrite (updateElementById_missing _ _ _ F). reflexivity.
Qed.

Lemma errorRender_id el : id (fst (errorRender el)) = id (fst el).
Proof. reflexivity. Qed.

Lemma errorRender_shows el : showsError (errorRender el).
Proof.
  unfold showsError, errorRender. split; [reflexivity|]. split.
  - cbn. case_bool_decide; [assumption|]. apply elem_of_app. right. apply list_elem_of_singleton.
    reflexivity.
  - unfold DOM.getAttribute. cbn. apply lookup_insert_eq.
Qed.

(** After [handleError] the container, when the page has one, shows the
    error state. *)
Lemma handleError_shows config msg e st el :
  DOM.getElementById (ELEMENT_ID config) (document st) = Some el ->
  exists el',
    DOM.getElementById (ELEMENT_ID config)
      (document (snd (handleError config msg (Some (LogError e)) st))) = Some el' /\
    el' = errorRender el.
Proof.
  intros F. rewrite handleError_run. cbn [snd withDocument document].
  exists (errorRender el). split; [|reflexivity].
  now apply getElementById_update.
Qed.

(** *** [updateDOM] *)

Lemma updateDOM_run config count text st :
  toStringMethod count = Normal text ->
  exists con,
    updateDOM config count st =
    (Normal tt,
     mkState
       (DOM.updateElementById "count-value"
          (countRender (Some (removeNonDigits text))) (document st))
       (csrfMeta st) (<["visitorCount" := removeNonDigits text]> (localStorage st))
       (aborted st) (uuids st) (trace st) con).
Proof.
  intros Ht. unfold updateDOM, bind at 1, lift. rewrite Ht.
  unfold bind at 1, setItem. cbn [document].
  destruct (DOM.getElementById "count-value" (document st)) eqn:F.
  - unfold bind at 1, getItem. cbn [localStorage]. rewrite lookup_insert_eq.
    unfold bind, setDocument. rewrite debugLog_None_eq. unfold withConsole. cbn.
    eexists. reflexivity.
  - rewrite (updateElementById_missing _ _ _ F), debugLog_None_eq. unfold withConsole.
    eexists. reflexivity.
Qed.

Lemma updateDOM_throws config count e st :
  toStringMethod count = Throw e -> updateDOM config count st = (Throw e, st).
Proof. intros Ht. unfold updateDOM, bind, lift. now rewrite Ht. Qed.

Lemma countRender_id cached el : id (fst (countRender cached el)) = id (fst el).
Proof. reflexivity. Qed.

Lemma countRender_idempotent cached el :
  countRender cached (countRender cached el) = countRender cached el.
Proof.
  unfold countRender, DOM.setAttribute, DOM.setTextContent. cbn.
  now rewrite insert_insert_eq.
Qed.

(** *** Validation *)

Lemma isValidVisitorCount_number count :
  isValidVisitorCount count = Normal true -> exists x, count = VNumber x.
Proof.
  destruct count; cbn; try discriminate. eauto.
Qed.

Lemma finish_valid config c count :
  finish config c = Normal count -> isValidVisitorCount count = Normal true.
Proof.
  destruct c as [[r|]|e]; cbn; try discriminate. unfold readCount.
  destruct (json r) as [data|]; [|discriminate].
  destruct (logFailure config data); [discriminate|].
  destruct (getProperty data "count") as [c|]; [|discriminate].
  destruct (isValidVisitorCount c) as [[|]|] eqn:V; try discriminate.
  - now intros [= <-].
  - destruct (ToString c); discriminate.
Qed.

(** A count that [makeRequest] returns has passed the validation. *)
Lemma makeRequest_valid platform config m st count st' :
  makeRequest platform config m st = (Normal count, st') ->
  isValidVisitorCount count = Normal true.
Proof.
  destruct (fetchWithRetryAndTimeout platform config (API_URL config)
              (requestOptions platform m st) (prepared config m st)) as [c st3] eqn:E.
  destruct (makeRequest_run _ _ _ _ _ _ E) as (st1 & -> & _).
  intros [= H _]. eapply finish_valid; eauto.
Qed.

(** *** The two operations *)

(** The state after a render of the validated count whose text is [text]. *)
Lemma incrementVisitorCount_run platform config st :
  match makeRequest platform config "POST" st with
  | (Throw e, st1) =>
      incrementVisitorCount platform config st =
      (Throw e,
       snd (handleError config "Error incrementing visitor count" (Some (LogError e)) st1))
  | (Normal count, st1) =>
      exists x con,
        count = VNumber x /\
        incrementVisitorCount platform config st =
        (Normal count,
         mkState
           (DOM.updateElementById "count-value"
              (countRender (Some (removeNonDigits (Number.toString x)))) (document st1))
           (csrfMeta st1)
           (<["visitorCount" := removeNonDigits (Number.toString x)]> (localStorage st1))
           (aborted st1) (uuids st1) (trace st1) con)
  end.
Proof.
  destruct (makeRequest platform config "POST" st) as [[count|e] st1] eqn:E.
  - destruct (isValidVisitorCount_number _ (makeRequest_valid _ _ _ _ _ _ E)) as [x ->].
    destruct (updateDOM_run config (VNumber x) (Number.toString x) st1 eq_refl) as [con Hu].
    unfold incrementVisitorCount, tryCatch, bind at 1. rewrite E.
    unfold bind at 1. rewrite Hu. unfold bind, lift. cbn [ToString].
    rewrite debugLog_None_eq. unfold withConsole, ret. cbn. eauto.
  - unfold incrementVisitorCount, tryCatch, bind at 1. rewrite E.
    unfold bind. rewrite handleError_run. reflexivity.
Qed.

Lemma updateVisitorCount_run platform config st :
  match makeRequest platform config "GET" st with
  | (Throw e, st1) =>
      updateVisitorCount platform config st =
      (Throw e,
       snd (handleError config "Error fetching visitor count" (Some (LogError e)) st1))
  | (Normal count, st1) =>
      exists x con,
        count = VNumber x /\
        updateVisitorCount platform config st =
        (Normal tt,
         mkState
           (DOM.updateElementById "count-value"
              (countRender (Some (removeNonDigits (Number.toString x)))) (document st1))
           (csrfMeta st1)
           (<["visitorCount" := removeNonDigits (Number.toString x)]> (localStorage st1))
           (aborted st1) (uuids st1) (trace st1) con)
  end.
Proof.
  destruct (makeRequest platform config "GET" st) as [[count|e] st1] eqn:E.
  - destruct (isValidVisitorCount_number _ (makeRequest_valid _ _ _ _ _ _ E)) as [x ->].
    destruct (updateDOM_run config (VNumber x) (Number.toString x) st1 eq_refl) as [con Hu].
    unfold updateVisitorCount, tryCatch, bind at 1. rewrite E.
    unfold bind at 1. rewrite Hu. unfold bind, lift. cbn [ToString].
    rewrite debugLog_None_eq. unfold withConsole. cbn. eauto.
  - unfold updateVisitorCount, tryCatch, bind at 1. rewrite E.
    unfold bind. rewrite handleError_run. reflexivity.
Qed.

(** [initialize] up to the call of [incrementVisitorCount], on a page with a
    valid endpoint and a container. *)
Lemma initialize_run platform config st el :
  isValidUrl platform (API_URL config) = true ->
  DOM.getElementById (ELEMENT_ID config) (document st) = Some el ->
  initialize platform config st =
  tryCatch
    (incrementVisitorCount platform config ;;
     updateVisitorCount platform config ;;
     debugLog config "Initialization completed successfully" None)
    (fun error =>
       handleError config "Failed to initialize visitor counter" (Some (LogError error)))
    (loadingState config st).
Proof.
  intros Hurl F. unfold initialize, bind at 1. rewrite debugLog_None_eq.
  unfold tryCatch. unfold bind at 1. rewrite Hurl. cbn [negb ret].
  unfold bind at 1. cbn [withConsole document]. rewrite F.
  reflexivity.
Qed.

(** C6: when the increment operation fails, [initialize] issues no [GET]
    request (every request of the page load is a [POST]), and the container
    ends up showing the fixed error message, with the class [counter-error]
    and the error label. *)
Theorem failed_increment_stops_initialization platform config st el e st2 :
  isValidUrl platform (API_URL config) = true ->
  DOM.getElementById (ELEMENT_ID config) (document st) = Some el ->
  incrementVisitorCount platform config (loadingState config st) = (Throw e, st2) ->
  exists st' n el',
    initialize platform config st = (Normal tt, st') /\
    fetchMethods (trace st') = fetchMethods (trace st) ++ replicate n "POST" /\
    DOM.getElementById (ELEMENT_ID config) (document st') = Some el' /\
    showsError el'.
Proof.
  intros Hurl F Hinc.
  rewrite (initialize_run _ _ _ _ Hurl F). unfold tryCatch, bind at 1. rewrite Hinc.
  pose proof (incrementVisitorCount_run platform config (loadingState config st)) as Hrun.
  pose proof (makeRequest_requestsOnly platform config "POST" (loadingState config st)) as Hreq.
  destruct (makeRequest platform config "POST" (loadingState config st)) as [[count|e1] st1].
  { destruct Hrun as (x & con & _ & Hrun). rewrite Hinc in Hrun. discriminate. }
  rewrite Hinc in Hrun. injection Hrun as <- ->. cbn [snd] in Hreq.
  destruct Hreq as [[Hdoc _] [n Htr]].
  assert (DOM.getElementById (ELEMENT_ID config) (document st1) =
          Some (DOM.setInnerHTML loadingMarkup el)) as F1.
  { rewrite Hdoc. cbn [loadingState withDocument document]. now apply getElementById_update. }
  destruct (handleError_shows config "Error incrementing visitor count" e st1 _ F1)
    as (el2 & F2 & ->).
  destruct (handleError_shows config "Failed to initialize visitor counter" e _ _ F2)
    as (el3 & F3 & ->).
  eexists _, n, _. split; [|split; [|split; [exact F3|apply errorRender_shows]]].
  - rewrite (handleError_run config "Failed to initialize visitor counter" e). reflexivity.
  - rewrite !handleError_run. cbn [snd withDocument withConsole trace]. exact Htr.
Qed.

Lemma failed_increment_stops_initialization_witness :
  exists st' n el',
    initialize (scripted [Pending]) CONFIG freshPage = (Normal tt, st') /\
    fetchMethods (trace st') = fetchMethods (trace freshPage) ++ replicate n "POST" /\
    DOM.getElementById (ELEMENT_ID CONFIG) (document st') = Some el' /\
    showsError el'.
Proof.
  eapply (failed_increment_stops_initialization (scripted [Pending]) CONFIG freshPage).
  - reflexivity.
  - reflexivity.
  - vm_compute. reflexivity.
Defined.

(** C7: the stored count is written only by a render that follows a fetched
    and validated response.  The error-rendering routine and [makeRequest]
    leave the storage as it is, an operation that fails leaves it as it is,
    and an operation that succeeds stores the digits of the count that
    [makeRequest] returned under [visitorCount]. *)
Theorem storage_written_on_success_only platform config st :
  (forall msg e,
     localStorage (snd (handleError config msg (Some (LogError e)) st)) = localStorage st) /\
  (forall m, localStorage (snd (makeRequest platform config m st)) = localStorage st) /\
  (forall e st',
     incrementVisitorCount platform config st = (Throw e, st') ->
     localStorage st' = localStorage st) /\
  (forall e st',
     updateVisitorCount platform config st = (Throw e, st') ->
     localStorage st' = localStorage st) /\
  (forall count st',
     incrementVisitorCount platform config st = (Normal count, st') ->
     exists x st1,
       makeRequest platform config "POST" st = (Normal (VNumber x), st1) /\
       isValidVisitorCount (VNumber x) = Normal true /\
       localStorage st' =
         <["visitorCount" := removeNonDigits (Number.toString x)]> (localStorage st)) /\
  (forall st',
     updateVisitorCount platform config st = (Normal tt, st') ->
     exists x st1,
       makeRequest platform config "GET" st = (Normal (VNumber x), st1) /\
       isValidVisitorCount (VNumber x) = Normal true /\
       localStorage st' =
         <["visitorCount" := removeNonDigits (Number.toString x)]> (localStorage st)).
Proof.
  split; [|split; [|split; [|split; [|split]]]].
  - intros msg e. rewrite handleError_run. reflexivity.
  - intros m. apply (makeRequest_requestsOnly platform config m st).
  - intros e st' H.
    pose proof (incrementVisitorCount_run platform config st) as Hrun.
    pose proof (makeRequest_requestsOnly platform config "POST" st) as [[_ Hls] _].
    destruct (makeRequest platform config "POST" st) as [[count|e1] st1].
    + destruct Hrun as (x & con & _ & Hrun). rewrite H in Hrun. discriminate.
    + rewrite H in Hrun. injection Hrun as <- ->.
      rewrite handleError_run. exact Hls.
  - intros e st' H.
    pose proof (updateVisitorCount_run platform config st) as Hrun.
    pose proof (makeRequest_requestsOnly platform config "GET" st) as [[_ Hls] _].
    destruct (makeRequest platform config "GET" st) as [[count|e1] st1].
    + destruct Hrun as (x & con & _ & Hrun). rewrite H in Hrun. discriminate.
    + rewrite H in Hrun. injection Hrun as <- ->.
      rewrite handleError_run. exact Hls.
  - intros count st' H.
    pose proof (incrementVisitorCount_run platform config st) as Hrun.
    pose proof (makeRequest_requestsOnly platform config "POST" st) as [[_ Hls] _].
    destruct (makeRequest platform config "POST" st) as [[c|e1] st1] eqn:E.
    + destruct Hrun as (x & con & -> & Hrun). rewrite H in Hrun. injection Hrun as -> ->.
      exists x, st1. split; [reflexivity|]. split.
      * eapply makeRequest_valid; eauto.
      * cbn [localStorage]. cbn [snd] in Hls. now rewrite Hls.
    + rewrite H in Hrun. discriminate.
  - intros st' H.
    pose proof (updateVisitorCount_run platform config st) as Hrun.
    pose proof (makeRequest_requestsOnly platform config "GET" st) as [[_ Hls] _].
    destruct (makeRequest platform config "GET" st) as [[c|e1] st1] eqn:E.
    + destruct Hrun as (x & con & -> & Hrun). rewrite H in Hrun. injection Hrun as ->.
      exists x, st1. split; [reflexivity|]. split.
      * eapply makeRequest_valid; eauto.
      * cbn [localStorage]. cbn [snd] in Hls. now rewrite Hls.
    + rewrite H in Hrun. discriminate.
Qed.

Lemma storage_written_on_success_only_witness :
  localStorage (snd (incrementVisitorCount (scripted [Pending]) CONFIG freshPage)) = ∅ /\
  localStorage
    (snd (incrementVisitorCount (scripted [Resolves (jsonResponse (VNumber (Int 42)))])
            CONFIG freshPage)) = {["visitorCount" := "42"]}.
Proof.
  split.
  - destruct (storage_written_on_success_only (scripted [Pending]) CONFIG freshPage)
      as (_ & _ & Hfail & _).
    eapply Hfail. vm_compute. reflexivity.
  - destruct (storage_written_on_success_only
                (scripted [Resolves (jsonResponse (VNumber (Int 42)))]) CONFIG freshPage)
      as (_ & _ & _ & _ & Hok & _).
    destruct (Hok (VNumber (Int 42))
                (snd (incrementVisitorCount
                        (scripted [Resolves (jsonResponse (VNumber (Int 42)))])
                        CONFIG freshPage)))
      as (x & st1 & E & _ & ->); [vm_compute; reflexivity|].
    vm_compute in E. injection E as <- _. reflexivity.
Defined.

(** C4: when the configured endpoint fails the URL validation, [initialize]
    completes without a single timer, request or delay, and the container,
    when the page has one, shows the error state. *)
Theorem invalid_endpoint_no_request platform config st :
  isValidUrl platform (API_URL config) = false ->
  exists st',
    initialize platform config st = (Normal tt, st') /\
    trace st' = trace st /\
    fetchCalls (trace st') = fetchCalls (trace st) /\
    localStorage st' = localStorage st /\
    (forall el,
       DOM.getElementById (ELEMENT_ID config) (document st) = Some el ->
       exists el',
         DOM.getElementById (ELEMENT_ID config) (document st') = Some el' /\
         showsError el').
Proof.
  intros Hurl. unfold initialize, bind at 1. rewrite debugLog_None_eq.
  unfold tryCatch, bind at 1. rewrite Hurl. cbn [negb throw].
  rewrite handleError_run. eexists. split; [reflexivity|].
  cbn [withDocument withConsole trace localStorage document].
  repeat split. intros el F. exists (errorRender el). split.
  - now apply getElementById_update.
  - apply errorRender_shows.
Qed.

Lemma invalid_endpoint_no_request_witness :
  exists st',
    initialize (scripted []) (mkConfig "/api/counter" "visitor-count" 3 1000 15000 true)
      freshPage = (Normal tt, st') /\
    trace st' = [] /\
    fetchCalls (trace st') = [] /\
    localStorage st' = ∅ /\
    (forall el,
       DOM.getElementById "visitor-count" (document freshPage) = Some el ->
       exists el',
         DOM.getElementById "visitor-count" (document st') = Some el' /\
         showsError el').
Proof.
  apply (invalid_endpoint_no_request (scripted [])
           (mkConfig "/api/counter" "visitor-count" 3 1000 15000 true) freshPage).
  reflexivity.
Defined.

(** C10: when the page has no element with the configured id, [initialize]
    raises before any request: on a valid endpoint it is the access to the
    missing element that raises.  The handler of [initialize] catches the
    error and calls [handleError], and [initialize] completes: no timer,
    request or delay happens, and the document and the storage stay as they
    are. *)
Theorem missing_container_no_request platform config st :
  DOM.getElementById (ELEMENT_ID config) (document st) = None ->
  exists e st',
    initialize platform config st = (Normal tt, st') /\
    initialize platform config st =
      handleError config "Failed to initialize visitor counter" (Some (LogError e))
        (withConsole (console st ++ logLines config "Starting initialization" None) st) /\
    (isValidUrl platform (API_URL config) = true ->
     e = TypeError "Cannot set properties of null (setting 'innerHTML')") /\
    trace st' = trace st /\
    fetchCalls (trace st') = fetchCalls (trace st) /\
    document st' = document st /\
    localStorage st' = localStorage st.
Proof.
  intros F.
  assert (exists e,
            initialize platform config st =
            handleError config "Failed to initialize visitor counter" (Some (LogError e))
              (withConsole (console st ++ logLines config "Starting initialization" None) st) /\
            (isValidUrl platform (API_URL config) = true ->
             e = TypeError "Cannot set properties of null (setting 'innerHTML')"))
    as (e & E & He).
  { unfold initialize, bind at 1. rewrite debugLog_None_eq. unfold tryCatch, bind at 1.
    destruct (isValidUrl platform (API_URL config)); cbn [negb ret throw].
    - unfold bind at 1. cbn [withConsole document]. rewrite F. eauto.
    - eexists. split; [reflexivity | discriminate]. }
  exists e. rewrite E, handleError_run. eexists. split; [reflexivity|]. split; [reflexivity|].
  split; [exact He|].
  cbn [withDocument withConsole trace localStorage document].
  rewrite (updateElementById_missing _ _ _ F). repeat split.
Qed.

Lemma missing_container_no_request_witness :
  exists st',
    initialize (scripted [Resolves (jsonResponse (VNumber (Int 42)))]) CONFIG emptyPage =
      (Normal tt, st') /\
    trace st' = [] /\ document st' = [].
Proof.
  destruct (missing_container_no_request
              (scripted [Resolves (jsonResponse (VNumber (Int 42)))]) CONFIG emptyPage)
    as (e & st' & E & _ & _ & Ht & _ & Hd & _).
  - reflexivity.
  - exists st'. repeat split; assumption.
Defined.

(** *** Decimal digits and [parseInt] *)

Lemma append_assoc (a b c : string) : (a +:+ b) +:+ c = a +:+ (b +:+ c).
Proof.
  induction a as [|x a IH]; [reflexivity|].
  change (String x ((a +:+ b) +:+ c) = String x (a +:+ (b +:+ c))). now rewrite IH.
Qed.

Lemma pretty_N_go_append x : forall s, pretty_N_go x s = pretty_N_go x "" +:+ s.
Proof.
  induction (N.lt_wf_0 x) as [x _ IH]. intros s.
  destruct (decide (x = 0)%N) as [->|Hx]; [reflexivity|].
  assert (x `div` 10 < x)%N as Hlt by (apply N.div_lt; lia).
  rewrite (pretty_N_go_step x s), (pretty_N_go_step x "") by lia.
  rewrite (IH _ Hlt (String (pretty_N_char (x `mod` 10)) s)).
  rewrite (IH _ Hlt (String (pretty_N_char (x `mod` 10)) "")).
  now rewrite append_assoc.
Qed.

Lemma digitsValue_append s1 : forall acc s2,
  digitsValue acc (s1 +:+ s2) = digitsValue (digitsValue acc s1) s2.
Proof.
  induction s1 as [|c s1 IH]; intros acc s2; [reflexivity|].
  change (digitsValue acc (String c (s1 +:+ s2)) = digitsValue (digitsValue acc (String c s1)) s2).
  cbn [digitsValue]. apply IH.
Qed.

Lemma digitValue_char d : (d < 10)%N -> digitValue (pretty_N_char d) = Z.of_N d.
Proof.
  intros H. assert (d ∈ [0; 1; 2; 3; 4; 5; 6; 7; 8; 9]%N) as Hd.
  { rewrite !elem_of_cons. lia. }
  rewrite !elem_of_cons, elem_of_nil in Hd.
  destruct Hd as [->|[->|[->|[->|[->|[->|[->|[->|[->|[->|[]]]]]]]]]]]; reflexivity.
Qed.

Lemma isDigit_char d : isDigit (pretty_N_char d) = true.
Proof. unfold pretty_N_char. repeat case_match; reflexivity. Qed.

Lemma digitsValue_pretty x : digitsValue 0 (pretty_N_go x "") = Z.of_N x.
Proof.
  induction (N.lt_wf_0 x) as [x _ IH].
  destruct (decide (x = 0)%N) as [->|Hx]; [reflexivity|].
  rewrite pretty_N_go_step, pretty_N_go_append, digitsValue_append by lia.
  rewrite IH by (apply N.div_lt; lia). cbn [digitsValue].
  rewrite digitValue_char by (apply N.mod_lt; lia).
  rewrite (N.div_mod x 10) at 3 by lia. lia.
Qed.

Lemma digitPrefix_append s1 s2 :
  digitPrefix s1 = s1 -> digitPrefix s2 = s2 -> digitPrefix (s1 +:+ s2) = s1 +:+ s2.
Proof.
  intros H1 H2. induction s1 as [|c s1 IH]; [exact H2|].
  change (digitPrefix (String c (s1 +:+ s2)) = String c (s1 +:+ s2)).
  cbn [digitPrefix] in *. destruct (isDigit c); [|discriminate].
  injection H1 as H1. now rewrite IH.
Qed.

Lemma digitPrefix_pretty x : digitPrefix (pretty_N_go x "") = pretty_N_go x "".
Proof.
  induction (N.lt_wf_0 x) as [x _ IH].
  destruct (decide (x = 0)%N) as [->|Hx]; [reflexivity|].
  rewrite pretty_N_go_step, pretty_N_go_append by lia.
  apply digitPrefix_append; [apply IH, N.div_lt; lia|].
  cbn. now rewrite isDigit_char.
Qed.

Lemma pretty_N_go_nonempty x : (0 < x)%N -> pretty_N_go x "" <> "".
Proof.
  intros Hx. rewrite pretty_N_go_step, pretty_N_go_append by lia.
  destruct (pretty_N_go (x `div` 10) ""); discriminate.
Qed.

Lemma decimalDigits_facts v :
  0 <= v ->
  Number.decimalDigits v <> "" /\
  digitPrefix (Number.decimalDigits v) = Number.decimalDigits v /\
  digitsValue 0 (Number.decimalDigits v) = v.
Proof.
  intros Hv. unfold Number.decimalDigits, pretty, pretty_N.
  destruct (decide (Z.to_N v = 0%N)) as [E|E].
  - split; [discriminate|]. split; [reflexivity|]. change (0 = v). lia.
  - split; [apply pretty_N_go_nonempty; lia|]. split; [apply digitPrefix_pretty|].
    rewrite digitsValue_pretty. lia.
Qed.

(** [parseInt] of a non-empty string of decimal digits. *)
Lemma parseInt10_digits s :
  s <> "" -> digitPrefix s = s ->
  parseInt10 (VString s) =
  Normal (if digitsValue 0 s =? 0 then Int 0 else Number.ofInteger (digitsValue 0 s)).
Proof.
  intros Hs Hd. destruct s as [|c r]; [contradiction|].
  unfold parseInt10. cbn [ToString].
  assert (isDigit c = true) as Hc.
  { cbn in Hd. destruct (isDigit c); [reflexivity | discriminate]. }
  assert (trimStart (String c r) = String c r) as ->.
  { cbn. replace (isWhiteSpace c) with false; [reflexivity|].
    unfold isDigit, isWhiteSpace in *. lia. }
  assert (c <> "-"%char /\ c <> "+"%char) as [Hm Hp].
  { split; intros ->; discriminate. }
  assert (forall A (x y : A),
            match String c r with String "-" _ => x | _ => y end = y) as Hsign.
  { intros A x y.
    destruct c as [[] [] [] [] [] [] [] []]; try reflexivity. now contradiction Hm. }
  assert (match String c r with
          | String "+" rest | String "-" rest => rest
          | _ => String c r
          end = String c r) as Hunsigned.
  { destruct c as [[] [] [] [] [] [] [] []]; try reflexivity;
      [now contradiction Hp | now contradiction Hm]. }
  rewrite Hunsigned, Hd. rewrite (Hsign bool true false).
  destruct (digitsValue 0 (String c r) =? 0); reflexivity.
Qed.

(** A safe integer, transmitted as a number, passes the validation. *)
Lemma isValidVisitorCount_safe z :
  0 <= z <= Number.MAX_SAFE_INTEGER ->
  isValidVisitorCount (VNumber (Int z)) = Normal true.
Proof.
  intros [H0 Hmax]. unfold Number.MAX_SAFE_INTEGER in Hmax.
  assert (Number.toString (Int z) = Number.decimalDigits z) as Hs.
  { unfold Number.toString, Number.shortestInteger.
    rewrite Z.abs_eq by lia.
    destruct (z <? 0) eqn:E1; [lia|].
    destruct (z <=? 2 ^ 53) eqn:E2; [|lia].
    destruct (z <? 10 ^ 21) eqn:E3; [reflexivity | lia]. }
  destruct (decimalDigits_facts z H0) as (Hne & Hpre & Hval).
  unfold isValidVisitorCount. cbn [typeof String.eqb Ascii.eqb Bool.eqb negb].
  change (parseInt10 (VNumber (Int z))) with (parseInt10 (VString (Number.toString (Int z)))).
  rewrite Hs, (parseInt10_digits _ Hne Hpre), Hval.
  destruct (z =? 0) eqn:E0.
  - reflexivity.
  - unfold Number.ofInteger, Number.nearestDouble. rewrite Z.abs_eq by lia.
    destruct (z <=? 2 ^ 53) eqn:E2; [|lia].
    replace (Z.sgn z * z) with z by (rewrite Z.sgn_pos; lia).
    unfold Number.ge, Number.le, Number.MAX_SAFE_INTEGER. cbn [Number.isNaN negb Number.toFraction andb].
    destruct (0 * 1 <=? z * 1) eqn:E4; [|lia].
    destruct (z * 1 <=? (2 ^ 53 - 1) * 1) eqn:E5; [reflexivity | lia].
Qed.

(** A string fails the validation, whatever it spells. *)
Lemma isValidVisitorCount_string s : isValidVisitorCount (VString s) = Normal false.
Proof. reflexivity. Qed.

(** *** A request whose first attempt is answered *)

Lemma makeRequest_answered platform config m st r :
  1 <= MAX_RETRIES config ->
  aborted st = false ->
  (forall url options,
     network platform (length (fetchCalls (trace st))) url options = Resolves r) ->
  attemptError (Resolves r) = None ->
  exists st',
    makeRequest platform config m st = (readCount config r, st') /\
    samePage st st' /\
    schedule (trace st') =
      schedule (trace st) ++ [Fetch (API_URL config) (requestOptions platform m st)] /\
    aborted st' = false.
Proof.
  intros Hmax Hab Hnet Herr.
  destruct (attempt_run platform config 0 (API_URL config)
              (requestOptions platform m st) (prepared config m st) Hab)
    as (st3 & E & X & _).
  cbn zeta in E, X. change (trace (prepared config m st)) with (trace st) in E, X.
  rewrite Hnet in E, X. unfold settles in E, X. rewrite Herr in E, X.
  assert (aborted st3 = false) as Hab3.
  { revert E. unfold attempt, bind, tryCatch. rewrite debugLog_None_eq.
    unfold emit, fetch, withConsole.
    cbn [aborted trace document csrfMeta localStorage uuids console prepared].
    rewrite Hab, fetchCalls_app, length_app, Nat.add_0_r, Hnet.
    cbn [attemptError] in Herr.
    destruct (negb (ok r)); [discriminate|].
    destruct (contentType r) as [ct|]; [|discriminate].
    destruct (includes "application/json" ct); [|discriminate].
    cbn [negb ret]. now intros [= <-]. }
  assert (fetchWithRetryAndTimeout platform config (API_URL config)
            (requestOptions platform m st) (prepared config m st) =
          (Normal (Some r), st3)) as Hloop.
  { unfold fetchWithRetryAndTimeout.
    destruct (Z.to_nat (MAX_RETRIES config)) as [|n] eqn:Hn; [lia|].
    cbn [attemptsFrom]. unfold bind. now rewrite E. }
  destruct (makeRequest_run _ _ _ _ _ _ Hloop) as (st' & Hm & S).
  exists st'. split; [exact Hm|].
  destruct S as (Sd & _ & Sl & Sa & _ & St).
  destruct X as (Xd & _ & Xl & _ & Xs).
  split; [split; cbn [prepared document localStorage] in *; congruence|].
  split; [|congruence].
  rewrite St, Xs. reflexivity.
Qed.

(** C5: a fetched response whose body count is [-1], the string [abc] or
    [9007199254740993] fails the validation: [makeRequest] throws the
    validation error at once, after the one fetch call that brought the
    response, with no delay and no further attempt. *)
Theorem invalid_count_not_retried platform config m st r data count :
  1 <= MAX_RETRIES config ->
  aborted st = false ->
  (forall url options,
     network platform (length (fetchCalls (trace st))) url options = Resolves r) ->
  attemptError (Resolves r) = None ->
  json r = Normal data ->
  logFailure config data = None ->
  getProperty data "count" = Normal count ->
  count = VNumber (Int (-1)) \/ count = VString "abc" \/
  count = VNumber (Number.ofInteger 9007199254740993) ->
  exists text st',
    isValidVisitorCount count = Normal false /\
    ToString count = Normal text /\
    makeRequest platform config m st =
      (Throw (Error ("Invalid visitor count received: " +:+ text)), st') /\
    schedule (trace st') =
      schedule (trace st) ++ [Fetch (API_URL config) (requestOptions platform m st)] /\
    length (fetchCalls (trace st')) = S (length (fetchCalls (trace st))) /\
    delays (trace st') = delays (trace st).
Proof.
  intros Hmax Hab Hnet Herr Hjson Hlog Hcount Hcases.
  destruct (makeRequest_answered platform config m st r Hmax Hab Hnet Herr)
    as (st' & E & _ & Hs & _).
  assert (exists text, isValidVisitorCount count = Normal false /\ ToString count = Normal text)
    as (text & Hv & Ht).
  { destruct Hcases as [->|[->| ->]]; eexists; split; vm_compute; reflexivity. }
  exists text, st'. split; [exact Hv|]. split; [exact Ht|].
  unfold readCount in E. rewrite Hjson, Hlog, Hcount, Hv, Ht in E.
  split; [exact E|]. split; [exact Hs|]. split.
  - rewrite (fetchCalls_schedule (trace st')), (fetchCalls_schedule (trace st)), Hs.
    rewrite List.filter_app, length_app. cbn. lia.
  - rewrite (delays_schedule (trace st')), (delays_schedule (trace st)), Hs.
    rewrite delays_app. cbn. now rewrite app_nil_r.
Qed.

Lemma invalid_count_not_retried_witness :
  exists text st',
    isValidVisitorCount (VNumber (Number.ofInteger 9007199254740993)) = Normal false /\
    ToString (VNumber (Number.ofInteger 9007199254740993)) = Normal text /\
    makeRequest
      (scripted [Resolves (jsonResponse (VNumber (Number.ofInteger 9007199254740993)))])
      CONFIG "POST" freshPage =
      (Throw (Error ("Invalid visitor count received: " +:+ text)), st') /\
    length (fetchCalls (trace st')) = 1%nat /\
    delays (trace st') = [].
Proof.
  destruct (invalid_count_not_retried
    (scripted [Resolves (jsonResponse (VNumber (Number.ofInteger 9007199254740993)))])
    CONFIG "POST" freshPage
    (jsonResponse (VNumber (Number.ofInteger 9007199254740993)))
    (VObject [("count", VNumber (Number.ofInteger 9007199254740993))])
    (VNumber (Number.ofInteger 9007199254740993)))
    as (text & st' & Hv & Ht & E & _ & Hf & Hd).
  - vm_compute. discriminate.
  - reflexivity.
  - reflexivity.
  - reflexivity.
  - reflexivity.
  - reflexivity.
  - reflexivity.
  - right. right. reflexivity.
  - exists text, st'. repeat split; assumption.
Defined.

(** C2 (as the code has it): a count transmitted as a string fails the
    validation, whatever the string spells, because [isValidVisitorCount]
    rejects every value whose [typeof] is not [number]; [makeRequest] then
    throws the validation error after the one fetch call that brought the
    response.  An integer within [[0, MAX_SAFE_INTEGER]] transmitted as a
    number passes the validation and is what [makeRequest] returns. *)
Theorem only_number_counts_accepted platform config m st r data :
  1 <= MAX_RETRIES config ->
  aborted st = false ->
  (forall url options,
     network platform (length (fetchCalls (trace st))) url options = Resolves r) ->
  attemptError (Resolves r) = None ->
  json r = Normal data ->
  logFailure config data = None ->
  (forall s,
     getProperty data "count" = Normal (VString s) ->
     isValidVisitorCount (VString s) = Normal false /\
     exists st',
       makeRequest platform config m st =
         (Throw (Error ("Invalid visitor count received: " +:+ s)), st') /\
       length (fetchCalls (trace st')) = S (length (fetchCalls (trace st)))) /\
  (forall z,
     0 <= z <= Number.MAX_SAFE_INTEGER ->
     getProperty data "count" = Normal (VNumber (Int z)) ->
     isValidVisitorCount (VNumber (Int z)) = Normal true /\
     exists st', makeRequest platform config m st = (Normal (VNumber (Int z)), st')).
Proof.
  intros Hmax Hab Hnet Herr Hjson Hlog.
  destruct (makeRequest_answered platform config m st r Hmax Hab Hnet Herr)
    as (st' & E & _ & Hs & _).
  unfold readCount in E. rewrite Hjson, Hlog in E. split.
  - intros s Hcount. split; [reflexivity|]. exists st'. rewrite Hcount in E. split; [exact E|].
    rewrite (fetchCalls_schedule (trace st')), (fetchCalls_schedule (trace st)), Hs.
    rewrite List.filter_app, length_app. cbn. lia.
  - intros z Hz Hcount. pose proof (isValidVisitorCount_safe z Hz) as Hv.
    split; [exact Hv|]. exists st'. now rewrite Hcount, Hv in E.
Qed.

Lemma only_number_counts_accepted_witness :
  (exists st',
     makeRequest (scripted [Resolves (jsonResponse (VString "42"))]) CONFIG "GET" freshPage =
     (Throw (Error "Invalid visitor count received: 42"), st')) /\
  isValidVisitorCount (VNumber (Int 42)) = Normal true.
Proof.
  split.
  - pose proof (only_number_counts_accepted
      (scripted [Resolves (jsonResponse (VString "42"))]) CONFIG "GET" freshPage
      (jsonResponse (VString "42")) (VObject [("count", VString "42")])
      ltac:(vm_compute; discriminate) eq_refl (fun _ _ => eq_refl) eq_refl eq_refl eq_refl)
      as [Hstring _].
    destruct (Hstring "42" eq_refl) as (_ & st' & E & _). exists st'. exact E.
  - pose proof (only_number_counts_accepted
      (scripted [Resolves (jsonResponse (VNumber (Int 42)))]) CONFIG "GET" freshPage
      (jsonResponse (VNumber (Int 42))) (VObject [("count", VNumber (Int 42))])
      ltac:(vm_compute; discriminate) eq_refl (fun _ _ => eq_refl) eq_refl eq_refl eq_refl)
      as [_ Hnumber].
    apply (Hnumber 42); [vm_compute; split; discriminate | reflexivity].
Defined.

(** C2 fails as stated: the count ["42"] is rejected by the validation and
    by [makeRequest], while the number [42] is accepted by both. *)
Lemma numeric_string_rejected :
  isValidVisitorCount (VString "42") = Normal false /\
  fst (makeRequest (scripted [Resolves (jsonResponse (VString "42"))]) CONFIG "GET" freshPage)
    = Throw (Error "Invalid visitor count received: 42") /\
  isValidVisitorCount (VNumber (Int 42)) = Normal true /\
  fst (makeRequest (scripted [Resolves (jsonResponse (VNumber (Int 42)))]) CONFIG "GET" freshPage)
    = Normal (VNumber (Int 42)).
Proof. vm_compute. repeat split. Qed.

(** C8: after a successful increment whose validated count is [42], the
    storage holds ["42"] under [visitorCount], the value element shows
    exactly the stored string, ["42"], and its accessibility label is
    [Visitor count: 42]. *)
Theorem increment_42_rendered platform config st r data el :
  1 <= MAX_RETRIES config ->
  aborted st = false ->
  (forall url options,
     network platform (length (fetchCalls (trace st))) url options = Resolves r) ->
  attemptError (Resolves r) = None ->
  json r = Normal data ->
  logFailure config data = None ->
  getProperty data "count" = Normal (VNumber (Int 42)) ->
  DOM.getElementById "count-value" (document st) = Some el ->
  exists st' el',
    incrementVisitorCount platform config st = (Normal (VNumber (Int 42)), st') /\
    localStorage st' !! "visitorCount" = Some "42" /\
    DOM.getElementById "count-value" (document st') = Some el' /\
    DOM.textContent el' = "42" /\
    Some (DOM.textContent el') = localStorage st' !! "visitorCount" /\
    DOM.getAttribute "aria-label" el' = Some "Visitor count: 42".
Proof.
  intros Hmax Hab Hnet Herr Hjson Hlog Hcount F.
  destruct (makeRequest_answered platform config "POST" st r Hmax Hab Hnet Herr)
    as (st1 & E & [Hdoc _] & _).
  unfold readCount in E. rewrite Hjson, Hlog, Hcount in E.
  change (isValidVisitorCount (VNumber (Int 42))) with (@Normal bool true) in E.
  pose proof (incrementVisitorCount_run platform config st) as Hrun. rewrite E in Hrun.
  destruct Hrun as (x & con & [= <-] & Hrun).
  change (removeNonDigits (Number.toString (Int 42))) with "42" in Hrun.
  eexists _, (countRender (Some "42") el). split; [exact Hrun|].
  cbn [localStorage document]. rewrite lookup_insert_eq. split; [reflexivity|]. split.
  - rewrite Hdoc. now apply getElementById_update.
  - split; [reflexivity|]. split; [reflexivity|]. apply lookup_insert_eq.
Qed.

Lemma increment_42_rendered_witness :
  exists st' el',
    incrementVisitorCount (scripted [Resolves (jsonResponse (VNumber (Int 42)))]) CONFIG
      (loadingState CONFIG freshPage) = (Normal (VNumber (Int 42)), st') /\
    localStorage st' !! "visitorCount" = Some "42" /\
    DOM.getElementById "count-value" (document st') = Some el' /\
    DOM.textContent el' = "42" /\
    Some (DOM.textContent el') = localStorage st' !! "visitorCount" /\
    DOM.getAttribute "aria-label" el' = Some "Visitor count: 42".
Proof.
  eapply (increment_42_rendered (scripted [Resolves (jsonResponse (VNumber (Int 42)))])
            CONFIG (loadingState CONFIG freshPage) (jsonResponse (VNumber (Int 42)))
            (VObject [("count", VNumber (Int 42))])).
  - vm_compute. discriminate.
  - reflexivity.
  - reflexivity.
  - reflexivity.
  - reflexivity.
  - reflexivity.
  - reflexivity.
  - reflexivity.
Defined.

(** C9: rendering a count twice in a row leaves the storage and the
    document, and so the text the value element shows, exactly as rendering
    it once does. *)
Theorem render_idempotent config count st :
  let once := snd (updateDOM config count st) in
  let twice := snd (updateDOM config count once) in
  localStorage twice = localStorage once /\
  document twice = document once /\
  DOM.textContent <$> DOM.getElementById "count-value" (document twice) =
    DOM.textContent <$> DOM.getElementById "count-value" (document once).
Proof.
  cbn zeta.
  assert (localStorage (snd (updateDOM config count (snd (updateDOM config count st)))) =
            localStorage (snd (updateDOM config count st)) /\
          document (snd (updateDOM config count (snd (updateDOM config count st)))) =
            document (snd (updateDOM config count st))) as [Hl Hd].
  { destruct (toStringMethod count) as [text|e] eqn:Ht.
    - destruct (updateDOM_run config count text st Ht) as [con ->]. cbn [snd].
      match goal with
      | |- context [updateDOM config count ?s] =>
          destruct (updateDOM_run config count text s Ht) as [con' ->]
      end.
      cbn [snd localStorage document]. split.
      + apply insert_insert_eq.
      + apply updateElementById_idempotent; intros;
          [apply countRender_id | apply countRender_idempotent].
    - repeat (rewrite (updateDOM_throws _ _ _ _ Ht); cbn [snd]). split; reflexivity. }
  split; [exact Hl|]. split; [exact Hd|]. now rewrite Hd.
Qed.

(** *** Examples *)

(** A count with a fraction passes the validation on its integer part, and
    the text shown is the stored string, not the value's own text. *)
Lemma fractional_count_shown_from_storage :
  let st' :=
    snd (incrementVisitorCount (scripted [Resolves (jsonResponse (VNumber (Frac false 15 1)))])
           CONFIG (loadingState CONFIG freshPage)) in
  ToString (VNumber (Frac false 15 1)) = Normal "1.5" /\
  localStorage st' !! "visitorCount" = Some "15" /\
  DOM.textContent <$> DOM.getElementById "count-value" (document st') = Some "15".
Proof. vm_compute. repeat split. Qed.

(** Endpoints that fail the validation: a relative path, a scheme other
    than http and https, the empty string. *)
Lemma isValidUrl_examples :
  isValidUrl (scripted []) "/api/counter" = false /\
  isValidUrl (scripted []) "ftp://example.org/counter" = false /\
  isValidUrl (scripted []) "" = false /\
  isValidUrl (scripted []) (API_URL CONFIG) = true.
Proof. vm_compute. repeat split. Qed.

(** A whole page load against a service that answers 42 and then 43. *)
Lemma page_load_example :
  let st' :=
    snd (initialize
           (scripted [Resolves (jsonResponse (VNumber (Int 42)));
                      Resolves (jsonResponse (VNumber (Int 43)))])
           CONFIG freshPage) in
  fetchMethods (trace st') = ["POST"; "GET"] /\
  delays (trace st') = [] /\
  localStorage st' !! "visitorCount" = Some "43" /\
  DOM.textContent <$> DOM.getElementById "count-value" (document st') = Some "43".
Proof. vm_compute. repeat split. Qed.


(** ** Beyond the claims: the retry loop against any network *)

Lemma settles_None config i o : settles config i o = None -> i <> MAX_RETRIES config - 1.
Proof.
  unfold settles. destruct (attemptError o) as [e|] eqn:E.
  - destruct (String.eqb (name e) "AbortError"); [discriminate|].
    destruct (i =? MAX_RETRIES config - 1) eqn:Ei; [discriminate|]. intros _. lia.
  - destruct o; cbn in E; discriminate.
Qed.

Lemma settles_response config i o r :
  settles config i o = Some (Normal (Some r)) -> o = Resolves r /\ attemptError o = None.
Proof.
  unfold settles. destruct (attemptError o) as [e|] eqn:E.
  - destruct (String.eqb (name e) "AbortError"); [discriminate|].
    destruct (i =? MAX_RETRIES config - 1); discriminate.
  - destruct o; try discriminate. now intros [= ->].
Qed.

Lemma attempt_aborted platform config i url options st :
  aborted st = true ->
  exists st',
    attempt platform config i url options st = (Throw (Error "Request timed out"), st') /\
    extends [Fetch url options] st st' /\
    aborted st' = true.
Proof.
  destruct st as [doc csrf ls ab uu tr con]. cbn [aborted trace]. intros ->.
  unfold attempt, bind, tryCatch. rewrite debugLog_None_eq.
  unfold emit, fetch, withConsole.
  cbn [aborted trace document csrfMeta localStorage uuids console].
  rewrite debugLog_Error_eq. unfold withConsole, throw.
  cbn [aborted trace document csrfMeta localStorage uuids console AbortError name
       String.eqb Ascii.eqb Bool.eqb].
  eexists; split; [reflexivity|]. split; [|reflexivity].
  repeat split; cbn [trace]; trace_simpl; reflexivity.
Qed.

(** One attempt, whatever the signal and the network. *)
Lemma attempt_any platform config i url options st :
  let o := outcomeAt platform st url options in
  exists st',
    attempt platform config i url options st =
      (match settles config i o with Some c => c | None => Normal None end, st') /\
    extends (match settles config i o with
             | Some _ => [Fetch url options]
             | None => [Fetch url options; Delay (RETRY_DELAY config * 2 ^ i)]
             end) st st' /\
    (settles config i o = None -> aborted st' = false).
Proof.
  unfold outcomeAt. destruct (aborted st) eqn:Hab.
  - destruct (attempt_aborted platform config i url options st Hab) as (st' & E & X & _).
    exists st'. cbn. split; [exact E|]. split; [exact X | discriminate].
  - exact (attempt_run platform config i url options st Hab).
Qed.

Lemma attemptsFrom_any platform config url options remaining :
  forall i st,
    i + Z.of_nat remaining = MAX_RETRIES config ->
    (0 < remaining)%nat ->
    exists j c st',
      (j < remaining)%nat /\
      attemptsFrom platform config remaining i url options st = (c, st') /\
      extends (backoffSchedule (RETRY_DELAY config) url options i j) st st' /\
      ((exists e, c = Throw e) \/
       (exists r, c = Normal (Some r) /\ attemptError (Resolves r) = None)).
Proof.
  induction remaining as [|remaining IH]; intros i st Hi Hpos; [lia|].
  destruct (attempt_any platform config i url options st) as (st1 & E & X & Hab).
  cbn zeta in E, X, Hab.
  destruct (settles config i (outcomeAt platform st url options)) as [c|] eqn:Hs.
  - exists 0%nat, c, st1. split; [lia|]. split; [|split; [exact X|]].
    + cbn [attemptsFrom]. unfold bind. rewrite E.
      destruct (settles_Some _ _ _ _ Hs) as [[r ->]|[e ->]]; reflexivity.
    + destruct (settles_Some _ _ _ _ Hs) as [[r ->]|[e ->]]; [right|left; eauto].
      destruct (settles_response _ _ _ _ Hs) as [Ho He]. exists r. split; [reflexivity|].
      now rewrite Ho in He.
  - pose proof (settles_None _ _ _ Hs) as Hne.
    destruct (IH (i + 1) st1 ltac:(lia) ltac:(lia)) as (j & c & st' & Hj & E' & X' & Hc).
    exists (S j), c, st'. split; [lia|]. split; [|split; [|exact Hc]].
    + cbn [attemptsFrom]. unfold bind. rewrite E. exact E'.
    + exact (extends_trans _ _ _ _ _ X X').
Qed.

(** X1: whatever the network does and whatever the state of the signal, one
    call of [fetchWithRetryAndTimeout] with a budget of at least one attempt
    makes [j + 1] fetch calls for some [j < MAX_RETRIES], separated by the
    delays [RETRY_DELAY * 2^0] to [RETRY_DELAY * 2^(j-1)]: never more than
    [MAX_RETRIES] calls, never a delay after the last call. *)
Theorem attempts_within_budget platform config url options st :
  1 <= MAX_RETRIES config ->
  exists (j : nat) c st',
    fetchWithRetryAndTimeout platform config url options st = (c, st') /\
    (j < Z.to_nat (MAX_RETRIES config))%nat /\
    schedule (trace st') =
      schedule (trace st) ++ backoffSchedule (RETRY_DELAY config) url options 0 j /\
    fetchCalls (trace st') = fetchCalls (trace st) ++ replicate (S j) (Fetch url options) /\
    delays (trace st') =
      delays (trace st) ++ ((fun i => RETRY_DELAY config * 2 ^ i) <$> seqZ 0 (Z.of_nat j)) /\
    last (schedule (trace st')) = Some (Fetch url options).
Proof.
  intros Hmax.
  destruct (attemptsFrom_any platform config url options (Z.to_nat (MAX_RETRIES config)) 0 st
              ltac:(lia) ltac:(lia)) as (j & c & st' & Hj & E & X & _).
  exists j, c, st'. split; [exact E|]. split; [exact Hj|].
  exact (extends_backoff _ _ _ _ _ _ X).
Qed.

Lemma attempts_within_budget_witness :
  exists (j : nat) c st',
    fetchWithRetryAndTimeout (scripted [Resolves (mkResponse 503 None (Normal VNull))])
      CONFIG (API_URL CONFIG) someRequest freshPage = (c, st') /\
    (j < 3)%nat /\
    length (fetchCalls (trace st')) = S j.
Proof.
  destruct (attempts_within_budget (scripted [Resolves (mkResponse 503 None (Normal VNull))])
              CONFIG (API_URL CONFIG) someRequest freshPage)
    as (j & c & st' & E & Hj & _ & Hf & _).
  - vm_compute. discriminate.
  - exists j, c, st'. split; [exact E|]. split; [exact Hj|].
    rewrite Hf. cbn [fetchCalls freshPage trace List.filter app]. apply length_replicate.
Defined.

(** X2: with a budget of at least one attempt, [fetchWithRetryAndTimeout]
    never returns [undefined]: it throws, or it returns a response whose
    status is in the 2xx range and whose content type includes
    [application/json]. *)
Theorem returned_response_is_json platform config url options st c st' :
  1 <= MAX_RETRIES config ->
  fetchWithRetryAndTimeout platform config url options st = (c, st') ->
  (exists e, c = Throw e) \/
  (exists r ct,
     c = Normal (Some r) /\ 200 <= status r <= 299 /\
     contentType r = Some ct /\ includes "application/json" ct = true).
Proof.
  intros Hmax E.
  destruct (attemptsFrom_any platform config url options (Z.to_nat (MAX_RETRIES config)) 0 st
              ltac:(lia) ltac:(lia)) as (j & c0 & st0 & _ & E0 & _ & Hc).
  unfold fetchWithRetryAndTimeout in E. rewrite E in E0. injection E0 as <- <-.
  destruct Hc as [He|(r & -> & Hr)]; [left; exact He|right].
  cbn [attemptError] in Hr. destruct (negb (ok r)) eqn:Hok; [discriminate|].
  destruct (contentType r) as [ct|] eqn:Hct; [|discriminate].
  destruct (includes "application/json" ct) eqn:Hin; [|discriminate].
  exists r, ct. split; [reflexivity|]. split; [|split; [exact Hct | exact Hin]].
  unfold ok in Hok. apply negb_false_iff in Hok. lia.
Qed.

Lemma returned_response_is_json_witness :
  exists r ct,
    fst (fetchWithRetryAndTimeout
           (scripted [Rejects (TypeError "Failed to fetch");
                      Resolves (jsonResponse (VNumber (Int 7)))])
           CONFIG (API_URL CONFIG) someRequest freshPage) = Normal (Some r) /\
    200 <= status r <= 299 /\
    contentType r = Some ct /\ includes "application/json" ct = true.
Proof.
  destruct (fetchWithRetryAndTimeout
              (scripted [Rejects (TypeError "Failed to fetch");
                         Resolves (jsonResponse (VNumber (Int 7)))])
              CONFIG (API_URL CONFIG) someRequest freshPage) as [c st'] eqn:E.
  assert (1 <= MAX_RETRIES CONFIG) as Hmax by (vm_compute; discriminate).
  destruct (returned_response_is_json _ _ _ _ _ _ _ Hmax E)
    as [[e He]|(r & ct & Hc & Hs & Hct & Hin)].
  - vm_compute in E. rewrite He in E. discriminate.
  - exists r, ct. cbn [fst]. repeat split; try assumption; apply Hs.
Defined.

(** X3: with a budget that is zero or negative the loop body never runs:
    [fetchWithRetryAndTimeout] returns [undefined] without a timer or a
    fetch call, and [makeRequest] then throws a [TypeError] on reading
    [json] of [undefined], so that the operation fails without any request. *)
Theorem empty_budget_no_request platform config m st :
  MAX_RETRIES config <= 0 ->
  (forall url options,
     fetchWithRetryAndTimeout platform config url options st = (Normal None, st)) /\
  exists st',
    makeRequest platform config m st =
      (Throw (TypeError "Cannot read properties of undefined (reading 'json')"), st') /\
    trace st' = trace st /\ samePage st st'.
Proof.
  intros Hmax.
  assert (forall url options s,
            fetchWithRetryAndTimeout platform config url options s = (Normal None, s)) as H.
  { intros url options s. unfold fetchWithRetryAndTimeout.
    replace (Z.to_nat (MAX_RETRIES config)) with 0%nat by lia. reflexivity. }
  split; [intros; apply H|].
  destruct (makeRequest_run platform config m st _ _ (H _ _ _)) as (st' & E & S).
  exists st'. split; [exact E|].
  destruct S as (Sd & _ & Sl & _ & _ & St).
  split; [exact St|]. split; [exact Sd | exact Sl].
Qed.

Lemma empty_budget_no_request_witness :
  exists st',
    makeRequest (scripted [Resolves (jsonResponse (VNumber (Int 42)))])
      (mkConfig (API_URL CONFIG) "visitor-count" 0 1000 15000 true) "POST" freshPage =
      (Throw (TypeError "Cannot read properties of undefined (reading 'json')"), st') /\
    trace st' = [].
Proof.
  destruct (empty_budget_no_request (scripted [Resolves (jsonResponse (VNumber (Int 42)))])
              (mkConfig (API_URL CONFIG) "visitor-count" 0 1000 15000 true) "POST" freshPage)
    as (_ & st' & E & Ht & _).
  - vm_compute. discriminate.
  - exists st'. split; [exact E | exact Ht].
Defined.

(** X4: a response that is fine after [j] attempts that failed with errors
    other than an abort is returned, after [j + 1] fetch calls and the [j]
    back-off delays [RETRY_DELAY * 2^0] to [RETRY_DELAY * 2^(j-1)]. *)
Theorem retry_until_response platform config url options st (j : nat) r :
  (j < Z.to_nat (MAX_RETRIES config))%nat ->
  aborted st = false ->
  (forall k, (k < j)%nat ->
     failsRetryably
       (network platform (length (fetchCalls (trace st)) + k) url options)) ->
  network platform (length (fetchCalls (trace st)) + j) url options = Resolves r ->
  attemptError (Resolves r) = None ->
  exists st',
    fetchWithRetryAndTimeout platform config url options st = (Normal (Some r), st') /\
    fetchCalls (trace st') = fetchCalls (trace st) ++ replicate (S j) (Fetch url options) /\
    delays (trace st') =
      delays (trace st) ++ ((fun i => RETRY_DELAY config * 2 ^ i) <$> seqZ 0 (Z.of_nat j)) /\
    last (schedule (trace st')) = Some (Fetch url options) /\
    aborted st' = false.
Proof.
  intros Hj Hab Hfail Hnet Hr.
  assert (forall retries remaining i s,
            (retries < remaining)%nat -> aborted s = false ->
            (forall k, (k < retries)%nat ->
               settles config (i + Z.of_nat k)
                 (network platform (length (fetchCalls (trace s)) + k) url options) = None) ->
            settles config (i + Z.of_nat retries)
              (network platform (length (fetchCalls (trace s)) + retries) url options) =
              Some (Normal (Some r)) ->
            aborted (snd (attemptsFrom platform config remaining i url options s)) = false)
    as Hstay.
  { induction retries as [|retries IH]; intros remaining i s Hlt Has Hgo Hstop.
    - destruct remaining as [|remaining]; [lia|].
      rewrite Z.add_0_r, Nat.add_0_r in Hstop.
      destruct (settles_response _ _ _ _ Hstop) as [Ho He].
      cbn [attemptsFrom]. unfold bind, attempt at 1, bind, tryCatch.
      rewrite debugLog_None_eq. unfold emit, fetch, withConsole.
      cbn [aborted trace document csrfMeta localStorage uuids console].
      rewrite Has, fetchCalls_app, length_app, Nat.add_0_r, Ho.
      rewrite Ho in He. cbn [attemptError] in He.
      destruct (negb (ok r)); [discriminate|].
      destruct (contentType r) as [ct|]; [|discriminate].
      destruct (includes "application/json" ct); [|discriminate]. reflexivity.
    - destruct remaining as [|remaining]; [lia|].
      pose proof (Hgo 0%nat ltac:(lia)) as H0. rewrite Z.add_0_r, Nat.add_0_r in H0.
      destruct (attempt_run platform config i url options s Has) as (s1 & E & X & Has1).
      cbn zeta in E, X, Has1. rewrite H0 in E, X. specialize (Has1 H0).
      pose proof (extends_fetchCalls _ _ _ X) as Hn. cbn [List.filter isFetch length] in Hn.
      cbn [attemptsFrom]. unfold bind. rewrite E.
      apply (IH remaining (i + 1) s1); [lia | exact Has1 | |].
      + intros k Hk. rewrite Hn.
        replace (i + 1 + Z.of_nat k) with (i + Z.of_nat (S k)) by lia.
        replace (length (fetchCalls (trace s)) + 1 + k)%nat
          with (length (fetchCalls (trace s)) + S k)%nat by lia.
        apply Hgo. lia.
      + rewrite Hn.
        replace (i + 1 + Z.of_nat retries) with (i + Z.of_nat (S retries)) by lia.
        replace (length (fetchCalls (trace s)) + 1 + retries)%nat
          with (length (fetchCalls (trace s)) + S retries)%nat by lia.
        exact Hstop. }
  assert (forall k, (k < j)%nat ->
            settles config (0 + Z.of_nat k)
              (network platform (length (fetchCalls (trace st)) + k) url options) = None) as Hgo.
  { intros k Hk. apply failsRetryably_goes_on; [apply Hfail; lia | lia]. }
  assert (settles config (0 + Z.of_nat j)
            (network platform (length (fetchCalls (trace st)) + j) url options) =
          Some (Normal (Some r))) as Hstop.
  { rewrite Hnet. unfold settles. now rewrite Hr. }
  destruct (attemptsFrom_run platform config url options j
              (Z.to_nat (MAX_RETRIES config)) 0 st _ Hj Hab Hgo Hstop) as (st' & E & X).
  exists st'. split; [exact E|].
  destruct (extends_backoff _ _ _ _ _ _ X) as (_ & Hf & Hd & Hl).
  split; [exact Hf|]. split; [exact Hd|]. split; [exact Hl|].
  pose proof (Hstay j _ 0 st Hj Hab Hgo Hstop) as Hfin.
  unfold fetchWithRetryAndTimeout in E. now rewrite E in Hfin.
Qed.

Lemma retry_until_response_witness :
  exists st',
    fetchWithRetryAndTimeout
      (scripted [Rejects (TypeError "Failed to fetch");
                 Resolves (mkResponse 502 None (Normal VNull));
                 Resolves (jsonResponse (VNumber (Int 7)))])
      CONFIG (API_URL CONFIG) someRequest freshPage =
      (Normal (Some (jsonResponse (VNumber (Int 7)))), st') /\
    length (fetchCalls (trace st')) = 3%nat /\
    delays (trace st') = [1000; 2000].
Proof.
  destruct (retry_until_response
    (scripted [Rejects (TypeError "Failed to fetch");
               Resolves (mkResponse 502 None (Normal VNull));
               Resolves (jsonResponse (VNumber (Int 7)))])
    CONFIG (API_URL CONFIG) someRequest freshPage 2 (jsonResponse (VNumber (Int 7))))
    as (st' & E & Hf & Hd & _).
  - vm_compute. lia.
  - reflexivity.
  - intros k Hk. destruct k as [|[|k]]; [| |exfalso; lia].
    all: eexists; split; [reflexivity | discriminate].
  - reflexivity.
  - reflexivity.
  - exists st'. split; [exact E|]. split.
    + rewrite Hf. reflexivity.
    + rewrite Hd. reflexivity.
Defined.

(** The loop reaches its last attempt in a state whose signal is not
    aborted, after the attempts that went on. *)
Lemma attemptsFrom_last platform config url options retries :
  forall remaining i st,
    (retries < remaining)%nat ->
    aborted st = false ->
    (forall k, (k < retries)%nat ->
       settles config (i + Z.of_nat k)
         (network platform (length (fetchCalls (trace st)) + k) url options) = None) ->
    settles config (i + Z.of_nat retries)
      (network platform (length (fetchCalls (trace st)) + retries) url options) <> None ->
    exists st1,
      aborted st1 = false /\
      length (fetchCalls (trace st1)) = (length (fetchCalls (trace st)) + retries)%nat /\
      attemptsFrom platform config remaining i url options st =
      (let (c, st') := attempt platform config (i + Z.of_nat retries) url options st1 in
       (c, st')).
Proof.
  induction retries as [|retries IH]; intros remaining i st Hlt Hab Hgo Hstop.
  - destruct remaining as [|remaining]; [lia|].
    exists st. split; [exact Hab|]. split; [lia|].
    rewrite Z.add_0_r, Nat.add_0_r in *.
    destruct (settles config i _) as [c|] eqn:Hs; [|contradiction].
    destruct (attempt_run platform config i url options st Hab) as (st' & E & _).
    cbn zeta in E. rewrite Hs in E. cbn [attemptsFrom]. unfold bind. rewrite E.
    destruct (settles_Some _ _ _ _ Hs) as [[r ->]|[e ->]]; reflexivity.
  - destruct remaining as [|remaining]; [lia|].
    pose proof (Hgo 0%nat ltac:(lia)) as H0. rewrite Z.add_0_r, Nat.add_0_r in H0.
    destruct (attempt_run platform config i url options st Hab) as (s1 & E & X & Hab1).
    cbn zeta in E, X, Hab1. rewrite H0 in E, X. specialize (Hab1 H0).
    pose proof (extends_fetchCalls _ _ _ X) as Hn. cbn [List.filter isFetch length] in Hn.
    destruct (IH remaining (i + 1) s1 ltac:(lia) Hab1) as (st1 & A1 & L1 & E1).
    + intros k Hk. rewrite Hn.
      replace (i + 1 + Z.of_nat k) with (i + Z.of_nat (S k)) by lia.
      replace (length (fetchCalls (trace st)) + 1 + k)%nat
        with (length (fetchCalls (trace st)) + S k)%nat by lia.
      apply Hgo. lia.
    + rewrite Hn.
      replace (i + 1 + Z.of_nat retries) with (i + Z.of_nat (S retries)) by lia.
      replace (length (fetchCalls (trace st)) + 1 + retries)%nat
        with (length (fetchCalls (trace st)) + S retries)%nat by lia.
      exact Hstop.
    + exists st1. split; [exact A1|]. split; [lia|].
      cbn [attemptsFrom]. unfold bind. rewrite E, E1.
      replace (i + 1 + Z.of_nat retries) with (i + Z.of_nat (S retries)) by lia.
      reflexivity.
Qed.

Lemma attempt_pending platform config i url options st :
  aborted st = false ->
  network platform (length (fetchCalls (trace st))) url options = Pending ->
  aborted (snd (attempt platform config i url options st)) = true.
Proof.
  destruct st as [doc csrf ls ab uu tr con]. cbn [aborted trace]. intros -> Hnet.
  unfold attempt, bind, tryCatch. rewrite debugLog_None_eq.
  unfold emit, fetch, withConsole.
  cbn [aborted trace document csrfMeta localStorage uuids console].
  rewrite fetchCalls_app, length_app, Nat.add_0_r, Hnet.
  rewrite debugLog_Error_eq. reflexivity.
Qed.

(** X5: a request that is still pending when the timer fires aborts the
    controller of the instance for good: when the operation has ended with
    [Request timed out], the signal is aborted in the state it leaves. *)
Theorem timeout_aborts_controller platform config url options st (j : nat) :
  (j < Z.to_nat (MAX_RETRIES config))%nat ->
  aborted st = false ->
  (forall k, (k < j)%nat ->
     failsRetryably
       (network platform (length (fetchCalls (trace st)) + k) url options)) ->
  network platform (length (fetchCalls (trace st)) + j) url options = Pending ->
  exists st',
    fetchWithRetryAndTimeout platform config url options st =
      (Throw (Error "Request timed out"), st') /\
    aborted st' = true.
Proof.
  intros Hj Hab Hfail Hnet.
  assert (timesOut (network platform (length (fetchCalls (trace st)) + j) url options)) as Hout.
  { rewrite Hnet. eexists; split; reflexivity. }
  destruct (attemptsFrom_run platform config url options j
              (Z.to_nat (MAX_RETRIES config)) 0 st (Throw (Error "Request timed out")) Hj Hab)
    as (st' & E & _).
  { intros k Hk. apply failsRetryably_goes_on; [apply Hfail; lia | lia]. }
  { now apply timesOut_stops. }
  exists st'. split; [exact E|].
  destruct (attemptsFrom_last platform config url options j
              (Z.to_nat (MAX_RETRIES config)) 0 st Hj Hab) as (st1 & A1 & L1 & E1).
  - intros k Hk. apply failsRetryably_goes_on; [apply Hfail; lia | lia].
  - rewrite (timesOut_stops _ _ _ Hout). discriminate.
  - rewrite <- L1 in Hnet.
    pose proof (attempt_pending platform config (0 + Z.of_nat j) url options st1 A1 Hnet) as Hp.
    unfold fetchWithRetryAndTimeout in E. rewrite E in E1.
    destruct (attempt platform config (0 + Z.of_nat j) url options st1) as [c s].
    injection E1 as _ ->. exact Hp.
Qed.

Lemma timeout_aborts_controller_witness :
  exists st',
    fetchWithRetryAndTimeout (scripted [Rejects (TypeError "Failed to fetch"); Pending])
      CONFIG (API_URL CONFIG) someRequest freshPage =
      (Throw (Error "Request timed out"), st') /\
    aborted st' = true.
Proof.
  apply (timeout_aborts_controller
           (scripted [Rejects (TypeError "Failed to fetch"); Pending])
           CONFIG (API_URL CONFIG) someRequest freshPage 1).
  - vm_compute. lia.
  - reflexivity.
  - intros k Hk. destruct k as [|k]; [|exfalso; lia].
    eexists; split; [reflexivity | discriminate].
  - reflexivity.
Defined.

(** A request on an aborted controller. *)
Lemma makeRequest_aborted platform config m st :
  1 <= MAX_RETRIES config ->
  aborted st = true ->
  exists st',
    makeRequest platform config m st = (Throw (Error "Request timed out"), st') /\
    schedule (trace st') =
      schedule (trace st) ++ [Fetch (API_URL config) (requestOptions platform m st)] /\
    aborted st' = true /\
    samePage st st'.
Proof.
  intros Hmax Hab.
  destruct (attempt_aborted platform config 0 (API_URL config)
              (requestOptions platform m st) (prepared config m st) Hab)
    as (st3 & E & X & Hab3).
  assert (fetchWithRetryAndTimeout platform config (API_URL config)
            (requestOptions platform m st) (prepared config m st) =
          (Throw (Error "Request timed out"), st3)) as Hloop.
  { unfold fetchWithRetryAndTimeout.
    destruct (Z.to_nat (MAX_RETRIES config)) as [|n] eqn:Hn; [lia|].
    cbn [attemptsFrom]. unfold bind. now rewrite E. }
  destruct (makeRequest_run _ _ _ _ _ _ Hloop) as (st' & Hm & S).
  exists st'. split; [exact Hm|].
  destruct S as (Sd & _ & Sl & Sa & _ & St).
  destruct X as (Xd & _ & Xl & _ & Xs).
  split; [rewrite St, Xs; reflexivity|]. split; [congruence|].
  split; cbn [prepared document localStorage] in *; congruence.
Qed.

(** X6: once the controller is aborted, by a timeout or by the unload
    handler, every later operation fails fast whatever the network would
    answer: [makeRequest] makes one fetch call, which the aborted signal
    rejects, takes no delay, throws [Request timed out] and leaves the
    signal aborted. *)
Theorem aborted_controller_fails_fast platform config m st :
  1 <= MAX_RETRIES config ->
  aborted st = true ->
  exists st',
    makeRequest platform config m st = (Throw (Error "Request timed out"), st') /\
    schedule (trace st') =
      schedule (trace st) ++ [Fetch (API_URL config) (requestOptions platform m st)] /\
    aborted st' = true /\
    samePage st st'.
Proof. apply makeRequest_aborted. Qed.

Lemma aborted_controller_fails_fast_witness :
  exists st1 st2,
    makeRequest (scripted [Pending; Resolves (jsonResponse (VNumber (Int 42)))])
      CONFIG "POST" freshPage = (Throw (Error "Request timed out"), st1) /\
    makeRequest (scripted [Pending; Resolves (jsonResponse (VNumber (Int 42)))])
      CONFIG "GET" st1 = (Throw (Error "Request timed out"), st2) /\
    length (fetchCalls (trace st2)) = 2%nat.
Proof.
  destruct (makeRequest (scripted [Pending; Resolves (jsonResponse (VNumber (Int 42)))])
              CONFIG "POST" freshPage) as [c1 st1] eqn:E1.
  destruct (aborted_controller_fails_fast
              (scripted [Pending; Resolves (jsonResponse (VNumber (Int 42)))])
              CONFIG "GET" st1) as (st2 & E2 & Hs & _).
  - vm_compute. discriminate.
  - vm_compute in E1. injection E1 as _ <-. reflexivity.
  - exists st1, st2. split; [|split; [exact E2|]].
    + vm_compute in E1. injection E1 as <- _. reflexivity.
    + rewrite (fetchCalls_schedule (trace st2)), Hs.
      vm_compute in E1. injection E1 as _ <-. reflexivity.
Defined.

(** *** Timers *)

Lemma timersSettled_app a : forall p b,
  timersSettled p a = true -> timersSettled false b = true ->
  timersSettled p (a ++ b) = true.
Proof.
  induction a as [|ev a IH]; intros p b Ha Hb.
  - destruct p; [discriminate | exact Hb].
  - destruct ev; cbn [app timersSettled] in *.
    + apply andb_true_iff in Ha as [-> Ha]. now rewrite (IH _ _ Ha Hb).
    + now apply IH.
    + apply andb_true_iff in Ha as [-> Ha]. now rewrite (IH _ _ Ha Hb).
    + apply andb_true_iff in Ha as [-> Ha]. now rewrite (IH _ _ Ha Hb).
Qed.

Lemma timersKept_refl st : timersKept st st.
Proof. exists []. split; [now rewrite app_nil_r | reflexivity]. Qed.

Lemma timersKept_trans a b c : timersKept a b -> timersKept b c -> timersKept a c.
Proof.
  intros (e1 & H1 & T1) (e2 & H2 & T2). exists (e1 ++ e2). split.
  - now rewrite H2, H1, app_assoc.
  - now apply timersSettled_app.
Qed.

Lemma sameButConsole_timersKept st st' : sameButConsole st st' -> timersKept st st'.
Proof.
  intros (_ & _ & _ & _ & _ & H). exists []. split; [now rewrite app_nil_r | reflexivity].
Qed.

Lemma attempt_timersKept platform config i url options :
  keeps timersKept (attempt platform config i url options).
Proof.
  intros st. destruct st as [doc csrf ls ab uu tr con].
  unfold attempt, bind, tryCatch. rewrite debugLog_None_eq.
  unfold emit, fetch, withConsole, timersKept.
  cbn [aborted trace document csrfMeta localStorage uuids console].
  assert (forall evs, timersSettled false (SetTimeout (TIMEOUT config) :: Fetch url options :: evs)
                      = timersSettled true evs) as Hhead by reflexivity.
  destruct ab;
    [|destruct (network platform _ url options) as [r|e|];
      [destruct (negb (ok r)); [|destruct (contentType r) as [ct|];
         [destruct (includes "application/json" ct)|]]| |]];
    cbn [throw ret negb Error name AbortError String.eqb Ascii.eqb Bool.eqb];
    rewrite ?debugLog_Error_eq, ?debugLog_None_eq; unfold withConsole;
    cbn [aborted trace document csrfMeta localStorage uuids console];
    try (destruct (String.eqb (name e) "AbortError"));
    try (destruct (i =? MAX_RETRIES config - 1));
    rewrite ?debugLog_None_eq; unfold withConsole, throw, ret;
    cbn [aborted trace document csrfMeta localStorage uuids console snd];
    (eexists; split; [rewrite <- ?app_assoc; cbn [app]; reflexivity | reflexivity]).
Qed.

Lemma attemptsFrom_timersKept platform config url options remaining :
  forall i, keeps timersKept (attemptsFrom platform config remaining i url options).
Proof.
  induction remaining as [|remaining IH]; intros i; cbn [attemptsFrom].
  - frame_step timersKept_refl timersKept_trans.
  - frame_step timersKept_refl timersKept_trans.
    + apply attempt_timersKept.
    + destruct a; [|apply IH]. frame_step timersKept_refl timersKept_trans.
Qed.

Lemma makeRequest_timersKept platform config m : keeps timersKept (makeRequest platform config m).
Proof.
  intros st.
  destruct (fetchWithRetryAndTimeout platform config (API_URL config)
              (requestOptions platform m st) (prepared config m st)) as [c st3] eqn:E.
  destruct (makeRequest_run _ _ _ _ _ _ E) as (st' & -> & S). cbn [snd].
  eapply timersKept_trans; [|apply sameButConsole_timersKept, S].
  eapply timersKept_trans with (b := prepared config m st).
  - exists []. split; [cbn; now rewrite app_nil_r | reflexivity].
  - pose proof (attemptsFrom_timersKept platform config (API_URL config)
                  (requestOptions platform m st) (Z.to_nat (MAX_RETRIES config)) 0
                  (prepared config m st)) as H.
    unfold fetchWithRetryAndTimeout in E. rewrite E in H. exact H.
Qed.

(** X7: whatever the network does, the timers of [fetchWithRetryAndTimeout]
    stay in order: the stretch of trace it adds sets no timer while another
    is pending, makes every fetch call under a pending timer, starts no
    back-off delay before the timer is cleared, and ends with no timer
    pending, whether it returns or throws. *)
Theorem timers_always_cleared platform config url options st :
  exists evs,
    trace (snd (fetchWithRetryAndTimeout platform config url options st)) = trace st ++ evs /\
    timersSettled false evs = true.
Proof.
  exact (attemptsFrom_timersKept platform config url options
           (Z.to_nat (MAX_RETRIES config)) 0 st).
Qed.

(** *** The total back-off *)

Lemma totalDelay_backoff base (n : nat) : forall i,
  0 <= i ->
  totalDelay ((fun k => base * 2 ^ k) <$> seqZ i (Z.of_nat n)) =
  base * 2 ^ i * (2 ^ Z.of_nat n - 1).
Proof.
  induction n as [|n IH]; intros i Hi.
  - rewrite seqZ_nil by lia. cbn [fmap list_fmap totalDelay fold_right Z.of_nat].
    rewrite Z.pow_0_r. ring.
  - rewrite (seqZ_cons i) by lia. rewrite fmap_cons. cbn [totalDelay fold_right].
    replace (Z.pred (Z.of_nat (S n))) with (Z.of_nat n) by lia.
    change (fold_right Z.add 0 ((fun k => base * 2 ^ k) <$> seqZ (Z.succ i) (Z.of_nat n)))
      with (totalDelay ((fun k => base * 2 ^ k) <$> seqZ (Z.succ i) (Z.of_nat n))).
    rewrite IH by lia.
    replace (Z.of_nat (S n)) with (Z.succ (Z.of_nat n)) by lia.
    rewrite !Z.pow_succ_r by lia. ring.
Qed.

(** X8: with a budget of at least one attempt and a base delay that is not
    negative, one call of [fetchWithRetryAndTimeout] waits in back-off
    delays, all told, at most [RETRY_DELAY * (2^(MAX_RETRIES - 1) - 1)]
    milliseconds, whatever the network does. *)
Theorem total_backoff_bounded platform config url options st :
  1 <= MAX_RETRIES config ->
  0 <= RETRY_DELAY config ->
  exists added,
    delays (trace (snd (fetchWithRetryAndTimeout platform config url options st))) =
      delays (trace st) ++ added /\
    Z.of_nat (length added) <= MAX_RETRIES config - 1 /\
    totalDelay added <= RETRY_DELAY config * (2 ^ (MAX_RETRIES config - 1) - 1).
Proof.
  intros Hmax Hdelay.
  destruct (attemptsFrom_any platform config url options (Z.to_nat (MAX_RETRIES config)) 0 st
              ltac:(lia) ltac:(lia)) as (j & c & st' & Hj & E & X & _).
  unfold fetchWithRetryAndTimeout. rewrite E. cbn [snd].
  destruct (extends_backoff _ _ _ _ _ _ X) as (_ & _ & Hd & _).
  eexists. split; [exact Hd|]. split.
  - rewrite length_fmap, length_seqZ. lia.
  - rewrite totalDelay_backoff by lia. rewrite Z.pow_0_r, Z.mul_1_r.
    apply Z.mul_le_mono_nonneg_l; [exact Hdelay|].
    assert (2 ^ Z.of_nat j <= 2 ^ (MAX_RETRIES config - 1)); [|lia].
    apply Z.pow_le_mono_r; lia.
Qed.

Lemma total_backoff_bounded_witness :
  exists added,
    delays (trace (snd (fetchWithRetryAndTimeout
                          (scripted [Rejects (TypeError "Failed to fetch")])
                          CONFIG (API_URL CONFIG) someRequest freshPage))) = added /\
    totalDelay added <= 3000.
Proof.
  destruct (total_backoff_bounded (scripted [Rejects (TypeError "Failed to fetch")])
              CONFIG (API_URL CONFIG) someRequest freshPage)
    as (added & Hd & _ & Ht).
  - vm_compute. discriminate.
  - vm_compute. discriminate.
  - exists added. split; [rewrite Hd; reflexivity | exact Ht].
Defined.

(** *** The requests of one operation *)

Lemma fetchMethods_schedule tr : fetchMethods tr = fetchMethods (schedule tr).
Proof.
  induction tr as [|ev tr IH]; [reflexivity|].
  unfold schedule in *. destruct ev; cbn [fetchMethods List.filter isScheduled]; now rewrite IH.
Qed.

Lemma fetchMethods_backoff base url options retries :
  forall i,
    fetchMethods (backoffSchedule base url options i retries) =
    replicate (S retries) (method options).
Proof.
  induction retries as [|retries IH]; intros i; [reflexivity|].
  cbn [backoffSchedule fetchMethods]. now rewrite IH.
Qed.

Lemma fetchWithRetryAndTimeout_no_budget platform config url options st :
  MAX_RETRIES config <= 0 ->
  fetchWithRetryAndTimeout platform config url options st = (Normal None, st).
Proof.
  intros H. unfold fetchWithRetryAndTimeout.
  replace (Z.to_nat (MAX_RETRIES config)) with 0%nat by lia. reflexivity.
Qed.

(** [makeRequest] against any network: the calls it makes all carry the
    options it built, and there are no more of them than the budget. *)
Lemma makeRequest_any platform config m st :
  exists (n : nat) c st',
    makeRequest platform config m st = (finish config c, st') /\
    (n <= Z.to_nat (MAX_RETRIES config))%nat /\
    fetchCalls (trace st') =
      fetchCalls (trace st) ++
      replicate n (Fetch (API_URL config) (requestOptions platform m st)) /\
    samePage st st' /\
    uuids st' = S (uuids st) /\ csrfMeta st' = csrfMeta st /\
    ((exists e, c = Throw e) \/ c = Normal None \/
     (exists r, c = Normal (Some r) /\ attemptError (Resolves r) = None /\ (0 < n)%nat)).
Proof.
  destruct (Z_le_gt_dec (MAX_RETRIES config) 0) as [Hmax|Hmax].
  - pose proof (fetchWithRetryAndTimeout_no_budget platform config (API_URL config)
                  (requestOptions platform m st) (prepared config m st) Hmax) as Hloop.
    destruct (makeRequest_run _ _ _ _ _ _ Hloop) as (st' & E & Hsame).
    exists 0%nat, (Normal None), st'. split; [exact E|]. split; [lia|].
    destruct Hsame as (Sd & Sc & Sl & _ & Su & St).
    split; [rewrite St; cbn; now rewrite app_nil_r|].
    split; [split; [exact Sd | exact Sl]|]. split; [exact Su|]. split; [exact Sc|]. tauto.
  - destruct (attemptsFrom_any platform config (API_URL config)
                (requestOptions platform m st) (Z.to_nat (MAX_RETRIES config)) 0
                (prepared config m st) ltac:(lia) ltac:(lia))
      as (j & c & st3 & Hj & Hloop & X & Hc).
    destruct (makeRequest_run _ _ _ _ _ _ Hloop) as (st' & E & Hsame).
    exists (S j), c, st'. split; [exact E|]. split; [lia|].
    destruct Hsame as (Sd & Sc & Sl & _ & Su & St).
    destruct (extends_backoff _ _ _ _ _ _ X) as (_ & Hf & _).
    destruct X as (Xd & Xc & Xl & Xu & _).
    split; [rewrite St; exact Hf|].
    split; [split; cbn [prepared document localStorage] in *; congruence|].
    split; [cbn [prepared uuids] in *; congruence|].
    split; [cbn [prepared csrfMeta] in *; congruence|].
    destruct Hc as [He|(r & -> & Hr)]; [left; exact He|].
    right. right. exists r. split; [reflexivity|]. split; [exact Hr | lia].
Qed.

(** X9: whatever the network does, all fetch calls of one [makeRequest] go
    to [API_URL] with one and the same options: the method asked for,
    [same-origin] credentials, [cors] mode and one correlation identifier,
    drawn once for the operation and shared by its retries.  [Content-Type]
    is sent by a [POST] only, and [X-CSRF-Token] by a [POST] on a page whose
    csrf meta has a non-empty content.  There are at most [MAX_RETRIES]
    calls. *)
Theorem request_options_shared platform config m st :
  exists (n : nat) options,
    fetchCalls (trace (snd (makeRequest platform config m st))) =
      fetchCalls (trace st) ++ replicate n (Fetch (API_URL config) options) /\
    (n <= Z.to_nat (MAX_RETRIES config))%nat /\
    uuids (snd (makeRequest platform config m st)) = S (uuids st) /\
    method options = m /\ credentials options = "same-origin" /\ mode options = "cors" /\
    lookupHeader "Accept" (headers options) = Some "application/json" /\
    lookupHeader "Cache-Control" (headers options) = Some "no-cache" /\
    lookupHeader "X-Correlation-ID" (headers options) = Some (randomUUID platform (uuids st)) /\
    lookupHeader "Content-Type" (headers options) =
      (if String.eqb m "POST" then Some "application/json" else None) /\
    lookupHeader "X-CSRF-Token" (headers options) =
      (if String.eqb m "POST" then
         match csrfMeta st with
         | Some "" | None => None
         | Some token => Some token
         end
       else None).
Proof.
  destruct (makeRequest_any platform config m st) as (n & c & st' & E & Hn & Hf & _ & Hu & _).
  exists n, (requestOptions platform m st). rewrite E. cbn [snd].
  split; [exact Hf|]. split; [exact Hn|]. split; [exact Hu|].
  unfold requestOptions. cbn [method credentials mode headers].
  destruct (String.eqb m "POST"); [|repeat split].
  destruct (csrfMeta st) as [[|a token]|]; repeat split.
Qed.



(** X11: a count that [makeRequest] returns is a number that passed the
    validation, it came with a response (at least one fetch call was made),
    and the document and the storage are as they were. *)
Theorem returned_count_is_valid platform config m st count st' :
  makeRequest platform config m st = (Normal count, st') ->
  exists x parsed,
    count = VNumber x /\
    parseInt10 (VNumber x) = Normal parsed /\
    Number.isNaN parsed = false /\
    Number.ge parsed (Int 0) = true /\
    Number.le parsed (Int Number.MAX_SAFE_INTEGER) = true /\
    (length (fetchCalls (trace st)) < length (fetchCalls (trace st')))%nat /\
    samePage st st'.
Proof.
  intros E.
  destruct (makeRequest_any platform config m st) as (n & c & st0 & E0 & _ & Hf & Hp & _ & _ & Hc).
  rewrite E in E0. injection E0 as Hfin <-.
  pose proof (finish_valid config c count (eq_sym Hfin)) as Hv.
  destruct (isValidVisitorCount_number _ Hv) as [x ->].
  unfold isValidVisitorCount in Hv. cbn [typeof String.eqb Ascii.eqb Bool.eqb negb] in Hv.
  destruct (parseInt10 (VNumber x)) as [parsed|] eqn:Hparse; [|discriminate].
  injection Hv as Hv. apply andb_true_iff in Hv as [Hv Hle].
  apply andb_true_iff in Hv as [Hnan Hge]. apply negb_true_iff in Hnan.
  exists x, parsed. repeat split; try assumption; try apply Hp.
  destruct Hc as [[e ->]|[->|(r & -> & _ & Hn)]]; try discriminate.
  rewrite Hf, length_app, length_replicate. lia.
Qed.

Lemma returned_count_is_valid_witness :
  exists x parsed,
    fst (makeRequest (scripted [Resolves (jsonResponse (VNumber (Frac false 15 1)))])
           CONFIG "GET" freshPage) = Normal (VNumber x) /\
    parseInt10 (VNumber x) = Normal parsed /\
    Number.le parsed (Int Number.MAX_SAFE_INTEGER) = true.
Proof.
  destruct (makeRequest (scripted [Resolves (jsonResponse (VNumber (Frac false 15 1)))])
              CONFIG "GET" freshPage) as [c st'] eqn:E.
  assert (c = Normal (VNumber (Frac false 15 1))) as ->.
  { vm_compute in E. now injection E as <- _. }
  destruct (returned_count_is_valid _ _ _ _ _ _ E) as (x & parsed & Hx & Hp & _ & _ & Hle & _).
  exists x, parsed. cbn [fst]. split; [now rewrite Hx|]. split; [exact Hp | exact Hle].
Defined.

(** *** Validation and rendering *)

Lemma append_nil_r (s : string) : s +:+ "" = s.
Proof.
  induction s as [|c s IH]; [reflexivity|].
  change (String c (s +:+ "") = String c s). now rewrite IH.
Qed.

Lemma parseInt10_negative_digits s :
  s <> "" -> digitPrefix s = s ->
  parseInt10 (VString (String "-" s)) =
  Normal (if digitsValue 0 s =? 0 then NegZero else Number.ofInteger (- digitsValue 0 s)).
Proof.
  intros Hs Hd. unfold parseInt10. cbn [ToString].
  change (trimStart (String "-" s)) with (String "-" s). cbv iota beta. rewrite Hd.
  destruct s as [|c r]; [contradiction|].
  destruct (digitsValue 0 (String c r) =? 0); reflexivity.
Qed.

(** X12: [isValidVisitorCount] never throws; it rejects every value that is
    not a number; and on the integers from [-2^53] to [2^53] it accepts
    exactly those from [0] to [MAX_SAFE_INTEGER]. *)
Theorem validation_characterised :
  (forall count, exists b, isValidVisitorCount count = Normal b) /\
  (forall count, typeof count <> "number" -> isValidVisitorCount count = Normal false) /\
  (forall z,
     - 2 ^ 53 <= z <= 2 ^ 53 ->
     isValidVisitorCount (VNumber (Int z)) =
     Normal (bool_decide (0 <= z <= Number.MAX_SAFE_INTEGER))).
Proof.
  split; [|split].
  - intros count. unfold isValidVisitorCount.
    destruct count; cbn [typeof String.eqb Ascii.eqb Bool.eqb negb]; eauto.
    assert (exists parsed, parseInt10 (VNumber x) = Normal parsed) as [parsed ->]; [|eauto].
    unfold parseInt10. cbn [ToString]. cbv zeta.
    destruct (digitPrefix _); [eauto|].
    destruct (digitsValue 0 _ =? 0); eauto.
  - intros count Ht. destruct count; try reflexivity. now contradiction Ht.
  - intros z Hz. unfold Number.MAX_SAFE_INTEGER.
    destruct (Z_lt_ge_dec z 0) as [Hneg|Hpos].
    + rewrite bool_decide_eq_false_2 by lia.
      assert (Number.toString (Int z) = String "-" (Number.decimalDigits (- z))) as Hs.
      { unfold Number.toString, Number.shortestInteger.
        replace (Z.abs z) with (- z) by lia.
        destruct (z <? 0) eqn:E1; [|lia].
        destruct (- z <=? 2 ^ 53) eqn:E2; [|lia].
        destruct (- z <? 10 ^ 21) eqn:E3; [reflexivity | lia]. }
      destruct (decimalDigits_facts (- z) ltac:(lia)) as (Hne & Hpre & Hval).
      unfold isValidVisitorCount. cbn [typeof String.eqb Ascii.eqb Bool.eqb negb].
      change (parseInt10 (VNumber (Int z)))
        with (parseInt10 (VString (Number.toString (Int z)))).
      rewrite Hs, (parseInt10_negative_digits _ Hne Hpre), Hval.
      destruct (- z =? 0) eqn:E0; [lia|].
      unfold Number.ofInteger, Number.nearestDouble.
      replace (Z.abs (- - z)) with (- z) by lia.
      destruct (- z <=? 2 ^ 53) eqn:E2; [|lia].
      replace (Z.sgn (- - z) * - z) with z by (rewrite Z.opp_involutive, Z.sgn_neg; lia).
      unfold Number.ge, Number.le. cbn [Number.isNaN negb Number.toFraction andb].
      destruct (0 * 1 <=? z * 1) eqn:E4; [lia | reflexivity].
    + destruct (Z_le_gt_dec z (2 ^ 53 - 1)) as [Hsafe|Hbig].
      * rewrite bool_decide_eq_true_2 by lia.
        apply isValidVisitorCount_safe. unfold Number.MAX_SAFE_INTEGER. lia.
      * rewrite bool_decide_eq_false_2 by lia.
        assert (z = 2 ^ 53) as -> by lia. vm_compute. reflexivity.
Qed.

Lemma allDigits_removeNonDigits s : allDigits (removeNonDigits s) = true.
Proof.
  induction s as [|c s IH]; [reflexivity|]. cbn [removeNonDigits].
  destruct (isDigit c) eqn:E; [|exact IH]. cbn [allDigits]. now rewrite E, IH.
Qed.

Lemma removeNonDigits_digits s : digitPrefix s = s -> removeNonDigits s = s.
Proof.
  induction s as [|c s IH]; [reflexivity|]. cbn [digitPrefix removeNonDigits].
  destruct (isDigit c); [|discriminate]. intros [= H]. now rewrite IH.
Qed.

Lemma textContent_countRender s el : DOM.textContent (countRender (Some s) el) = s.
Proof.
  unfold DOM.textContent, countRender, DOM.setAttribute, DOM.setTextContent, DOM.toNode.
  cbn [fst snd default]. destruct s as [|c s]; [reflexivity|].
  cbn [DOM.textOfNode]. apply append_nil_r.
Qed.

(** X13: whatever value [updateDOM] is given, when its [toString] returns,
    what is stored under [visitorCount] is that text without its characters
    other than digits, so a string of digits only; the value element, when
    the page has one, shows that stored string and is labelled with it, and
    no request is made. *)
Theorem stored_count_is_digits config count text st :
  toStringMethod count = Normal text ->
  let st' := snd (updateDOM config count st) in
  fst (updateDOM config count st) = Normal tt /\
  localStorage st' = <["visitorCount" := removeNonDigits text]> (localStorage st) /\
  allDigits (removeNonDigits text) = true /\
  trace st' = trace st /\
  (forall el,
     DOM.getElementById "count-value" (document st) = Some el ->
     exists el',
       DOM.getElementById "count-value" (document st') = Some el' /\
       DOM.textContent el' = removeNonDigits text /\
       DOM.getAttribute "aria-label" el' =
         Some ("Visitor count: " +:+ removeNonDigits text)).
Proof.
  intros Ht. cbn zeta.
  destruct (updateDOM_run config count text st Ht) as [con ->]. cbn [fst snd].
  split; [reflexivity|]. split; [reflexivity|].
  split; [apply allDigits_removeNonDigits|]. split; [reflexivity|].
  intros el F. exists (countRender (Some (removeNonDigits text)) el). cbn [document].
  split; [now apply getElementById_update|]. split; [apply textContent_countRender|].
  unfold DOM.getAttribute, countRender, DOM.setAttribute. cbn [fst default].
  apply lookup_insert_eq.
Qed.

Lemma stored_count_is_digits_witness :
  localStorage (snd (updateDOM CONFIG (VString "<b>12</b>3") freshPage)) =
    <["visitorCount" := "123"]> ∅.
Proof.
  destruct (stored_count_is_digits CONFIG (VString "<b>12</b>3") "<b>12</b>3" freshPage
              eq_refl) as (_ & H & _).
  exact H.
Defined.

(** X14: for a count that is an integer from [0] to [MAX_SAFE_INTEGER],
    what [updateDOM] stores is the decimal writing of the count, and
    [parseInt] reads the count back from it. *)
Theorem stored_count_reads_back config z st :
  0 <= z <= Number.MAX_SAFE_INTEGER ->
  let st' := snd (updateDOM config (VNumber (Int z)) st) in
  exists stored,
    localStorage st' !! "visitorCount" = Some stored /\
    stored = Number.decimalDigits z /\
    digitsValue 0 stored = z /\
    parseInt10 (VString stored) = Normal (Int z).
Proof.
  intros Hz. cbn zeta. pose proof Hz as [H0 Hmax]. unfold Number.MAX_SAFE_INTEGER in Hmax.
  assert (Number.toString (Int z) = Number.decimalDigits z) as Hs.
  { unfold Number.toString, Number.shortestInteger.
    rewrite Z.abs_eq by lia.
    destruct (z <? 0) eqn:E1; [lia|].
    destruct (z <=? 2 ^ 53) eqn:E2; [|lia].
    destruct (z <? 10 ^ 21) eqn:E3; [reflexivity | lia]. }
  destruct (decimalDigits_facts z H0) as (Hne & Hpre & Hval).
  destruct (updateDOM_run config (VNumber (Int z)) (Number.toString (Int z)) st eq_refl)
    as [con ->].
  cbn [snd localStorage]. rewrite Hs, (removeNonDigits_digits _ Hpre).
  exists (Number.decimalDigits z). split; [apply lookup_insert_eq|]. split; [reflexivity|].
  split; [exact Hval|].
  rewrite (parseInt10_digits _ Hne Hpre), Hval.
  destruct (z =? 0) eqn:E0; [f_equal; f_equal; lia|].
  unfold Number.ofInteger, Number.nearestDouble. rewrite Z.abs_eq by lia.
  destruct (z <=? 2 ^ 53) eqn:E2; [|lia].
  do 2 f_equal. rewrite Z.sgn_pos; lia.
Qed.

Lemma stored_count_reads_back_witness :
  exists stored,
    localStorage (snd (updateDOM CONFIG (VNumber (Int 9007199254740991)) freshPage))
      !! "visitorCount" = Some stored /\
    parseInt10 (VString stored) = Normal (Int 9007199254740991).
Proof.
  destruct (stored_count_reads_back CONFIG 9007199254740991 freshPage)
    as (stored & H & _ & _ & Hp).
  - vm_compute. split; discriminate.
  - exists stored. split; [exact H | exact Hp].
Defined.

(** X15: the edges of [updateDOM].  On a page without the value element it
    completes, stores the count and leaves the document as it is.  Given
    [undefined] or [null] it throws a [TypeError] before anything is stored
    or shown. *)
Theorem updateDOM_edges config st :
  (forall count text,
     toStringMethod count = Normal text ->
     DOM.getElementById "count-value" (document st) = None ->
     fst (updateDOM config count st) = Normal tt /\
     document (snd (updateDOM config count st)) = document st /\
     localStorage (snd (updateDOM config count st)) !! "visitorCount" =
       Some (removeNonDigits text)) /\
  (forall count,
     count = VUndefined \/ count = VNull ->
     exists msg, updateDOM config count st = (Throw (TypeError msg), st)).
Proof.
  split.
  - intros count text Ht F. destruct (updateDOM_run config count text st Ht) as [con ->].
    cbn [fst snd document localStorage]. split; [reflexivity|].
    split; [apply (updateElementById_missing _ _ _ F) | apply lookup_insert_eq].
  - intros count [-> | ->]; eexists; apply updateDOM_throws; reflexivity.
Qed.

Lemma updateDOM_edges_witness :
  localStorage (snd (updateDOM CONFIG (VNumber (Int 42)) freshPage)) !! "visitorCount" =
    Some "42" /\
  document (snd (updateDOM CONFIG (VNumber (Int 42)) freshPage)) = document freshPage.
Proof.
  destruct (updateDOM_edges CONFIG freshPage) as [H _].
  destruct (H (VNumber (Int 42)) "42" eq_refl eq_refl) as (_ & Hd & Hl).
  split; [exact Hl | exact Hd].
Defined.

(** *** The error rendering *)

Lemma errorRender_idempotent el : errorRender (errorRender el) = errorRender el.
Proof.
  destruct el as [[i cl attrs] kids].
  unfold errorRender, DOM.setAttribute, DOM.classListAdd, DOM.setTextContent.
  cbn [fst snd id classList attributes].
  rewrite insert_insert_eq. f_equal. f_equal.
  destruct (bool_decide ("counter-error" ∈ cl)) eqn:E.
  - now rewrite E.
  - rewrite bool_decide_eq_true_2; [reflexivity|].
    apply elem_of_app. right. now apply list_elem_of_singleton.
Qed.

(** X16: [handleError] completes whatever the page, touches neither the
    storage nor the requests, and is idempotent on the document: a second
    call, as [initialize] makes after a failed operation, leaves the
    document as the first call left it.  On a page without the container it
    changes nothing in the document. *)
Theorem handleError_idempotent config msg1 e1 msg2 e2 st :
  let once := snd (handleError config msg1 (Some (LogError e1)) st) in
  let twice := snd (handleError config msg2 (Some (LogError e2)) once) in
  fst (handleError config msg1 (Some (LogError e1)) st) = Normal tt /\
  document twice = document once /\
  localStorage once = localStorage st /\
  trace once = trace st /\
  aborted once = aborted st /\
  (DOM.getElementById (ELEMENT_ID config) (document st) = None ->
   document once = document st).
Proof.
  cbn zeta. rewrite !handleError_run. cbn [fst snd withDocument withConsole document
    localStorage trace aborted].
  split; [reflexivity|]. split; [|repeat split].
  - apply updateElementById_idempotent; intros; [reflexivity | apply errorRender_idempotent].
  - intros F. apply (updateElementById_missing _ _ _ F).
Qed.

(** *** The page load against any network *)

Lemma fetchMethods_fetchCalls tr : fetchMethods tr = fetchMethods (fetchCalls tr).
Proof.
  induction tr as [|ev tr IH]; [reflexivity|].
  unfold fetchCalls in *. destruct ev; cbn [fetchMethods List.filter isFetch]; now rewrite IH.
Qed.

Lemma fetchMethods_replicate n url options :
  fetchMethods (replicate n (Fetch url options)) = replicate n (method options).
Proof. induction n as [|n IH]; [reflexivity|]. cbn. now rewrite IH. Qed.

(** The requests of one [makeRequest], by method. *)
Lemma makeRequest_methods platform config m st :
  exists n : nat,
    (n <= Z.to_nat (MAX_RETRIES config))%nat /\
    fetchMethods (trace (snd (makeRequest platform config m st))) =
      fetchMethods (trace st) ++ replicate n m.
Proof.
  destruct (makeRequest_any platform config m st) as (n & c & st' & E & Hn & Hf & _).
  exists n. split; [exact Hn|]. rewrite E. cbn [snd].
  rewrite (fetchMethods_fetchCalls (trace st')), Hf, fetchMethods_app.
  now rewrite <- fetchMethods_fetchCalls, fetchMethods_replicate.
Qed.

Lemma makeRequest_methods_returned platform config m st count :
  fst (makeRequest platform config m st) = Normal count ->
  exists n : nat,
    (0 < n <= Z.to_nat (MAX_RETRIES config))%nat /\
    fetchMethods (trace (snd (makeRequest platform config m st))) =
      fetchMethods (trace st) ++ replicate n m.
Proof.
  destruct (makeRequest_any platform config m st)
    as (n & c & st' & E & Hn & Hf & _ & _ & _ & Hc).
  rewrite E. cbn [fst snd]. intros Hfin.
  exists n. split.
  - destruct Hc as [[e ->]|[->|(r & -> & _ & Hpos)]]; try discriminate. lia.
  - rewrite (fetchMethods_fetchCalls (trace st')), Hf, fetchMethods_app.
    now rewrite <- fetchMethods_fetchCalls, fetchMethods_replicate.
Qed.

(** The stages of [initialize]: it completes, and its trace is the trace it
    started with, or the trace of a failed [POST] operation, or the trace of
    a [GET] operation that followed a [POST] operation that returned. *)
Lemma initialize_stages platform config st :
  exists st',
    initialize platform config st = (Normal tt, st') /\
    (trace st' = trace st \/
     (exists s0,
        trace s0 = trace st /\
        trace st' = trace (snd (makeRequest platform config "POST" s0))) \/
     (exists s0 s1,
        trace s0 = trace st /\
        trace s1 = trace (snd (makeRequest platform config "POST" s0)) /\
        (exists count, fst (makeRequest platform config "POST" s0) = Normal count) /\
        trace st' = trace (snd (makeRequest platform config "GET" s1)))).
Proof.
  destruct (isValidUrl platform (API_URL config)) eqn:Hurl.
  2: { eexists. split; [|left].
       - unfold initialize, bind at 1. rewrite debugLog_None_eq.
         unfold tryCatch, bind at 1. rewrite Hurl. cbn [negb throw].
         rewrite handleError_run. reflexivity.
       - reflexivity. }
  destruct (DOM.getElementById (ELEMENT_ID config) (document st)) as [el|] eqn:F.
  2: { eexists. split; [|left].
       - unfold initialize, bind at 1. rewrite debugLog_None_eq.
         unfold tryCatch, bind at 1. rewrite Hurl. cbn [negb ret].
         unfold bind at 1. cbn [withConsole document]. rewrite F.
         rewrite handleError_run. reflexivity.
       - reflexivity. }
  rewrite (initialize_run _ _ _ _ Hurl F). unfold tryCatch, bind at 1.
  pose proof (incrementVisitorCount_run platform config (loadingState config st)) as Hinc.
  destruct (makeRequest platform config "POST" (loadingState config st))
    as [[count|e] st1] eqn:E1.
  - destruct Hinc as (x & con & -> & ->).
    match goal with
    | |- context [bind (updateVisitorCount platform config) ?k ?s] =>
        set (sA := s); unfold bind at 1;
        pose proof (updateVisitorCount_run platform config sA) as Hupd
    end.
    destruct (makeRequest platform config "GET" sA) as [[count2|e2] st2] eqn:E2.
    + destruct Hupd as (x2 & con2 & -> & ->). rewrite debugLog_None_eq.
      eexists. split; [reflexivity|]. right. right.
      exists (loadingState config st), sA. split; [reflexivity|]. rewrite E1, E2.
      split; [reflexivity|]. split; [eauto | reflexivity].
    + rewrite Hupd, handleError_run. cbn [snd]. rewrite handleError_run.
      eexists. split; [reflexivity|]. right. right.
      exists (loadingState config st), sA. split; [reflexivity|]. rewrite E1, E2.
      split; [reflexivity|]. split; [eauto | reflexivity].
  - rewrite Hinc, handleError_run. cbn [snd]. rewrite handleError_run.
    eexists. split; [reflexivity|]. right. left.
    exists (loadingState config st). split; [reflexivity|]. rewrite E1. reflexivity.
Qed.

(** X17: no failure escapes [initialize]: whatever the configuration, the
    page and the network, it completes without throwing. *)
Theorem initialize_never_throws platform config st :
  exists st', initialize platform config st = (Normal tt, st').
Proof.
  destruct (initialize_stages platform config st) as (st' & E & _). eauto.
Qed.

(** X18: whatever the network does, the requests of a page load are [POST]
    requests followed by [GET] requests, at most [MAX_RETRIES] of each, and a
    [GET] is only made after a [POST]: the read begins when the increment has
    returned. *)
Theorem page_load_requests_ordered platform config st :
  exists (a b : nat),
    fetchMethods (trace (snd (initialize platform config st))) =
      fetchMethods (trace st) ++ replicate a "POST" ++ replicate b "GET" /\
    (a <= Z.to_nat (MAX_RETRIES config))%nat /\
    (b <= Z.to_nat (MAX_RETRIES config))%nat /\
    (b <> 0%nat -> a <> 0%nat).
Proof.
  destruct (initialize_stages platform config st) as (st' & -> & H). cbn [snd].
  destruct H as [H|[(s0 & H0 & H)|(s0 & s1 & H0 & H1 & [count Hc] & H)]].
  - exists 0%nat, 0%nat. rewrite H. cbn. rewrite app_nil_r. repeat split; lia.
  - destruct (makeRequest_methods platform config "POST" s0) as (a & Ha & Hm).
    exists a, 0%nat. rewrite H, Hm, H0. cbn. rewrite app_nil_r. repeat split; lia.
  - destruct (makeRequest_methods_returned platform config "POST" s0 count Hc)
      as (a & Ha & Hm).
    destruct (makeRequest_methods platform config "GET" s1) as (b & Hb & Hm').
    exists a, b. rewrite H, Hm', H1, Hm, H0, <- app_assoc.
    split; [reflexivity|]. split; [lia|]. split; [exact Hb | lia].
Qed.

Lemma page_load_example_methods :
  fetchMethods
    (trace (snd (initialize
                   (scripted [Rejects (TypeError "Failed to fetch");
                              Resolves (jsonResponse (VNumber (Int 1)));
                              Resolves (mkResponse 500 None (Normal VNull))])
                   CONFIG freshPage))) = ["POST"; "POST"; "GET"; "GET"].
Proof. vm_compute. reflexivity. Qed.

(** *** A page load that goes well, and one whose read fails *)

Lemma findNode_is_Some_Element j e kids :
  is_Some (DOM.findNode j (Element e kids)) <->
  String.eqb (id e) j = true \/ is_Some (DOM.findIn j kids).
Proof.
  rewrite findNode_Element. destruct (String.eqb (id e) j).
  - split; [left; reflexivity | intros _; eauto].
  - split; [right; assumption | intros [H|H]; [discriminate | exact H]].
Qed.

(** An update keeps findable what was findable in the updated element. *)
Lemma updateNode_exposes i j f n : forall el n',
  DOM.findNode i n = Some el ->
  DOM.updateNode i f n = Some n' ->
  is_Some (DOM.findNode j (DOM.toNode (f el))) ->
  is_Some (DOM.findNode j n').
Proof.
  induction n as [data|e kids IH] using Node_nested_ind; intros el n'; [discriminate|].
  rewrite findNode_Element, updateNode_Element.
  destruct (String.eqb (id e) i) eqn:E.
  - intros [= <-] [= <-] H. exact H.
  - intros F U H.
    destruct (DOM.updateIn i f kids) as [kids'|] eqn:Uk; [|discriminate].
    injection U as <-. apply findNode_is_Some_Element. right.
    clear E. revert kids' Uk F.
    induction IH as [|c rest Hc _ IHr]; intros kids' Uk F; cbn [DOM.findIn DOM.updateIn] in *;
      [discriminate|].
    destruct (DOM.findNode i c) as [elc|] eqn:Fc.
    + injection F as ->.
      destruct (updateNode_found i f _ _ Fc) as (c' & Uc & _). rewrite Uc in Uk.
      injection Uk as <-. cbn [DOM.findIn].
      destruct (Hc _ _ eq_refl Uc H) as [y ->]. eauto.
    + rewrite (updateNode_missing _ _ _ Fc) in Uk.
      destruct (DOM.updateIn i f rest) as [rest'|] eqn:Ur; [|discriminate].
      injection Uk as <-. cbn [DOM.findIn].
      destruct (DOM.findNode j c); [eauto|]. now apply IHr.
Qed.

Lemma updateIn_exposes i j f l : forall el l',
  DOM.findIn i l = Some el ->
  DOM.updateIn i f l = Some l' ->
  is_Some (DOM.findNode j (DOM.toNode (f el))) ->
  is_Some (DOM.findIn j l').
Proof.
  induction l as [|c rest IH]; intros el l' F U H; cbn [DOM.findIn DOM.updateIn] in *;
    [discriminate|].
  destruct (DOM.findNode i c) as [elc|] eqn:Fc.
  - injection F as ->.
    destruct (updateNode_found i f _ _ Fc) as (c' & Uc & _). rewrite Uc in U.
    injection U as <-. cbn [DOM.findIn].
    destruct (updateNode_exposes i j f c _ _ Fc Uc H) as [y ->]. eauto.
  - rewrite (updateNode_missing _ _ _ Fc) in U.
    destruct (DOM.updateIn i f rest) as [rest'|] eqn:Ur; [|discriminate].
    injection U as <-. cbn [DOM.findIn].
    destruct (DOM.findNode j c); [eauto|]. now apply (IH el).
Qed.

(** After the loading state is rendered, the page has a value element. *)
Lemma loadingState_has_value config st el :
  DOM.getElementById (ELEMENT_ID config) (document st) = Some el ->
  is_Some (DOM.getElementById "count-value" (document (loadingState config st))).
Proof.
  unfold DOM.getElementById, loadingState, withDocument, DOM.updateElementById.
  cbn [document withConsole]. destruct (String.eqb (ELEMENT_ID config) ""); [discriminate|].
  intros F. destruct (updateIn_found (ELEMENT_ID config) (DOM.setInnerHTML loadingMarkup) _ _ F)
    as (doc' & U & _).
  rewrite U. cbn [default String.eqb].
  apply (updateIn_exposes _ _ _ _ _ _ F U).
  unfold DOM.toNode, DOM.setInnerHTML, loadingMarkup. cbn [fst snd].
  apply findNode_is_Some_Element. right. cbn. eauto.
Qed.

(** X19: on a page with a valid endpoint and the container, when the first
    two fetch calls are answered with responses that carry valid counts, the
    page load makes one [POST] and then one [GET], takes no delay, and ends
    with the digits of the count of the [GET] in the storage, as the text of
    the value element and in its label. *)
Theorem page_load_shows_read_count platform config st el r1 x1 r2 x2 :
  isValidUrl platform (API_URL config) = true ->
  DOM.getElementById (ELEMENT_ID config) (document st) = Some el ->
  1 <= MAX_RETRIES config ->
  aborted st = false ->
  (forall url options,
     network platform (length (fetchCalls (trace st))) url options = Resolves r1) ->
  (forall url options,
     network platform (S (length (fetchCalls (trace st)))) url options = Resolves r2) ->
  attemptError (Resolves r1) = None -> readCount config r1 = Normal (VNumber x1) ->
  attemptError (Resolves r2) = None -> readCount config r2 = Normal (VNumber x2) ->
  exists st' el',
    initialize platform config st = (Normal tt, st') /\
    fetchMethods (trace st') = fetchMethods (trace st) ++ ["POST"; "GET"] /\
    delays (trace st') = delays (trace st) /\
    localStorage st' =
      <["visitorCount" := removeNonDigits (Number.toString x2)]> (localStorage st) /\
    DOM.getElementById "count-value" (document st') = Some el' /\
    DOM.textContent el' = removeNonDigits (Number.toString x2) /\
    DOM.getAttribute "aria-label" el' =
      Some ("Visitor count: " +:+ removeNonDigits (Number.toString x2)).
Proof.
  intros Hurl F Hmax Hab Hnet1 Hnet2 He1 Hr1 He2 Hr2.
  destruct (loadingState_has_value config st el F) as [elv Fv].
  rewrite (initialize_run _ _ _ _ Hurl F). unfold tryCatch, bind at 1.
  destruct (makeRequest_answered platform config "POST" (loadingState config st) r1
              Hmax Hab Hnet1 He1) as (st1 & E1 & [Hd1 Hl1] & Hs1 & Hab1).
  rewrite Hr1 in E1.
  pose proof (incrementVisitorCount_run platform config (loadingState config st)) as Hinc.
  rewrite E1 in Hinc. destruct Hinc as (x & con & [= <-] & ->).
  match goal with
  | |- context [bind (updateVisitorCount platform config) ?k ?s] => set (sA := s)
  end.
  assert (length (fetchCalls (trace sA)) = S (length (fetchCalls (trace st)))) as Hlen.
  { subst sA. cbn [trace]. rewrite (fetchCalls_schedule (trace st1)), Hs1.
    rewrite List.filter_app, length_app.
    change (trace (loadingState config st)) with (trace st).
    rewrite <- fetchCalls_schedule. cbn. lia. }
  assert (forall url options,
            network platform (length (fetchCalls (trace sA))) url options = Resolves r2)
    as Hnet2'.
  { intros. rewrite Hlen. apply Hnet2. }
  destruct (makeRequest_answered platform config "GET" sA r2 Hmax Hab1 Hnet2' He2)
    as (st2 & E2 & [Hd2 Hl2] & Hs2 & _).
  rewrite Hr2 in E2.
  pose proof (updateVisitorCount_run platform config sA) as Hupd.
  rewrite E2 in Hupd. destruct Hupd as (x' & con' & [= <-] & Hupd).
  unfold bind at 1. rewrite Hupd, debugLog_None_eq.
  eexists _, (countRender (Some (removeNonDigits (Number.toString x2)))
                (countRender (Some (removeNonDigits (Number.toString x1))) elv)).
  split; [reflexivity|].
  cbn [withConsole trace localStorage document].
  split; [|split; [|split; [|split; [|split]]]].
  - rewrite (fetchMethods_schedule (trace st2)), Hs2. subst sA. cbn [trace].
    rewrite Hs1. change (trace (loadingState config st)) with (trace st).
    rewrite !fetchMethods_app, <- fetchMethods_schedule, <- app_assoc. reflexivity.
  - rewrite (delays_schedule (trace st2)), Hs2. subst sA. cbn [trace].
    rewrite Hs1. change (trace (loadingState config st)) with (trace st).
    rewrite !delays_app, <- delays_schedule. cbn. now rewrite !app_nil_r.
  - rewrite Hl2. subst sA. cbn [localStorage]. rewrite Hl1.
    change (localStorage (loadingState config st)) with (localStorage st).
    apply insert_insert_eq.
  - rewrite Hd2. subst sA. cbn [document].
    apply getElementById_update; [|reflexivity].
    rewrite Hd1. now apply getElementById_update.
  - apply textContent_countRender.
  - unfold DOM.getAttribute, countRender, DOM.setAttribute. cbn [fst default].
    apply lookup_insert_eq.
Qed.

Lemma page_load_shows_read_count_witness :
  exists st' el',
    initialize
      (scripted [Resolves (jsonResponse (VNumber (Int 42)));
                 Resolves (jsonResponse (VNumber (Int 43)))])
      CONFIG freshPage = (Normal tt, st') /\
    fetchMethods (trace st') = ["POST"; "GET"] /\
    localStorage st' !! "visitorCount" = Some "43" /\
    DOM.getElementById "count-value" (document st') = Some el' /\
    DOM.textContent el' = "43".
Proof.
  destruct (page_load_shows_read_count
              (scripted [Resolves (jsonResponse (VNumber (Int 42)));
                         Resolves (jsonResponse (VNumber (Int 43)))])
              CONFIG freshPage (mkElement "visitor-count" [] ∅, [])
              (jsonResponse (VNumber (Int 42))) (Int 42)
              (jsonResponse (VNumber (Int 43))) (Int 43))
    as (st' & el' & E & Hm & _ & Hl & Hf & Ht & _).
  - reflexivity.
  - reflexivity.
  - vm_compute. discriminate.
  - reflexivity.
  - reflexivity.
  - reflexivity.
  - reflexivity.
  - reflexivity.
  - reflexivity.
  - reflexivity.
  - exists st', el'. split; [exact E|]. split; [exact Hm|]. split.
    + rewrite Hl. apply lookup_insert_eq.
    + split; [exact Hf | exact Ht].
Defined.

(** X20: when the increment has succeeded and the read that follows fails,
    [initialize] still completes; the storage keeps the count of the
    increment, and the container, when it is still in the document, shows
    the error state. *)
Theorem failed_read_keeps_stored_count platform config st el count st1 e st2 :
  isValidUrl platform (API_URL config) = true ->
  DOM.getElementById (ELEMENT_ID config) (document st) = Some el ->
  incrementVisitorCount platform config (loadingState config st) = (Normal count, st1) ->
  updateVisitorCount platform config st1 = (Throw e, st2) ->
  exists st' x,
    initialize platform config st = (Normal tt, st') /\
    count = VNumber x /\
    localStorage st' !! "visitorCount" = Some (removeNonDigits (Number.toString x)) /\
    localStorage st' = localStorage st1 /\
    fetchMethods (trace st') = fetchMethods (trace st2) /\
    (forall el1,
       DOM.getElementById (ELEMENT_ID config) (document st1) = Some el1 ->
       exists el',
         DOM.getElementById (ELEMENT_ID config) (document st') = Some el' /\
         showsError el').
Proof.
  intros Hurl F Hinc Hupd.
  rewrite (initialize_run _ _ _ _ Hurl F). unfold tryCatch, bind at 1. rewrite Hinc.
  unfold bind at 1. rewrite Hupd, handleError_run.
  pose proof (incrementVisitorCount_run platform config (loadingState config st)) as Hrun.
  destruct (makeRequest platform config "POST" (loadingState config st)) as [[c|e0] s1];
    [|rewrite Hinc in Hrun; discriminate].
  destruct Hrun as (x & con & -> & Hrun). rewrite Hinc in Hrun. injection Hrun as -> ->.
  pose proof (updateVisitorCount_run platform config
    (mkState
       (DOM.updateElementById "count-value"
          (countRender (Some (removeNonDigits (Number.toString x)))) (document s1))
       (csrfMeta s1)
       (<["visitorCount" := removeNonDigits (Number.toString x)]> (localStorage s1))
       (aborted s1) (uuids s1) (trace s1) con)) as Hrun2.
  pose proof (makeRequest_requestsOnly platform config "GET"
    (mkState
       (DOM.updateElementById "count-value"
          (countRender (Some (removeNonDigits (Number.toString x)))) (document s1))
       (csrfMeta s1)
       (<["visitorCount" := removeNonDigits (Number.toString x)]> (localStorage s1))
       (aborted s1) (uuids s1) (trace s1) con)) as [[Hd Hl] _].
  destruct (makeRequest platform config "GET" _) as [[c2|e2] s2].
  { destruct Hrun2 as (x2 & con2 & _ & Hrun2). rewrite Hupd in Hrun2. discriminate. }
  rewrite Hupd in Hrun2. injection Hrun2 as <- ->.
  repeat (rewrite handleError_run; cbn [snd]).
  cbn [snd] in Hd, Hl. cbn [document localStorage] in Hd, Hl.
  eexists _, x. split; [reflexivity|]. split; [reflexivity|].
  cbn [withDocument withConsole localStorage trace document].
  split; [rewrite Hl; apply lookup_insert_eq|]. split; [exact Hl|]. split; [reflexivity|].
  intros el1 F1. rewrite Hd.
  exists (errorRender (errorRender el1)). split; [|apply errorRender_shows].
  apply getElementById_update; [|reflexivity].
  now apply getElementById_update.
Qed.

Lemma failed_read_keeps_stored_count_witness :
  exists st' x,
    initialize (scripted [Resolves (jsonResponse (VNumber (Int 42))); Pending])
      CONFIG freshPage = (Normal tt, st') /\
    VNumber (Int 42) = VNumber x /\
    localStorage st' !! "visitorCount" = Some (removeNonDigits (Number.toString x)).
Proof.
  destruct (incrementVisitorCount
              (scripted [Resolves (jsonResponse (VNumber (Int 42))); Pending])
              CONFIG (loadingState CONFIG freshPage)) as [c1 st1] eqn:E1.
  destruct (updateVisitorCount
              (scripted [Resolves (jsonResponse (VNumber (Int 42))); Pending])
              CONFIG st1) as [c2 st2] eqn:E2.
  assert (c1 = Normal (VNumber (Int 42))) as ->.
  { vm_compute in E1. now injection E1 as <- _. }
  assert (exists e, c2 = Throw e) as [e ->].
  { vm_compute in E1. injection E1 as <-. vm_compute in E2. injection E2 as <- _. eauto. }
  destruct (failed_read_keeps_stored_count
              (scripted [Resolves (jsonResponse (VNumber (Int 42))); Pending])
              CONFIG freshPage
              (mkElement "visitor-count" [] ∅, []) _ _ _ _ eq_refl eq_refl E1 E2)
    as (st' & x & E & Hx & Hl & _).
  exists st', x. split; [exact E|]. split; [exact Hx | exact Hl].
Defined.

(** *** Debug logging *)

Lemma sameConsole_refl st : sameConsole st st.
Proof. reflexivity. Qed.

Lemma sameConsole_trans a b c : sameConsole a b -> sameConsole b c -> sameConsole a c.
Proof. unfold sameConsole. congruence. Qed.

Lemma debugLog_off config msg arg :
  DEBUG config = false -> debugLog config msg arg = ret tt.
Proof. intros H. unfold debugLog. now rewrite H. Qed.

Ltac quiet_step H :=
  match goal with
  | |- keeps _ (debugLog _ _ _) =>
      rewrite (debugLog_off _ _ _ H); apply (keeps_ret _ sameConsole_refl)
  | |- keeps _ (bind _ _) => apply (keeps_bind _ sameConsole_trans); [|intros ?]
  | |- keeps _ (tryCatch _ _) => apply (keeps_tryCatch _ sameConsole_trans); [|intros ?]
  | |- keeps _ (ret _) => apply (keeps_ret _ sameConsole_refl)
  | |- keeps _ (throw _) => apply (keeps_throw _ sameConsole_refl)
  | |- keeps _ (lift _) => apply (keeps_lift _ sameConsole_refl)
  | |- keeps _ (if ?b then _ else _) => destruct b
  | |- keeps _ (match ?x with _ => _ end) => destruct x
  | |- keeps _ (emit _) => intros ?; reflexivity
  | |- keeps _ (setItem _ _) => intros ?; reflexivity
  | |- keeps _ (getItem _) => intros ?; reflexivity
  | |- keeps _ (setDocument _) => intros ?; reflexivity
  | |- keeps _ (freshUUID _) => intros ?; reflexivity
  | |- keeps _ csrfToken => intros ?; reflexivity
  end.

Lemma fetch_quiet platform url options : keeps sameConsole (fetch platform url options).
Proof.
  intros st. unfold fetch, sameConsole. cbv zeta.
  destruct (aborted st); [reflexivity|].
  destruct (network platform _ url options); reflexivity.
Qed.

Lemma attempt_quiet platform config i url options :
  DEBUG config = false -> keeps sameConsole (attempt platform config i url options).
Proof.
  intros H. unfold attempt.
  repeat first
    [ match goal with |- keeps _ (fetch _ _ _) => apply fetch_quiet end
    | quiet_step H ].
Qed.

Lemma attemptsFrom_quiet platform config url options remaining :
  DEBUG config = false ->
  forall i, keeps sameConsole (attemptsFrom platform config remaining i url options).
Proof.
  intros H. induction remaining as [|remaining IH]; intros i; cbn [attemptsFrom].
  - quiet_step H.
  - quiet_step H; [now apply attempt_quiet|].
    destruct a; [quiet_step H | apply IH].
Qed.

Lemma makeRequest_quiet platform config m :
  DEBUG config = false -> keeps sameConsole (makeRequest platform config m).
Proof.
  intros H. unfold makeRequest.
  repeat first
    [ match goal with
      | |- keeps _ (fetchWithRetryAndTimeout _ _ _ _) =>
          apply attemptsFrom_quiet; exact H
      end
    | quiet_step H ].
Qed.

Lemma updateDOM_quiet config count :
  DEBUG config = false -> keeps sameConsole (updateDOM config count).
Proof.
  intros H. unfold updateDOM. do 2 (quiet_step H; [quiet_step H|]).
  intros st. destruct (DOM.getElementById "count-value" (document st)).
  - unfold bind, getItem, setDocument. cbn [fst snd].
    rewrite (debugLog_off _ _ _ H). reflexivity.
  - rewrite (debugLog_off _ _ _ H). reflexivity.
Qed.

Lemma handleError_quiet config msg arg :
  DEBUG config = false -> keeps sameConsole (handleError config msg arg).
Proof.
  intros H. unfold handleError. rewrite (debugLog_off _ _ _ H).
  intros st. unfold bind, ret. cbn [fst snd].
  destruct (DOM.getElementById (ELEMENT_ID config) (document st)); reflexivity.
Qed.

Ltac quiet_call H :=
  match goal with
  | |- keeps _ (makeRequest _ _ _) => apply makeRequest_quiet; exact H
  | |- keeps _ (updateDOM _ _) => apply updateDOM_quiet; exact H
  | |- keeps _ (handleError _ _ _) => apply handleError_quiet; exact H
  end.

Lemma updateVisitorCount_quiet platform config :
  DEBUG config = false -> keeps sameConsole (updateVisitorCount platform config).
Proof.
  intros H. unfold updateVisitorCount. repeat first [ quiet_call H | quiet_step H ].
Qed.

Lemma incrementVisitorCount_quiet platform config :
  DEBUG config = false -> keeps sameConsole (incrementVisitorCount platform config).
Proof.
  intros H. unfold incrementVisitorCount. repeat first [ quiet_call H | quiet_step H ].
Qed.

Lemma initialize_quiet platform config :
  DEBUG config = false -> keeps sameConsole (initialize platform config).
Proof.
  intros H. unfold initialize.
  quiet_step H; [quiet_step H|].
  quiet_step H; [|quiet_call H].
  quiet_step H; [repeat quiet_step H|].
  quiet_step H.
  { intros st. destruct (DOM.getElementById (ELEMENT_ID config) (document st)); reflexivity. }
  quiet_step H; [now apply incrementVisitorCount_quiet|].
  quiet_step H; [now apply updateVisitorCount_quiet|].
  quiet_step H.
Qed.

(** X21: with [DEBUG] off nothing is written to the console: not by a page
    load, not by either request operation, not by the rendering of a count
    or of an error, whatever the network answers and whatever is logged. *)
Theorem debug_off_console_untouched platform config st :
  DEBUG config = false ->
  console (snd (initialize platform config st)) = console st /\
  console (snd (incrementVisitorCount platform config st)) = console st /\
  console (snd (updateVisitorCount platform config st)) = console st /\
  (forall count, console (snd (updateDOM config count st)) = console st) /\
  (forall msg arg, console (snd (handleError config msg arg st)) = console st).
Proof.
  intros H. split; [|split; [|split; [|split]]].
  - now apply initialize_quiet.
  - now apply incrementVisitorCount_quiet.
  - now apply updateVisitorCount_quiet.
  - intros count. now apply updateDOM_quiet.
  - intros msg arg. now apply handleError_quiet.
Qed.

Lemma debug_off_console_untouched_witness :
  console (snd (initialize (scripted [Rejects (TypeError "Failed to fetch")])
                  (mkConfig (API_URL CONFIG) (ELEMENT_ID CONFIG) (MAX_RETRIES CONFIG)
                     (RETRY_DELAY CONFIG) (TIMEOUT CONFIG) false)
                  freshPage)) = console freshPage.
Proof.
  destruct (debug_off_console_untouched
              (scripted [Rejects (TypeError "Failed to fetch")])
              (mkConfig (API_URL CONFIG) (ELEMENT_ID CONFIG) (MAX_RETRIES CONFIG)
                 (RETRY_DELAY CONFIG) (TIMEOUT CONFIG) false)
              freshPage eq_refl) as [E _].
  exact E.
Defined.

(** X22: debug logging is not only observation.  A response whose body has
    a valid count and a [message] member that cannot be converted to a
    string is accepted with [DEBUG] off; with [DEBUG] on, logging the body
    throws, and the request fails with that error after its one fetch
    call. *)
Theorem debug_logging_decides_outcome platform config m st r data msg e count :
  1 <= MAX_RETRIES config ->
  aborted st = false ->
  (forall url options,
     network platform (length (fetchCalls (trace st))) url options = Resolves r) ->
  attemptError (Resolves r) = None ->
  json r = Normal data ->
  ToBoolean data = true ->
  getProperty data "message" = Normal msg ->
  ToString msg = Throw e ->
  getProperty data "count" = Normal count ->
  isValidVisitorCount count = Normal true ->
  fst (makeRequest platform config m st) =
    (if DEBUG config then Throw e else Normal count) /\
  length (fetchCalls (trace (snd (makeRequest platform config m st)))) =
    S (length (fetchCalls (trace st))).
Proof.
  intros Hmax Hab Hnet Herr Hj Hb Hm Ht Hc Hv.
  destruct (makeRequest_answered platform config m st r Hmax Hab Hnet Herr)
    as (st' & E & _ & Hs & _).
  rewrite E. cbn [fst snd]. split.
  - unfold readCount, logFailure. rewrite Hj, Hb, Hm, Ht, Hc, Hv.
    destruct (DEBUG config); reflexivity.
  - rewrite (fetchCalls_schedule (trace st')), Hs, List.filter_app, length_app.
    rewrite <- fetchCalls_schedule. cbn. lia.
Qed.

Lemma debug_logging_decides_outcome_witness :
  fst (makeRequest
         (scripted
            [Resolves (mkResponse 200 (Some "application/json")
               (Normal (VObject [("count", VNumber (Int 5));
                                 ("message", VObject [("toString", VNumber (Int 1))])])))])
         CONFIG "GET" freshPage) =
  Throw (TypeError "Cannot convert object to primitive value").
Proof.
  refine (proj1 (debug_logging_decides_outcome
           (scripted
              [Resolves (mkResponse 200 (Some "application/json")
                 (Normal (VObject [("count", VNumber (Int 5));
                                   ("message", VObject [("toString", VNumber (Int 1))])])))])
           CONFIG "GET" freshPage
           (mkResponse 200 (Some "application/json")
              (Normal (VObject [("count", VNumber (Int 5));
                                ("message", VObject [("toString", VNumber (Int 1))])])))
           (VObject [("count", VNumber (Int 5));
                     ("message", VObject [("toString", VNumber (Int 1))])])
           (VObject [("toString", VNumber (Int 1))])
           (TypeError "Cannot convert object to primitive value")
           (VNumber (Int 5)) _ _ _ _ _ _ _ _ _ _)).
  - vm_compute. discriminate.
  - reflexivity.
  - reflexivity.
  - reflexivity.
  - reflexivity.
  - reflexivity.
  - reflexivity.
  - reflexivity.
  - reflexivity.
  - vm_compute. reflexivity.
Defined.

(** *** The life cycle: construction, the ready event, unload *)

Lemma String_eqb_neq (a b : string) : a <> b -> String.eqb a b = false.
Proof. intros H. now apply String.eqb_neq. Qed.

(** X23: the constructor starts the page load exactly once.  On a document
    that is still loading it makes no request and leaves document and
    storage alone; the page load runs when [DOMContentLoaded] is dispatched.
    On a document in any other ready state the page load runs in the
    constructor, and a later [DOMContentLoaded] changes nothing.  Either way
    [initialize] starts from the same state: the page with a fresh
    controller, after the constructor's log line. *)
Theorem page_load_runs_once platform config h :
  listeners h = [] ->
  let started :=
    snd (debugLog config "Initializing VisitorCounter" None (newController (page h))) in
  let loaded := snd (initialize platform config started) in
  let h1 := construct platform config h in
  (readyState h = "loading" ->
     page h1 = started /\
     trace (page h1) = trace (page h) /\
     samePage (page h) (page h1) /\
     page (dispatchEvent platform config "DOMContentLoaded" h1) = loaded) /\
  (readyState h <> "loading" ->
     page h1 = loaded /\
     dispatchEvent platform config "DOMContentLoaded" h1 = h1).
Proof.
  intros Hl. cbv zeta.
  unfold construct, initializeEventListeners, addEventListener, run, dispatchEvent.
  cbn [page readyState listeners]. rewrite Hl. split.
  - intros ->. cbn [String.eqb Ascii.eqb Bool.eqb page readyState listeners app fold_left fst snd
                    runListener].
    rewrite debugLog_None_eq. cbn [snd]. repeat split; reflexivity.
  - intros Hr. rewrite (String_eqb_neq _ _ Hr).
    cbn [page readyState listeners app fold_left fst snd String.eqb Ascii.eqb Bool.eqb].
    split; reflexivity.
Qed.

Lemma page_load_runs_once_witness :
  fetchMethods
    (trace (page (construct (scripted [Resolves (jsonResponse (VNumber (Int 42)))]) CONFIG
                    (mkHost freshPage "loading" [])))) = [] /\
  fetchMethods
    (trace (page (dispatchEvent (scripted [Resolves (jsonResponse (VNumber (Int 42)))]) CONFIG
                    "DOMContentLoaded"
                    (construct (scripted [Resolves (jsonResponse (VNumber (Int 42)))]) CONFIG
                       (mkHost freshPage "loading" []))))) = ["POST"; "GET"].
Proof.
  destruct (page_load_runs_once (scripted [Resolves (jsonResponse (VNumber (Int 42)))])
              CONFIG (mkHost freshPage "loading" []) eq_refl) as [H _].
  destruct (H eq_refl) as (_ & Ht & _ & Hp). split.
  - rewrite Ht. reflexivity.
  - rewrite Hp. vm_compute. reflexivity.
Defined.

(** X24: the [unload] listener aborts the controller and changes nothing
    else but the console; every request made afterwards makes its one fetch
    call and fails with [Request timed out], whatever the network would
    answer. *)
Theorem unload_aborts_requests platform config h m :
  listeners h = [] ->
  1 <= MAX_RETRIES config ->
  let h1 := construct platform config h in
  let h2 := dispatchEvent platform config "unload" h1 in
  aborted (page h2) = true /\
  samePage (page h1) (page h2) /\
  trace (page h2) = trace (page h1) /\
  console (page h2) = console (page h1) ++ logLines config "Cleaning up resources" None /\
  exists st',
    makeRequest platform config m (page h2) = (Throw (Error "Request timed out"), st') /\
    length (fetchCalls (trace st')) = S (length (fetchCalls (trace (page h2)))).
Proof.
  intros Hl Hmax. cbv zeta.
  assert (forall h1,
            listeners h1 = [("unload", OnUnload)] \/
            listeners h1 = [("DOMContentLoaded", OnReady); ("unload", OnUnload)] ->
            page (dispatchEvent platform config "unload" h1) =
              snd (cleanup config (page h1))) as Hd.
  { intros h1 [E|E]; unfold dispatchEvent; rewrite E; reflexivity. }
  assert (listeners (construct platform config h) = [("unload", OnUnload)] \/
          listeners (construct platform config h) =
            [("DOMContentLoaded", OnReady); ("unload", OnUnload)]) as Hc.
  { unfold construct, initializeEventListeners, addEventListener, run.
    cbn [page readyState listeners]. rewrite Hl.
    destruct (String.eqb (readyState h) "loading"); [right | left]; reflexivity. }
  rewrite (Hd _ Hc). unfold cleanup, bind, abort. rewrite debugLog_None_eq.
  cbn [snd withConsole aborted document localStorage trace console].
  split; [reflexivity|]. split; [split; reflexivity|]. split; [reflexivity|].
  split; [reflexivity|].
  match goal with
  | |- context [makeRequest platform config m ?s] =>
      destruct (makeRequest_aborted platform config m s Hmax eq_refl)
        as (st' & E & Hs & _)
  end.
  exists st'. split; [exact E|].
  rewrite (fetchCalls_schedule (trace st')), Hs, List.filter_app, length_app.
  rewrite <- fetchCalls_schedule. cbn [trace List.filter isFetch length]. lia.
Qed.

Lemma unload_aborts_requests_witness :
  aborted
    (page (dispatchEvent (scripted [Resolves (jsonResponse (VNumber (Int 42)))]) CONFIG
             "unload"
             (construct (scripted [Resolves (jsonResponse (VNumber (Int 42)))]) CONFIG
                (mkHost freshPage "loading" [])))) = true.
Proof.
  refine (proj1 (unload_aborts_requests
                   (scripted [Resolves (jsonResponse (VNumber (Int 42)))]) CONFIG
                   (mkHost freshPage "loading" []) "GET" eq_refl _)).
  vm_compute. discriminate.
Defined.

(** *** The validation of the earlier script *)

Lemma nearestDouble_pos z v :
  0 < z -> Number.nearestDouble z = Some v -> 0 < v.
Proof.
  intros Hz. unfold Number.nearestDouble.
  destruct (z <=? 2 ^ 53) eqn:E; [now intros [= <-]|].
  cbv zeta.
  assert (2 ^ 53 < z) as Hbig by lia.
  assert (53 <= Z.log2 z) as Hlog by (apply Z.log2_le_pow2; lia).
  assert (0 < 2 ^ (Z.log2 z - 52)) as Hpow by (apply Z.pow_pos_nonneg; lia).
  assert (2 ^ (Z.log2 z - 52) <= z) as Hle.
  { transitivity (2 ^ Z.log2 z); [apply Z.pow_le_mono_r; lia|].
    apply Z.log2_spec; lia. }
  assert (0 < z / 2 ^ (Z.log2 z - 52)) as Hq by (apply Z.div_str_pos; lia).
  intros H. repeat case_match; simplify_eq; apply Z.mul_pos_pos; lia.
Qed.

Lemma ofInteger_positive v :
  0 < v ->
  Number.isNaN (Number.ofInteger v) = false /\
  Number.ge (Number.ofInteger v) (Int 0) = true.
Proof.
  intros Hv. unfold Number.ofInteger. rewrite Z.abs_eq by lia.
  destruct (Number.nearestDouble v) as [w|] eqn:E.
  - pose proof (nearestDouble_pos v w Hv E). rewrite Z.sgn_pos by lia.
    split; [reflexivity|]. unfold Number.ge, Number.le. cbn [Number.toFraction]. lia.
  - split; [reflexivity|]. replace (v <? 0) with false by lia. reflexivity.
Qed.

Lemma ofInteger_negative v :
  0 < v -> Number.ge (Number.ofInteger (- v)) (Int 0) = false.
Proof.
  intros Hv. unfold Number.ofInteger. rewrite Z.abs_opp, Z.abs_eq by lia.
  destruct (Number.nearestDouble v) as [w|] eqn:E.
  - pose proof (nearestDouble_pos v w Hv E). rewrite Z.sgn_neg by lia.
    unfold Number.ge, Number.le. cbn [Number.toFraction]. lia.
  - replace (- v <? 0) with true by lia. reflexivity.
Qed.

Lemma digitValue_digit c : isDigit c = true -> 0 <= digitValue c <= 9.
Proof. unfold isDigit, digitValue. lia. Qed.

Lemma digitsValue_lower s : forall acc,
  0 <= acc -> allDigits s = true -> acc <= digitsValue acc s.
Proof.
  induction s as [|c r IH]; intros acc Hacc H; cbn [digitsValue allDigits] in *; [lia|].
  apply andb_true_iff in H as [Hc Hr].
  pose proof (digitValue_digit c Hc).
  specialize (IH (10 * acc + digitValue c) ltac:(lia) Hr). lia.
Qed.

Lemma allDigits_digitPrefix s : allDigits (digitPrefix s) = true.
Proof.
  induction s as [|c r IH]; [reflexivity|]. cbn [digitPrefix].
  destruct (isDigit c) eqn:E; [|reflexivity]. cbn [allDigits]. now rewrite E.
Qed.

(** [parseInt] of a string that begins with a decimal digit. *)
Lemma parseInt10_leading_digit c r :
  isDigit c = true ->
  parseInt10 (VString (String c r)) =
  Normal (if digitsValue 0 (digitPrefix (String c r)) =? 0 then Int 0
          else Number.ofInteger (digitsValue 0 (digitPrefix (String c r)))).
Proof.
  intros Hc. unfold parseInt10. cbn [ToString].
  assert (trimStart (String c r) = String c r) as ->.
  { cbn. replace (isWhiteSpace c) with false; [reflexivity|].
    unfold isDigit, isWhiteSpace in *. lia. }
  assert (c <> "-"%char /\ c <> "+"%char) as [Hm Hp].
  { split; intros ->; discriminate. }
  assert (forall A (x y : A),
            match String c r with String "-" _ => x | _ => y end = y) as Hsign.
  { intros A x y.
    destruct c as [[] [] [] [] [] [] [] []]; try reflexivity. now contradiction Hm. }
  assert (match String c r with
          | String "+" rest | String "-" rest => rest
          | _ => String c r
          end = String c r) as Hunsigned.
  { destruct c as [[] [] [] [] [] [] [] []]; try reflexivity;
      [now contradiction Hp | now contradiction Hm]. }
  rewrite Hunsigned. rewrite (Hsign bool true false). cbv zeta.
  cbn [digitPrefix]. rewrite Hc.
  destruct (digitsValue 0 (String c (digitPrefix r)) =? 0); reflexivity.
Qed.

(** [parseInt] of a string that begins with none of what it reads. *)
Lemma parseInt10_no_number c r :
  isDigit c = false -> isWhiteSpace c = false -> c <> "+"%char -> c <> "-"%char ->
  parseInt10 (VString (String c r)) = Normal NaN.
Proof.
  intros Hd Hw Hp Hm. unfold parseInt10. cbn [ToString].
  assert (trimStart (String c r) = String c r) as ->.
  { cbn. now rewrite Hw. }
  assert (match String c r with
          | String "+" rest | String "-" rest => rest
          | _ => String c r
          end = String c r) as Hunsigned.
  { destruct c as [[] [] [] [] [] [] [] []]; try reflexivity;
      [now contradiction Hp | now contradiction Hm]. }
  rewrite Hunsigned. cbv zeta. cbn [digitPrefix]. rewrite Hd. reflexivity.
Qed.

(** X25: the validation of the earlier script reads the body as text.  It
    accepts every text that begins with a decimal digit, whatever follows
    and however large the number; it rejects a minus sign followed by the
    digits of a number other than zero, and every text that begins with
    none of a digit, a sign or white space, such as a JSON object.  The
    validation of the class rejects every string. *)
Theorem legacy_validation_on_text :
  (forall c r, isDigit c = true ->
     Legacy.isValidVisitorCount (VString (String c r)) = Normal true) /\
  (forall ds, ds <> "" -> allDigits ds = true -> digitsValue 0 ds <> 0 ->
     Legacy.isValidVisitorCount (VString (String "-" ds)) = Normal false) /\
  (forall c r,
     isDigit c = false -> isWhiteSpace c = false -> c <> "+"%char -> c <> "-"%char ->
     Legacy.isValidVisitorCount (VString (String c r)) = Normal false) /\
  (forall s, isValidVisitorCount (VString s) = Normal false).
Proof.
  split; [|split; [|split]].
  - intros c r Hc. unfold Legacy.isValidVisitorCount.
    rewrite (parseInt10_leading_digit c r Hc).
    pose proof (digitsValue_lower (digitPrefix (String c r)) 0 ltac:(lia)
                  (allDigits_digitPrefix _)) as Hv.
    destruct (digitsValue 0 (digitPrefix (String c r)) =? 0) eqn:E; [reflexivity|].
    destruct (ofInteger_positive (digitsValue 0 (digitPrefix (String c r))) ltac:(lia))
      as [-> ->].
    reflexivity.
  - intros ds Hne Hd Hv. unfold Legacy.isValidVisitorCount.
    assert (digitPrefix ds = ds) as Hp.
    { clear Hne Hv. induction ds as [|c r IH]; [reflexivity|].
      cbn [allDigits] in Hd. apply andb_true_iff in Hd as [Hc Hr].
      cbn [digitPrefix]. now rewrite Hc, IH. }
    rewrite (parseInt10_negative_digits ds Hne Hp).
    pose proof (digitsValue_lower ds 0 ltac:(lia) Hd).
    destruct (digitsValue 0 ds =? 0) eqn:E; [lia|].
    rewrite (ofInteger_negative (digitsValue 0 ds)) by lia.
    now rewrite andb_false_r.
  - intros c r Hd Hw Hp Hm. unfold Legacy.isValidVisitorCount.
    now rewrite (parseInt10_no_number c r Hd Hw Hp Hm).
  - intros s. reflexivity.
Qed.
